(** * Stories and posts management: story entity, story/comment stores and
    the gamification engine, as a shallow embedding of the Python sources
    under [storiesandpostsmanagement/].

    Conventions of the embedding:
    - Python [str] values are Rocq [string]s (ASCII); [len] is [String.length].
    - Timestamps compared as parsed [datetime]s ([created_at], [deleted_at],
      "now") are instants in microseconds ([Z]); the [scheduled_at] column is
      kept as text, because [find_all] compares it as text in SQL.
    - The SQLite database is a record of tables, each a list of rows in rowid
      order; an [UPDATE ... WHERE id = ?] maps over the rows, an
      [INSERT OR IGNORE] appends unless the unique key is already present. *)

From Stdlib Require Import ZArith List String Ascii Bool Lia Permutation Sorted.
Import ListNotations.
Open Scope string_scope.
Open Scope Z_scope.

(* ------------------------------------------------------------------ *)
(** ** Python string helpers *)

Definition ascii_eqb (a b : ascii) : bool := Ascii.eqb a b.

(** Characters [str.strip()] removes among ASCII: [\t \n \x0b \x0c \r],
    [\x1c]..[\x1f] and the space. *)
Definition py_isspace (c : ascii) : bool :=
  let n := nat_of_ascii c in
  ((9 <=? n) && (n <=? 13))%nat || ((28 <=? n) && (n <=? 32))%nat.

Fixpoint lstrip_by (p : ascii -> bool) (s : string) : string :=
  match s with
  | EmptyString => EmptyString
  | String c s' => if p c then lstrip_by p s' else s
  end.

Fixpoint rev_string (s : string) : string :=
  match s with
  | EmptyString => EmptyString
  | String c s' => rev_string s' ++ String c EmptyString
  end.

(** [s.strip()] *)
Definition py_strip (s : string) : string :=
  rev_string (lstrip_by py_isspace (rev_string (lstrip_by py_isspace s))).

(** [s.lstrip('#')]: removes every leading ['#']. *)
Definition lstrip_hash (s : string) : string :=
  lstrip_by (fun c => ascii_eqb c "#"%char) s.

(** Python truthiness of a string: [not s] is [s = ""]. *)
Definition py_truthy (s : string) : bool :=
  match s with EmptyString => false | _ => true end.

Definition str_in (s : string) (l : list string) : bool :=
  existsb (String.eqb s) l.

(* ------------------------------------------------------------------ *)
(** ** config.py *)

Definition VALID_CATEGORIES : list string :=
  ["Life Lessons"; "Historical Events"; "Family Traditions";
   "Career Journey"; "Hobbies & Skills"; "Travel Adventures"].

Definition VALID_PRIVACY_OPTIONS : list string :=
  ["Public"; "Friends Only"; "Specific Groups"].

Definition EDIT_LOCK_HOURS : Z := 24.
Definition SOFT_DELETE_DAYS : Z := 7.

Definition ACHIEVEMENT_RULE_TYPES : list string :=
  ["stories_created_total"; "comments_written_total"; "likes_received_total";
   "shares_received_total"; "days_active_streak"].

(* ------------------------------------------------------------------ *)
(** ** models/story_post.py *)

Record StoryPost := mkStoryPost {
  id : Z;
  author_id : option Z;
  caption : string;
  description : string;
  tags : list string;
  event_title : option string;
  category : string;
  privacy : string;
  allowed_groups : list string;
  scheduled_at : option string;
  media_paths : list string;
  likes_count : Z;
  comments_count : Z;
  shares_count : Z;
  created_at : Z;
  updated_at : Z;
  is_deleted : bool;
  deleted_at : option Z
}.

(** Python attribute assignments [story.f = v], one setter per field the
    code assigns. *)
Definition set_caption (v : string) (s : StoryPost) : StoryPost :=
  let 'mkStoryPost a b _ d e f g h i j k l m n o p q r := s in
  mkStoryPost a b v d e f g h i j k l m n o p q r.
Definition set_description (v : string) (s : StoryPost) : StoryPost :=
  let 'mkStoryPost a b c _ e f g h i j k l m n o p q r := s in
  mkStoryPost a b c v e f g h i j k l m n o p q r.
Definition set_tags (v : list string) (s : StoryPost) : StoryPost :=
  let 'mkStoryPost a b c d _ f g h i j k l m n o p q r := s in
  mkStoryPost a b c d v f g h i j k l m n o p q r.
Definition set_category (v : string) (s : StoryPost) : StoryPost :=
  let 'mkStoryPost a b c d e f _ h i j k l m n o p q r := s in
  mkStoryPost a b c d e f v h i j k l m n o p q r.
Definition set_privacy (v : string) (s : StoryPost) : StoryPost :=
  let 'mkStoryPost a b c d e f g _ i j k l m n o p q r := s in
  mkStoryPost a b c d e f g v i j k l m n o p q r.
Definition set_allowed_groups (v : list string) (s : StoryPost) : StoryPost :=
  let 'mkStoryPost a b c d e f g h _ j k l m n o p q r := s in
  mkStoryPost a b c d e f g h v j k l m n o p q r.
Definition set_media_paths (v : list string) (s : StoryPost) : StoryPost :=
  let 'mkStoryPost a b c d e f g h i j _ l m n o p q r := s in
  mkStoryPost a b c d e f g h i j v l m n o p q r.
Definition set_likes_count (v : Z) (s : StoryPost) : StoryPost :=
  let 'mkStoryPost a b c d e f g h i j k _ m n o p q r := s in
  mkStoryPost a b c d e f g h i j k v m n o p q r.
Definition set_comments_count (v : Z) (s : StoryPost) : StoryPost :=
  let 'mkStoryPost a b c d e f g h i j k l _ n o p q r := s in
  mkStoryPost a b c d e f g h i j k l v n o p q r.
Definition set_shares_count (v : Z) (s : StoryPost) : StoryPost :=
  let 'mkStoryPost a b c d e f g h i j k l m _ o p q r := s in
  mkStoryPost a b c d e f g h i j k l m v o p q r.
Definition set_updated_at (v : Z) (s : StoryPost) : StoryPost :=
  let 'mkStoryPost a b c d e f g h i j k l m n o _ q r := s in
  mkStoryPost a b c d e f g h i j k l m n o v q r.
Definition set_deleted (flag : bool) (v : option Z) (s : StoryPost) : StoryPost :=
  let 'mkStoryPost a b c d e f g h i j k l m n o p _ _ := s in
  mkStoryPost a b c d e f g h i j k l m n o p flag v.

(** A validation result: [Dict[str, str]] in insertion order. *)
Definition Errors := list (string * string).

Definition err_lookup (k : string) (e : Errors) : option string :=
  match find (fun kv => String.eqb (fst kv) k) e with
  | Some kv => Some (snd kv)
  | None => None
  end.

Definition add_error (k : string) (o : option string) (e : Errors) : Errors :=
  match o with Some m => (e ++ [(k, m)])%list | None => e end.

Definition _validate_caption (s : StoryPost) : option string :=
  if negb (py_truthy (caption s)) || negb (py_truthy (py_strip (caption s)))
  then Some "Caption is required"
  else if 120 <? Z.of_nat (String.length (caption s))
  then Some "Caption must be 120 characters or less"
  else None.

Definition _validate_description (s : StoryPost) : option string :=
  if negb (py_truthy (description s)) || negb (py_truthy (py_strip (description s)))
  then Some "Description is required"
  else if Z.of_nat (String.length (description s)) <? 20
  then Some "Description must be at least 20 characters"
  else None.

Definition is_word_char (c : ascii) : bool :=
  let n := nat_of_ascii c in
  ((48 <=? n) && (n <=? 57))%nat || ((65 <=? n) && (n <=? 90))%nat
  || ((97 <=? n) && (n <=? 122))%nat || (n =? 95)%nat.

Fixpoint all_word_chars (s : string) : bool :=
  match s with
  | EmptyString => true
  | String c s' => is_word_char c && all_word_chars s'
  end.

(** [re.compile(r'^[a-zA-Z0-9_]+$').match(t)]: one or more word characters,
    and Python's [$] also matches just before a final newline. *)
Definition tag_pattern_match (t : string) : bool :=
  (py_truthy t && all_word_chars t)
  || (let n := String.length t in
      (1 <=? n)%nat
      && String.eqb (substring (n - 1) 1 t) (String "010"%char EmptyString)
      && py_truthy (substring 0 (n - 1) t)
      && all_word_chars (substring 0 (n - 1) t)).

Definition _validate_tags (s : StoryPost) : option string :=
  if (10 <? List.length (tags s))%nat then Some "Maximum 10 tags allowed"
  else if forallb (fun tag => tag_pattern_match (lstrip_hash tag)) (tags s)
  then None
  else Some "Tags can only contain letters, numbers, and underscores".

Definition _validate_category (s : StoryPost) : option string :=
  if negb (py_truthy (category s)) then Some "Category is required"
  else if negb (str_in (category s) VALID_CATEGORIES)
  then Some "Please select a valid category"
  else None.

Definition _validate_privacy (s : StoryPost) : option string :=
  if negb (py_truthy (privacy s)) then Some "Privacy setting is required"
  else if negb (str_in (privacy s) VALID_PRIVACY_OPTIONS)
  then Some "Please select a valid privacy setting"
  else None.

Definition _validate_allowed_groups (s : StoryPost) : option string :=
  match allowed_groups s with
  | [] => Some "Please specify at least one group"
  | _ => None
  end.

Definition validate (s : StoryPost) : Errors :=
  let e := add_error "caption" (_validate_caption s) [] in
  let e := add_error "description" (_validate_description s) e in
  let e := add_error "tags" (_validate_tags s) e in
  let e := add_error "category" (_validate_category s) e in
  let e := add_error "privacy" (_validate_privacy s) e in
  if String.eqb (privacy s) "Specific Groups"
  then add_error "allowed_groups" (_validate_allowed_groups s) e
  else e.

(** [is_editable]: [(now - created).total_seconds() / 3600 < EDIT_LOCK_HOURS],
    read over exact microseconds. *)
Definition is_editable (now : Z) (s : StoryPost) : bool :=
  now - created_at s <? EDIT_LOCK_HOURS * 3600 * 1000000.

(** [can_be_restored]: [timedelta.days] is the floor of the difference in days. *)
Definition can_be_restored (now : Z) (s : StoryPost) : bool :=
  if negb (is_deleted s) then false
  else match deleted_at s with
       | None => false
       | Some d => (now - d) / 86400000000 <? SOFT_DELETE_DAYS
       end.

(** [clean_tags] *)
Definition clean_tags (s : StoryPost) : StoryPost :=
  set_tags (map lstrip_hash (tags s)) s.

(* ------------------------------------------------------------------ *)
(** ** Rows of the other tables (init_db.py) *)

Record Comment := mkComment {
  c_id : Z;
  c_story_id : Z;
  c_author_name : string;
  c_author_id : option Z;
  c_content : string;
  c_created_at : Z
}.

Record Badge := mkBadge {
  b_id : Z;
  b_title : string;
  b_description : string;
  b_icon_url : string;
  b_sort_order : Z
}.

(** An [achievements] row; [badge_ids] is filled from [achievement_badges]
    when loaded with [load_badges=True]. *)
Record Achievement := mkAchievement {
  a_id : Z;
  a_title : string;
  rule_type : string;
  rule_value : Z;
  active : bool;
  badge_ids : list Z
}.

(** [user_badges] / [user_achievements] rows; [UNIQUE(user_id, x_id)].
    The AUTOINCREMENT row id is not modelled. *)
Record UserBadge := mkUserBadge { ub_user_id : Z; ub_badge_id : Z; ub_earned_at : Z }.
Record UserAchievement :=
  mkUserAchievement { ua_user_id : Z; ua_achievement_id : Z; ua_earned_at : Z }.

(** The SQLite database. *)
Record DB := mkDB {
  stories : list StoryPost;
  comments : list Comment;
  badges : list Badge;
  achievements : list Achievement;
  achievement_badges : list (Z * Z);
  user_badges : list UserBadge;
  user_achievements : list UserAchievement
}.

Definition with_stories (l : list StoryPost) (db : DB) : DB :=
  mkDB l (comments db) (badges db) (achievements db) (achievement_badges db)
       (user_badges db) (user_achievements db).
Definition with_comments (l : list Comment) (db : DB) : DB :=
  mkDB (stories db) l (badges db) (achievements db) (achievement_badges db)
       (user_badges db) (user_achievements db).
Definition with_user_badges (l : list UserBadge) (db : DB) : DB :=
  mkDB (stories db) (comments db) (badges db) (achievements db)
       (achievement_badges db) l (user_achievements db).
Definition with_user_achievements (l : list UserAchievement) (db : DB) : DB :=
  mkDB (stories db) (comments db) (badges db) (achievements db)
       (achievement_badges db) (user_badges db) l.

(* ------------------------------------------------------------------ *)
(** ** repositories/story_repository.py *)

(** [SELECT * FROM stories WHERE id = ?] + [fetchone()]. *)
Definition find_by_id (db : DB) (story_id : Z) : option StoryPost :=
  find (fun s => id s =? story_id) (stories db).

(** [UPDATE stories SET ... WHERE id = ?]: the new table and [rowcount]. *)
Definition update_where_id (story_id : Z) (f : StoryPost -> StoryPost)
    (l : list StoryPost) : list StoryPost * nat :=
  (map (fun s => if id s =? story_id then f s else s) l,
   List.length (filter (fun s => id s =? story_id) l)).

Definition exec_update (db : DB) (story_id : Z) (f : StoryPost -> StoryPost) : DB * nat :=
  let '(l, n) := update_where_id story_id f (stories db) in (with_stories l db, n).

(** [StoryRepository.update]: [if not story.id: return False]; every column
    but [id] is overwritten with the entity's values, [updated_at] refreshed. *)
Definition repo_update (db : DB) (now : Z) (story : StoryPost) : bool * DB * StoryPost :=
  if id story =? 0 then (false, db, story)
  else
    let story := set_updated_at now story in
    let '(db', n) := exec_update db (id story) (fun _ => story) in
    ((0 <? n)%nat, db', story).

(** [StoryRepository.soft_delete] *)
Definition soft_delete (db : DB) (now : Z) (story_id : Z) : bool * DB :=
  let '(db', n) := exec_update db story_id (set_deleted true (Some now)) in
  ((0 <? n)%nat, db').

(** [StoryRepository.restore]:
    [UPDATE stories SET is_deleted = 0, deleted_at = NULL WHERE id = ?]. *)
Definition restore (db : DB) (story_id : Z) : bool * DB :=
  let '(db', n) := exec_update db story_id (set_deleted false None) in
  ((0 <? n)%nat, db').

(** [UPDATE ... WHERE id = ? RETURNING col]: the returned value is the new
    column of the updated row, or [0] when no row matched. *)
Definition update_returning (db : DB) (story_id : Z) (f : StoryPost -> StoryPost)
    (col : StoryPost -> Z) : Z * DB :=
  let '(db', _) := exec_update db story_id f in
  (match find_by_id db' story_id with Some s => col s | None => 0 end, db').

Definition increment_likes (db : DB) (story_id : Z) : Z * DB :=
  update_returning db story_id (fun s => set_likes_count (likes_count s + 1) s) likes_count.

(** [likes_count = MAX(0, likes_count - 1)] *)
Definition decrement_likes (db : DB) (story_id : Z) : Z * DB :=
  update_returning db story_id
    (fun s => set_likes_count (Z.max 0 (likes_count s - 1)) s) likes_count.

Definition increment_shares (db : DB) (story_id : Z) : Z * DB :=
  update_returning db story_id (fun s => set_shares_count (shares_count s + 1) s) shares_count.

(** *** SQL text operators used by [find_all] *)

(** SQLite's default [LIKE]: ['%'] matches any sequence, ['_'] any one
    character, other characters compare case-insensitively on ASCII only. *)
Definition ascii_lower (c : ascii) : ascii :=
  let n := nat_of_ascii c in
  if ((65 <=? n) && (n <=? 90))%nat then ascii_of_nat (n + 32) else c.

Fixpoint like_list (p s : list ascii) : bool :=
  match p with
  | [] => match s with [] => true | _ => false end
  | c :: p' =>
      if ascii_eqb c "%"%char then
        (fix go (s : list ascii) : bool :=
           like_list p' s || match s with [] => false | _ :: s' => go s' end) s
      else
        match s with
        | [] => false
        | d :: s' =>
            (ascii_eqb c "_"%char || ascii_eqb (ascii_lower c) (ascii_lower d))
            && like_list p' s'
        end
  end.

(** [s LIKE p] *)
Definition sql_like (s p : string) : bool :=
  like_list (list_ascii_of_string p) (list_ascii_of_string s).

(** Text comparison under SQLite's BINARY collation (byte order). *)
Fixpoint text_le (a b : string) : bool :=
  match a, b with
  | EmptyString, _ => true
  | String _ _, EmptyString => false
  | String x a', String y b' =>
      let nx := nat_of_ascii x in
      let ny := nat_of_ascii y in
      if (nx <? ny)%nat then true
      else if (ny <? nx)%nat then false
      else text_le a' b'
  end.

(** [ORDER BY key DESC] (stable insertion sort). *)
Fixpoint insert_desc {A} (key : A -> Z) (x : A) (l : list A) : list A :=
  match l with
  | [] => [x]
  | y :: l' => if key y <? key x then x :: l else y :: insert_desc key x l'
  end.

Fixpoint sort_desc {A} (key : A -> Z) (l : list A) : list A :=
  match l with
  | [] => []
  | x :: l' => insert_desc key x (sort_desc key l')
  end.

(** [StoryRepository.find_all]; [now_iso] is [datetime.now().isoformat()]. *)
Definition find_all (db : DB) (now_iso : string) (search category_f : option string)
    (sort_by : string) (include_deleted : bool) : list StoryPost :=
  let keep (s : StoryPost) : bool :=
    (include_deleted || negb (is_deleted s))
    && match scheduled_at s with None => true | Some t => text_le t now_iso end
    && match search with
       | Some q => if py_truthy q then
                     let term := "%" ++ q ++ "%" in
                     sql_like (caption s) term || sql_like (description s) term
                   else true
       | None => true
       end
    && match category_f with
       | Some c => if py_truthy c then String.eqb (category s) c else true
       | None => true
       end in
  let rows := filter keep (stories db) in
  if String.eqb sort_by "likes" then sort_desc likes_count rows
  else if String.eqb sort_by "comments" then sort_desc comments_count rows
  else sort_desc created_at rows.

(* ------------------------------------------------------------------ *)
(** ** repositories/comment_repository.py *)

(** [CommentRepository.create]: insert, then
    [comments_count = comments_count + 1] in the same transaction. *)
Definition comment_create (db : DB) (c : Comment) : Z * DB :=
  let db1 := with_comments (comments db ++ [c])%list db in
  let '(db2, _) := exec_update db1 (c_story_id c)
                     (fun s => set_comments_count (comments_count s + 1) s) in
  (c_id c, db2).

(** [CommentRepository.delete]: a missing comment is [False]; otherwise the
    row is deleted and [comments_count = MAX(0, comments_count - 1)]. *)
Definition comment_delete (db : DB) (comment_id : Z) : bool * DB :=
  match find (fun c => c_id c =? comment_id) (comments db) with
  | None => (false, db)
  | Some c =>
      let db1 := with_comments (filter (fun c' => negb (c_id c' =? comment_id)) (comments db)) db in
      let '(db2, _) := exec_update db1 (c_story_id c)
                         (fun s => set_comments_count (Z.max 0 (comments_count s - 1)) s) in
      (true, db2)
  end.

(* ------------------------------------------------------------------ *)
(** ** repositories/user_progress_repository.py *)

(** A stats dict [Dict[str, int]]; [stats.get(k, 0)]. *)
Definition Stats := list (string * Z).

Definition stats_get (st : Stats) (k : string) : Z :=
  match find (fun kv => String.eqb (fst kv) k) st with
  | Some kv => snd kv
  | None => 0
  end.

Definition sum_Z (l : list Z) : Z := fold_right Z.add 0 l.

Definition authored_live (user_id : Z) (s : StoryPost) : bool :=
  match author_id s with
  | Some a => (a =? user_id) && negb (is_deleted s)
  | None => false
  end.

(** [get_user_stats(user_id)] for a non-[None] id; the streak is the stub 0. *)
Definition get_user_stats (db : DB) (user_id : Z) : Stats :=
  let live := filter (authored_live user_id) (stories db) in
  [("stories_created_total", Z.of_nat (List.length live));
   ("comments_written_total",
      Z.of_nat (List.length (filter (fun c => match c_author_id c with
                                              | Some a => a =? user_id
                                              | None => false end) (comments db))));
   ("likes_received_total", sum_Z (map likes_count live));
   ("shares_received_total", sum_Z (map shares_count live));
   ("days_active_streak", 0)].

Definition has_achievement (db : DB) (user_id achievement_id : Z) : bool :=
  existsb (fun r => (ua_user_id r =? user_id) && (ua_achievement_id r =? achievement_id))
          (user_achievements db).

Definition has_badge (db : DB) (user_id badge_id : Z) : bool :=
  existsb (fun r => (ub_user_id r =? user_id) && (ub_badge_id r =? badge_id))
          (user_badges db).

(** [award_achievement]: [INSERT OR IGNORE]; [True] iff a row was inserted. *)
Definition award_achievement (db : DB) (now user_id achievement_id : Z) : bool * DB :=
  if has_achievement db user_id achievement_id then (false, db)
  else (true, with_user_achievements
                (user_achievements db ++ [mkUserAchievement user_id achievement_id now])%list db).

(** [award_badge]: [INSERT OR IGNORE]; [True] iff a row was inserted. *)
Definition award_badge (db : DB) (now user_id badge_id : Z) : bool * DB :=
  if has_badge db user_id badge_id then (false, db)
  else (true, with_user_badges
                (user_badges db ++ [mkUserBadge user_id badge_id now])%list db).

(* ------------------------------------------------------------------ *)
(** ** repositories/badge_repository.py, achievement_repository.py *)

Definition badge_find_by_id (db : DB) (badge_id : Z) : option Badge :=
  find (fun b => b_id b =? badge_id) (badges db).

Fixpoint insert_asc_id (x : Achievement) (l : list Achievement) : list Achievement :=
  match l with
  | [] => [x]
  | y :: l' => if a_id x <=? a_id y then x :: l else y :: insert_asc_id x l'
  end.

Fixpoint sort_asc_id (l : list Achievement) : list Achievement :=
  match l with
  | [] => []
  | x :: l' => insert_asc_id x (sort_asc_id l')
  end.

Definition load_badge_ids (db : DB) (a : Achievement) : Achievement :=
  mkAchievement (a_id a) (a_title a) (rule_type a) (rule_value a) (active a)
    (map snd (filter (fun ab => fst ab =? a_id a) (achievement_badges db))).

(** [find_all_active(load_badges=True)]:
    [SELECT * FROM achievements WHERE active = 1 ORDER BY id ASC]. *)
Definition find_all_active (db : DB) : list Achievement :=
  map (load_badge_ids db) (sort_asc_id (filter active (achievements db))).

(* ------------------------------------------------------------------ *)
(** ** services/gamification_service.py *)

(** A "newly earned" badge dict: badge_id, title, description, icon_url. *)
Record BadgeInfo := mkBadgeInfo {
  bi_badge_id : Z; bi_title : string; bi_description : string; bi_icon_url : string
}.

(** [_rule_satisfied] *)
Definition _rule_satisfied (a : Achievement) (stats : Stats) : bool :=
  let required := rule_value a in
  if String.eqb (rule_type a) "stories_created_total" then
    required <=? stats_get stats "stories_created_total"
  else if String.eqb (rule_type a) "comments_written_total" then
    required <=? stats_get stats "comments_written_total"
  else if String.eqb (rule_type a) "likes_received_total" then
    required <=? stats_get stats "likes_received_total"
  else if String.eqb (rule_type a) "shares_received_total" then
    required <=? stats_get stats "shares_received_total"
  else if String.eqb (rule_type a) "days_active_streak" then
    required <=? stats_get stats "days_active_streak"
  else false.

(** The inner loop [for badge_id in ach.badge_ids: ...]. *)
Fixpoint award_badges (db : DB) (now user_id : Z) (bids : list Z)
    : list BadgeInfo * DB :=
  match bids with
  | [] => ([], db)
  | b :: rest =>
      let '(inserted, db1) := award_badge db now user_id b in
      let here :=
        if inserted then
          match badge_find_by_id db1 b with
          | Some badge => [mkBadgeInfo (b_id badge) (b_title badge)
                                       (b_description badge) (b_icon_url badge)]
          | None => []
          end
        else [] in
      let '(out, db2) := award_badges db1 now user_id rest in
      ((here ++ out)%list, db2)
  end.

(** The outer loop [for ach in active_achievements: ...]. *)
Fixpoint award_loop (db : DB) (now user_id : Z) (stats : Stats)
    (achs : list Achievement) : list BadgeInfo * DB :=
  match achs with
  | [] => ([], db)
  | ach :: rest =>
      if has_achievement db user_id (a_id ach) then award_loop db now user_id stats rest
      else if negb (_rule_satisfied ach stats) then award_loop db now user_id stats rest
      else
        let '(ok, db1) := award_achievement db now user_id (a_id ach) in
        if negb ok then award_loop db1 now user_id stats rest
        else
          let '(out1, db2) := award_badges db1 now user_id (badge_ids ach) in
          let '(out2, db3) := award_loop db2 now user_id stats rest in
          ((out1 ++ out2)%list, db3)
  end.

(** [evaluate_and_award(user_id)]; [now] is the [datetime.now()] of the
    award rows. *)
Definition evaluate_and_award (db : DB) (now : Z) (user_id : option Z)
    : list BadgeInfo * DB :=
  match user_id with
  | None => ([], db)
  | Some u =>
      let stats := get_user_stats db u in
      let active_achievements := find_all_active db in
      award_loop db now u stats active_achievements
  end.

(* ------------------------------------------------------------------ *)
(** ** services/story_service.py *)

(** Tag normalisation of [create_story] and [update_story]:
    [[tag.lstrip('#') for tag in tags if tag.strip()]]. *)
Definition normalize_tags (ts : list string) : list string :=
  map lstrip_hash (filter (fun t => py_truthy (py_strip t)) ts).

Definition opt_strip (o : option string) : option string :=
  match o with Some v => Some (py_strip v) | None => None end.

(** The field assignments of [update_story], in the code's order: caption
    and description only while [is_editable()], the other fields always. *)
Definition apply_update_fields (now : Z) (story : StoryPost)
    (caption_in description_in category_in privacy_in : option string)
    (tags_in allowed_groups_in : option (list string)) : StoryPost :=
  let editable := is_editable now story in
  let story :=
    if editable then
      let s1 := match caption_in with
                | Some c => set_caption (py_strip c) story | None => story end in
      match description_in with
      | Some d => set_description (py_strip d) s1 | None => s1 end
    else story in
  let story := match category_in with Some c => set_category c story | None => story end in
  let story := match privacy_in with Some p => set_privacy p story | None => story end in
  let story := match tags_in with
               | Some ts => set_tags (normalize_tags ts) story | None => story end in
  match allowed_groups_in with
  | Some g => set_allowed_groups g story | None => story
  end.

Section StoryService.

(** The file-storage collaborator: [save_media_files(files)] returns
    [(saved_paths, errors)]. *)
Variable FileStorage : Type.
Variable save_media_files : list FileStorage -> list string * list string.

Definition join_errors (l : list string) : string :=
  match l with
  | [] => ""
  | x :: xs => fold_left (fun acc y => acc ++ "; " ++ y) xs x
  end.

(** [StoryService.update_story]; the result is [(story | None, errors)] and
    the database after the call. *)
Definition update_story (db : DB) (now story_id : Z)
    (caption_in description_in category_in privacy_in : option string)
    (tags_in allowed_groups_in : option (list string))
    (media_files : list FileStorage)
    : option StoryPost * Errors * DB :=
  match find_by_id db story_id with
  | None => (None, [("general", "Story not found")], db)
  | Some story =>
      if is_deleted story then (None, [("general", "Cannot edit a deleted story")], db)
      else
        let story := apply_update_fields now story caption_in description_in
                       category_in privacy_in tags_in allowed_groups_in in
        let errors := validate story in
        match errors with
        | _ :: _ => (None, errors, db)
        | [] =>
            let media_result :=
              match media_files with
              | [] => inr story
              | _ :: _ =>
                  let '(saved_paths, file_errors) := save_media_files media_files in
                  match file_errors with
                  | _ :: _ => inl (errors ++ [("media", join_errors file_errors)])%list
                  | [] => inr (set_media_paths (media_paths story ++ saved_paths)%list story)
                  end
              end in
            match media_result with
            | inl errs => (None, errs, db)
            | inr story =>
                let '(success, db', story) := repo_update db now story in
                if success then (Some story, [], db')
                else (None, [("general", "Failed to update story")], db')
            end
        end
  end.

End StoryService.

(** [StoryService.restore_story] *)
Definition restore_story (db : DB) (now story_id : Z) : bool * string * DB :=
  match find_by_id db story_id with
  | None => (false, "Story not found", db)
  | Some story =>
      if negb (is_deleted story) then (false, "Story is not deleted", db)
      else if negb (can_be_restored now story)
      then (false, "Story cannot be restored (expired after 7 days)", db)
      else
        let '(success, db') := restore db story_id in
        (success, if success then "Story restored successfully"
                  else "Failed to restore story", db')
  end.

(** The common shape of [like_story], [unlike_story] and [share_story]:
    look the story up, run the counter update, then evaluate the owner. *)
Definition engage (counter : DB -> Z -> Z * DB) (db : DB) (now story_id : Z)
    : Z * list BadgeInfo * DB :=
  let story := find_by_id db story_id in
  let '(new_count, db1) := counter db story_id in
  match story with
  | Some s =>
      match author_id s with
      | Some a => let '(newly, db2) := evaluate_and_award db1 now (Some a) in
                  (new_count, newly, db2)
      | None => (new_count, [], db1)
      end
  | None => (new_count, [], db1)
  end.

Definition like_story := engage increment_likes.
Definition unlike_story := engage decrement_likes.
Definition share_story := engage increment_shares.

(* ------------------------------------------------------------------ *)
(** ** Concrete data used by the examples below *)

Definition ex_story : StoryPost :=
  mkStoryPost 1 (Some 5) "abc" "A quiet afternoon by the lake" [] None
    "Life Lessons" "Public" [] None [] 0 0 0 0 0 false None.

Definition ex_newcomer : Badge := mkBadge 7 "Newcomer" "First story posted" "icons/new.png" 0.

Definition ex_first_story : Achievement :=
  mkAchievement 1 "First Story" "stories_created_total" 1 true [].

(** One story by user 5, achievement 1 linked to badge 7. *)
Definition ex_db : DB :=
  mkDB [ex_story] [] [ex_newcomer] [ex_first_story] [(1, 7)] [] [].

(** The same database after the badge row 7 was removed with
    [BadgeRepository.delete] ([DELETE FROM badges WHERE id = ?]); the link
    row stays because SQLite foreign keys are not switched on. *)
Definition ex_db_dangling : DB :=
  mkDB [ex_story] [] [] [ex_first_story] [(1, 7)] [] [].

(** [datetime.now()] 25 hours after [created_at] of [ex_story]. *)
Definition ex_now_25h : Z := 25 * 3600 * 1000000.

(** [ex_story] with no author (an anonymous legacy post). *)
Definition ex_db_anon : DB :=
  mkDB [mkStoryPost 1 None "abc" "A quiet afternoon by the lake" [] None
          "Life Lessons" "Public" [] None [] 3 0 0 0 0 false None]
       [] [ex_newcomer] [ex_first_story] [(1, 7)] [] [].

(** An achievement with a rule type outside [ACHIEVEMENT_RULE_TYPES]. *)
Definition ex_streak_typo : Achievement :=
  mkAchievement 2 "Typo" "stories_total" 0 true [].

Definition ex_db_typo : DB :=
  mkDB [ex_story] [] [ex_newcomer] [ex_first_story; ex_streak_typo] [(1, 7); (2, 7)] [] [].

(** One comment on [ex_story], counted in its [comments_count]. *)
Definition ex_comment : Comment := mkComment 1 1 "Ana" (Some 6) "Lovely story" 0.

Definition ex_db_commented : DB :=
  mkDB [set_comments_count 1 ex_story] [ex_comment] [ex_newcomer] [ex_first_story]
       [(1, 7)] [] [].

(* ------------------------------------------------------------------ *)
(** ** Readings of spec phrases used in statements *)

(** [k] leading ['#'] characters. *)
Fixpoint hashes (k : nat) : string :=
  match k with
  | O => EmptyString
  | S k' => String "#"%char (hashes k')
  end.

(** "contains the term as a case-insensitive substring" (read over ASCII). *)
Fixpoint prefix_ci (p s : list ascii) : bool :=
  match p, s with
  | [], _ => true
  | _ :: _, [] => false
  | x :: p', y :: s' => ascii_eqb (ascii_lower x) (ascii_lower y) && prefix_ci p' s'
  end.

Fixpoint contains_ci_list (p s : list ascii) : bool :=
  prefix_ci p s || match s with [] => false | _ :: s' => contains_ci_list p s' end.

Definition contains_ci (term s : string) : bool :=
  contains_ci_list (list_ascii_of_string term) (list_ascii_of_string s).

(** Counter updates on stories, and sequences of them. *)
Inductive EngagementOp :=
| OpLike (story_id : Z)
| OpUnlike (story_id : Z)
| OpShare (story_id : Z)
| OpAddComment (c : Comment)
| OpDeleteComment (comment_id : Z).

Definition engagement_step (db : DB) (op : EngagementOp) : DB :=
  match op with
  | OpLike sid => snd (increment_likes db sid)
  | OpUnlike sid => snd (decrement_likes db sid)
  | OpShare sid => snd (increment_shares db sid)
  | OpAddComment c => snd (comment_create db c)
  | OpDeleteComment cid => snd (comment_delete db cid)
  end.

Definition run_engagement (ops : list EngagementOp) (db : DB) : DB :=
  fold_left engagement_step ops db.

Definition counters_ok (s : StoryPost) : Prop :=
  0 <= likes_count s /\ 0 <= comments_count s /\ 0 <= shares_count s.

Definition db_counters_ok (db : DB) : Prop := Forall counters_ok (stories db).

(** The tables [evaluate_and_award] only reads. *)
Definition same_content (db db' : DB) : Prop :=
  stories db' = stories db /\ comments db' = comments db /\ badges db' = badges db
  /\ achievements db' = achievements db /\ achievement_badges db' = achievement_badges db.

(* ================================================================== *)
(** * The rest of the story, comment and gamification modules *)

Definition with_badges (l : list Badge) (db : DB) : DB :=
  mkDB (stories db) (comments db) l (achievements db) (achievement_badges db)
       (user_badges db) (user_achievements db).
Definition with_achievements (l : list Achievement) (db : DB) : DB :=
  mkDB (stories db) (comments db) (badges db) l (achievement_badges db)
       (user_badges db) (user_achievements db).
Definition with_achievement_badges (l : list (Z * Z)) (db : DB) : DB :=
  mkDB (stories db) (comments db) (badges db) (achievements db) l
       (user_badges db) (user_achievements db).

(** [ORDER BY] under a total preorder [le] ([le x y]: [x] may come
    before [y]); SQLite leaves the order of ties open, the insertion sort
    fixes one. *)
Fixpoint insert_by {A} (le : A -> A -> bool) (x : A) (l : list A) : list A :=
  match l with
  | [] => [x]
  | y :: l' => if le x y then x :: l else y :: insert_by le x l'
  end.

Fixpoint sort_by {A} (le : A -> A -> bool) (l : list A) : list A :=
  match l with
  | [] => []
  | x :: l' => insert_by le x (sort_by le l')
  end.

(* ------------------------------------------------------------------ *)
(** ** Soft delete, recovery window and purge *)

(** [StoryRepository.permanent_delete]: [DELETE FROM stories WHERE id = ?];
    [rowcount > 0]. *)
Definition permanent_delete (db : DB) (story_id : Z) : bool * DB :=
  let kept := filter (fun s => negb (id s =? story_id)) (stories db) in
  ((List.length kept <? List.length (stories db))%nat, with_stories kept db).

(** [ORDER BY deleted_at DESC]; a NULL [deleted_at] sorts lowest.  The
    [isoformat()] texts of one clock order as the instants do. *)
Definition deleted_at_desc (a b : StoryPost) : bool :=
  match deleted_at a, deleted_at b with
  | Some x, Some y => y <=? x
  | Some _, None => true
  | None, Some _ => false
  | None, None => true
  end.

(** [StoryRepository.find_deleted] (= [StoryService.list_deleted_stories]):
    the deleted rows newest deletion first, keeping those that
    [can_be_restored()]. *)
Definition find_deleted (db : DB) (now : Z) : list StoryPost :=
  filter (can_be_restored now) (sort_by deleted_at_desc (filter is_deleted (stories db))).

(** The loop of [StoryRepository.purge_expired] over the rows read by
    [SELECT * FROM stories WHERE is_deleted = 1]. *)
Fixpoint purge_rows (now : Z) (rows : list StoryPost) (db : DB) (deleted_count : Z)
    : DB * Z :=
  match rows with
  | [] => (db, deleted_count)
  | story :: rest =>
      if negb (can_be_restored now story)
      then purge_rows now rest (snd (permanent_delete db (id story))) (deleted_count + 1)
      else purge_rows now rest db deleted_count
  end.

(** [StoryRepository.purge_expired] (= [StoryService.purge_expired_stories]). *)
Definition purge_expired (db : DB) (now : Z) : Z * DB :=
  let rows := filter is_deleted (stories db) in
  let '(db', n) := purge_rows now rows db 0 in
  (n, db').

(** [StoryService.delete_story]: [(success, caption if success else None)]. *)
Definition delete_story (db : DB) (now story_id : Z) : bool * option string * DB :=
  match find_by_id db story_id with
  | None => (false, None, db)
  | Some story =>
      let '(success, db') := soft_delete db now story_id in
      (success, if success then Some (caption story) else None, db')
  end.

(** A story deleted over seven days ago, and a database holding it next
    to [ex_story]. *)
Definition ex_old_deleted : StoryPost :=
  mkStoryPost 2 (Some 5) "Old trip" "Notes from a long summer trip" [] None
    "Travel Adventures" "Public" [] None [] 4 0 0 0 0 true (Some 0).

Definition ex_day : Z := 86400000000.

Definition ex_db_trash : DB :=
  mkDB [ex_story; ex_old_deleted] [] [ex_newcomer] [ex_first_story] [(1, 7)] [] [].

(* ------------------------------------------------------------------ *)
(** ** Comments: models/comment.py, comment_repository.py, comment_service.py *)

(** The [author_name] branch of [Comment.validate]. *)
Definition _validate_author_name (c : Comment) : option string :=
  if negb (py_truthy (c_author_name c)) || negb (py_truthy (py_strip (c_author_name c)))
  then Some "Name is required"
  else if 50 <? Z.of_nat (String.length (c_author_name c))
  then Some "Name must be 50 characters or less"
  else None.

(** The [content] branch of [Comment.validate]. *)
Definition _validate_content (c : Comment) : option string :=
  if negb (py_truthy (c_content c)) || negb (py_truthy (py_strip (c_content c)))
  then Some "Comment is required"
  else if 1000 <? Z.of_nat (String.length (c_content c))
  then Some "Comment must be 1000 characters or less"
  else None.

(** [Comment.validate] *)
Definition comment_validate (c : Comment) : Errors :=
  add_error "content" (_validate_content c) (add_error "author_name" (_validate_author_name c) []).

(** [ORDER BY created_at DESC] on comments. *)
Definition comment_created_desc (a b : Comment) : bool := c_created_at b <=? c_created_at a.

(** [CommentRepository.find_by_story_id] (= [CommentService.get_comments]). *)
Definition find_by_story_id (db : DB) (story_id : Z) : list Comment :=
  sort_by comment_created_desc (filter (fun c => c_story_id c =? story_id) (comments db)).

(** [CommentRepository.get_comments_count]:
    a [COUNT] of the comments with the given [story_id]. *)
Definition get_comments_count (db : DB) (story_id : Z) : Z :=
  Z.of_nat (List.length (filter (fun c => c_story_id c =? story_id) (comments db))).

(** The denormalised [stories.comments_count] agrees with the comments
    table for every stored story. *)
Definition comments_in_sync (db : DB) : Prop :=
  Forall (fun s => comments_count s = get_comments_count db (id s)) (stories db).

(** The database with the [user_activity_dates] table, written by
    [record_activity]. *)
Record Store := mkStore { tables : DB; user_activity_dates : list (Z * string) }.

(** [UserProgressRepository.record_activity_date]: [INSERT OR IGNORE] of
    [(user_id, activity_date)]. *)
Definition record_activity_date (st : Store) (user_id : Z) (activity_date : string) : Store :=
  if existsb (fun r => (fst r =? user_id) && String.eqb (snd r) activity_date)
             (user_activity_dates st)
  then st
  else mkStore (tables st) (user_activity_dates st ++ [(user_id, activity_date)])%list.

(** [GamificationService.record_activity]; [today] is
    [datetime.now().strftime("%Y-%m-%d")]. *)
Definition record_activity (st : Store) (today : string) (user_id : option Z) : Store :=
  match user_id with
  | Some u => record_activity_date st u today
  | None => st
  end.

(** [CommentService.add_comment]; [new_id] is the id SQLite hands out to
    the inserted row ([cursor.lastrowid]), [now] the comment's
    [created_at]. *)
Definition add_comment (st : Store) (now : Z) (today : string) (new_id : Z)
    (story_id : Z) (author_name content : string) (author_id : option Z)
    : option Comment * Errors * list BadgeInfo * Store :=
  let comment := mkComment new_id story_id (py_strip author_name) author_id
                   (py_strip content) now in
  let errors := comment_validate comment in
  match errors with
  | _ :: _ => (None, errors, [], st)
  | [] =>
      let '(_, db1) := comment_create (tables st) comment in
      let st1 := record_activity (mkStore db1 (user_activity_dates st)) today author_id in
      match author_id with
      | Some a =>
          let '(newly, db2) := evaluate_and_award (tables st1) now (Some a) in
          (Some comment, [], newly, mkStore db2 (user_activity_dates st1))
      | None => (Some comment, [], [], st1)
      end
  end.

(* ------------------------------------------------------------------ *)
(** ** Award listings and the badge catalog: user_progress_repository.py,
    badge_repository.py *)

(** The rarity key: the number of [user_badges] rows [ub2] with
    [ub2.badge_id = ub.badge_id], all users together. *)
Definition badge_award_count (db : DB) (badge_id : Z) : nat :=
  List.length (filter (fun r => ub_badge_id r =? badge_id) (user_badges db)).

(** [FROM user_badges ub JOIN badges b ON b.id = ub.badge_id WHERE ub.user_id = ?] *)
Definition user_badge_rows (db : DB) (user_id : Z) : list (UserBadge * Badge) :=
  flat_map (fun r => map (fun b => (r, b)) (filter (fun b => b_id b =? ub_badge_id r) (badges db)))
           (filter (fun r => ub_user_id r =? user_id) (user_badges db)).

(** [ORDER BY ub.earned_at DESC] *)
Definition earned_desc (x y : UserBadge * Badge) : bool :=
  ub_earned_at (fst y) <=? ub_earned_at (fst x).

(** [ORDER BY] the rarity key [ASC], then [ub.earned_at DESC]. *)
Definition rarity_le (db : DB) (x y : UserBadge * Badge) : bool :=
  let cx := badge_award_count db (ub_badge_id (fst x)) in
  let cy := badge_award_count db (ub_badge_id (fst y)) in
  (cx <? cy)%nat || ((cx =? cy)%nat && earned_desc x y).

Definition text_lt (a b : string) : bool := negb (text_le b a).

(** [ORDER BY b.title ASC, ub.earned_at DESC] *)
Definition title_le (x y : UserBadge * Badge) : bool :=
  text_lt (b_title (snd x)) (b_title (snd y))
  || (String.eqb (b_title (snd x)) (b_title (snd y)) && earned_desc x y).

(** [UserProgressRepository.get_user_badges]: each row with its badge. *)
Definition get_user_badges (db : DB) (user_id : Z) (order : string) : list (UserBadge * Badge) :=
  let rows := user_badge_rows db user_id in
  if String.eqb order "rarity" then sort_by (rarity_le db) rows
  else if String.eqb order "alphabetical" then sort_by title_le rows
  else sort_by earned_desc rows.

(** [FROM user_achievements ua JOIN achievements a ON a.id = ua.achievement_id
    WHERE ua.user_id = ?] *)
Definition user_achievement_rows (db : DB) (user_id : Z) : list (UserAchievement * Achievement) :=
  flat_map (fun r => map (fun a => (r, a))
                         (filter (fun a => a_id a =? ua_achievement_id r) (achievements db)))
           (filter (fun r => ua_user_id r =? user_id) (user_achievements db)).

(** [UserProgressRepository.get_user_achievements]: [ORDER BY ua.earned_at
    DESC] whatever [sort_by] is. *)
Definition get_user_achievements (db : DB) (user_id : Z) (order : string)
    : list (UserAchievement * Achievement) :=
  sort_by (fun x y => ua_earned_at (fst y) <=? ua_earned_at (fst x)) (user_achievement_rows db user_id).

(** [BadgeRepository.delete]: [DELETE FROM badges WHERE id = ?]; foreign
    keys are not switched on, so nothing cascades. *)
Definition badge_delete (db : DB) (badge_id : Z) : bool * DB :=
  let kept := filter (fun b => negb (b_id b =? badge_id)) (badges db) in
  ((List.length kept <? List.length (badges db))%nat, with_badges kept db).

(** [BadgeRepository.update]: [if not badge.id: return False]; every
    column but [id] is overwritten. *)
Definition badge_update (db : DB) (badge : Badge) : bool * DB :=
  if b_id badge =? 0 then (false, db)
  else
    let l := map (fun b => if b_id b =? b_id badge then badge else b) (badges db) in
    let n := List.length (filter (fun b => b_id b =? b_id badge) (badges db)) in
    ((0 <? n)%nat, with_badges l db).

(* ------------------------------------------------------------------ *)
(** ** The achievement catalog: achievement_repository.py *)

(** [AchievementRepository.find_by_id(load_badges=True)]. *)
Definition ach_find_by_id (db : DB) (achievement_id : Z) : option Achievement :=
  match find (fun a => a_id a =? achievement_id) (achievements db) with
  | Some a =>
      Some (mkAchievement (a_id a) (a_title a) (rule_type a) (rule_value a) (active a)
              (map snd (filter (fun ab => fst ab =? achievement_id) (achievement_badges db))))
  | None => None
  end.

(** [for bid in ...: INSERT INTO achievement_badges (achievement_id, badge_id)];
    a pair already in the table violates [PRIMARY KEY (achievement_id,
    badge_id)] and raises [IntegrityError] ([None]). *)
Fixpoint insert_links (achievement_id : Z) (bids : list Z) (links : list (Z * Z))
    : option (list (Z * Z)) :=
  match bids with
  | [] => Some links
  | b :: rest =>
      if existsb (fun ab => (fst ab =? achievement_id) && (snd ab =? b)) links then None
      else insert_links achievement_id rest (links ++ [(achievement_id, b)])%list
  end.

(** [AchievementRepository.create]; [new_id] is the [lastrowid] of the new
    row. The links come from [badge_ids or achievement.badge_ids or []].
    [None]: the [IntegrityError] escapes and nothing is committed. *)
Definition ach_create (db : DB) (new_id : Z) (achievement : Achievement)
    (badge_ids_arg : option (list Z)) : option (Z * DB) :=
  let row := mkAchievement new_id (a_title achievement) (rule_type achievement)
               (rule_value achievement) (active achievement) (badge_ids achievement) in
  let db1 := with_achievements (achievements db ++ [row])%list db in
  let bids := match badge_ids_arg with
              | Some ((_ :: _) as l) => l
              | _ => badge_ids achievement
              end in
  match insert_links new_id bids (achievement_badges db1) with
  | Some links => Some (new_id, with_achievement_badges links db1)
  | None => None
  end.

(** [AchievementRepository.update]: [if not achievement.id: return False];
    the row's columns are overwritten, its links deleted and re-inserted
    from [badge_ids if badge_ids is not None else achievement.badge_ids or []];
    [True] is returned whether or not a row had that id. [None]: the
    [IntegrityError] escapes and nothing is committed. *)
Definition ach_update (db : DB) (achievement : Achievement) (badge_ids_arg : option (list Z))
    : option (bool * DB) :=
  if a_id achievement =? 0 then Some (false, db)
  else
    let rows := map (fun x => if a_id x =? a_id achievement then achievement else x)
                    (achievements db) in
    let kept := filter (fun ab => negb (fst ab =? a_id achievement)) (achievement_badges db) in
    let bids := match badge_ids_arg with Some l => l | None => badge_ids achievement end in
    match insert_links (a_id achievement) bids kept with
    | Some links => Some (true, with_achievement_badges links (with_achievements rows db))
    | None => None
    end.

(** [AchievementRepository.delete]: the links, then the row; [rowcount]
    is the one of the second [DELETE]. *)
Definition ach_delete (db : DB) (achievement_id : Z) : bool * DB :=
  let db1 := with_achievement_badges
               (filter (fun ab => negb (fst ab =? achievement_id)) (achievement_badges db)) db in
  let kept := filter (fun a => negb (a_id a =? achievement_id)) (achievements db1) in
  ((List.length kept <? List.length (achievements db1))%nat, with_achievements kept db1).

(* ------------------------------------------------------------------ *)
(** ** Media uploads: StoryService._allowed_file, _is_image, _is_video,
    save_media_files; config.py *)

Definition ALLOWED_EXTENSIONS : list string :=
  ["png"; "jpg"; "jpeg"; "gif"; "webp"; "mp4"; "webm"; "mov"; "avi"].

Definition MAX_CONTENT_LENGTH : Z := 50 * 1024 * 1024.

(** [s.lower()] on ASCII. *)
Definition py_lower (s : string) : string :=
  string_of_list_ascii (map ascii_lower (list_ascii_of_string s)).

(** ['.' in s] *)
Fixpoint has_dot (s : string) : bool :=
  match s with
  | EmptyString => false
  | String c s' => ascii_eqb c "."%char || has_dot s'
  end.

(** [s.rsplit('.', 1)[1]]: the text after the last dot; [None] where
    [rsplit] gives one piece and the index raises. *)
Fixpoint after_last_dot (s : string) : option string :=
  match s with
  | EmptyString => None
  | String c s' =>
      match after_last_dot s' with
      | Some e => Some e
      | None => if ascii_eqb c "."%char then Some s' else None
      end
  end.

(** [StoryService._allowed_file] *)
Definition _allowed_file (filename : string) : bool :=
  has_dot filename
  && match after_last_dot filename with
     | Some ext => str_in (py_lower ext) ALLOWED_EXTENSIONS
     | None => false
     end.

(** [StoryService._is_image] *)
Definition _is_image (filename : string) : bool :=
  if negb (has_dot filename) then false
  else match after_last_dot filename with
       | Some ext => str_in (py_lower ext) ["png"; "jpg"; "jpeg"; "gif"; "webp"]
       | None => false
       end.

(** [StoryService._is_video] *)
Definition _is_video (filename : string) : bool :=
  if negb (has_dot filename) then false
  else match after_last_dot filename with
       | Some ext => str_in (py_lower ext) ["mp4"; "webm"; "mov"; "avi"]
       | None => false
       end.

(** An uploaded file: [file.filename], [file.content_type] and the bytes
    of its stream (their number is what [seek(0, 2)]/[tell()] give). *)
Record Upload := mkUpload {
  up_filename : string;
  up_content_type : option string;
  up_content : list Z
}.

Definition allowed_image_types : list string :=
  ["image/jpeg"; "image/png"; "image/gif"; "image/webp"].
Definition allowed_video_types : list string :=
  ["video/mp4"; "video/webm"; "video/quicktime"; "video/x-msvideo"].

Definition bytes_eqb (a b : list Z) : bool :=
  if list_eq_dec Z.eq_dec a b then true else false.

(** The [_image_signatures] dict, in insertion order. *)
Definition _image_signatures : list (list Z * string) :=
  [([255; 216; 255], "jpeg");
   ([137; 80; 78; 71; 13; 10; 26; 10], "png");
   ([71; 73; 70; 56; 55; 97], "gif");
   ([71; 73; 70; 56; 57; 97], "gif");
   ([82; 73; 70; 70], "webp")].

Definition WEBP_TAG : list Z := [87; 69; 66; 80].

Fixpoint detect_loop (sigs : list (list Z * string)) (header : list Z) : option string :=
  match sigs with
  | [] => None
  | (sig, fmt) :: rest =>
      if bytes_eqb (firstn (List.length sig) header) sig then
        if String.eqb fmt "webp" && negb (bytes_eqb (firstn 4 (skipn 8 header)) WEBP_TAG)
        then detect_loop rest header
        else Some fmt
      else detect_loop rest header
  end.

(** [_detect_image_type(f)]: [header = f.read(12)]. *)
Definition _detect_image_type (content : list Z) : option string :=
  detect_loop _image_signatures (firstn 12 content).

(** The checks [save_media_files] makes on one named file, in order:
    the error it appends, or [None] when the file goes on to be saved. *)
Definition upload_check (file : Upload) : option string :=
  let fn := up_filename file in
  if negb (_allowed_file fn) then Some ("Invalid file type: " ++ fn)
  else
    let size := Z.of_nat (List.length (up_content file)) in
    if MAX_CONTENT_LENGTH <? size then Some ("File too large: " ++ fn ++ " (max 50MB)")
    else if size =? 0 then Some ("Empty file: " ++ fn)
    else
      let content_type := match up_content_type file with Some c => c | None => "" end in
      if negb (str_in content_type allowed_image_types || str_in content_type allowed_video_types)
      then Some ("Invalid content type for " ++ fn ++ ": " ++ content_type)
      else if str_in content_type allowed_image_types then
        match _detect_image_type (up_content file) with
        | Some t => if str_in t ["jpeg"; "png"; "gif"; "webp"] then None
                    else Some ("File content doesn't match image type: " ++ fn)
        | None => Some ("File content doesn't match image type: " ++ fn)
        end
      else None.

Section MediaUpload.

(** The environment: [UPLOAD_FOLDER], werkzeug's [secure_filename], the
    [k]-th [uuid.uuid4().hex] drawn, [os.path.join], and [file.save(path)] ([None] when it
    returns, [Some (str(e))] when it raises). *)
Variable UPLOAD_FOLDER : string.
Variable secure_filename : string -> string.
Variable uuid_hex : nat -> string.
Variable os_path_join : string -> string -> string.
Variable file_save : Upload -> string -> option string.

Fixpoint save_loop (files : list Upload) (k : nat) (saved_paths errors : list string)
    : list string * list string :=
  match files with
  | [] => (saved_paths, errors)
  | file :: rest =>
      if negb (py_truthy (up_filename file)) then save_loop rest k saved_paths errors
      else
        match upload_check file with
        | Some e => save_loop rest k saved_paths (errors ++ [e])%list
        | None =>
            let unique_name := uuid_hex k ++ "_" ++ secure_filename (up_filename file) in
            let filepath := os_path_join UPLOAD_FOLDER unique_name in
            match file_save file filepath with
            | None => save_loop rest (S k) (saved_paths ++ [("uploads/" ++ unique_name)%string])%list errors
            | Some e => save_loop rest (S k) saved_paths
                          (errors ++ [("Failed to save " ++ up_filename file ++ ": " ++ e)%string])%list
            end
        end
  end.

(** [StoryService.save_media_files] *)
Definition save_media_files (files : list Upload) : list string * list string :=
  save_loop files 0 [] [].

End MediaUpload.

(* ------------------------------------------------------------------ *)
(** ** StoryService.create_story *)

Section StoryCreate.

(** As in [update_story]: the uploaded files and [save_media_files]. *)
Variable FileStorage : Type.
Variable save_media_files : list FileStorage -> list string * list string.

(** [StoryService.create_story]; [now] is the [datetime.now()] of the
    call, [today] its date, [new_id] the id SQLite hands out to the
    inserted row ([cursor.lastrowid]). The entity has [id = None] until
    the insert sets [story.id]; no check before it reads the id, so the
    record carries [new_id] from the start. *)
Definition create_story (st : Store) (now : Z) (today : string) (new_id : Z)
    (caption description category privacy : string)
    (tags_in : option (list string)) (event_title : option string)
    (allowed_groups_in : option (list string)) (scheduled_at : option string)
    (media_files : list FileStorage) (current_user_id : option Z)
    : option StoryPost * Errors * list BadgeInfo * Store :=
  let tags := match tags_in with
              | Some ((_ :: _) as l) =>
                  Some (map lstrip_hash (filter (fun tag => py_truthy (py_strip tag)) l))
              | _ => tags_in
              end in
  let story := mkStoryPost new_id current_user_id
                 (if py_truthy caption then py_strip caption else "")
                 (if py_truthy description then py_strip description else "")
                 (match tags with Some l => l | None => [] end)
                 event_title category privacy
                 (match allowed_groups_in with Some l => l | None => [] end)
                 scheduled_at [] 0 0 0 now now false None in
  let errors := validate story in
  match errors with
  | _ :: _ => (None, errors, [], st)
  | [] =>
      let media_result :=
        match media_files with
        | [] => inr story
        | _ :: _ =>
            let '(saved_paths, file_errors) := save_media_files media_files in
            match file_errors with
            | _ :: _ => inl (errors ++ [("media", join_errors file_errors)])%list
            | [] => inr (set_media_paths saved_paths story)
            end
        end in
      match media_result with
      | inl errs => (None, errs, [], st)
      | inr story =>
          let db1 := with_stories (stories (tables st) ++ [story])%list (tables st) in
          let st1 := record_activity (mkStore db1 (user_activity_dates st)) today
                       current_user_id in
          let '(newly_earned, db2) := evaluate_and_award (tables st1) now current_user_id in
          (Some story, [], newly_earned, mkStore db2 (user_activity_dates st1))
      end
  end.

End StoryCreate.

(** A user with one story, and the catalog's first-story achievement next to
    a one-day streak achievement. *)
Definition with_activity_streak_example : DB :=
  with_achievements [ex_first_story; mkAchievement 2 "Regular" "days_active_streak" 1 true [7]]
    ex_db.

(** [current_user_id == u] for an optional id. *)
Definition author_is (cu : option Z) (u : Z) : bool :=
  match cu with Some a => a =? u | None => false end.

(** [AchievementRepository.find_all(load_badges=True)]:
    [SELECT * FROM achievements ORDER BY id ASC], each row's [active] read
    as [bool(row["active"])]. *)
Definition ach_find_all (db : DB) : list Achievement :=
  map (load_badge_ids db) (sort_asc_id (achievements db)).

(** Example uploads. *)
Definition ex_png_upload : Upload :=
  mkUpload "Beach.PNG" (Some "image/png") [137; 80; 78; 71; 13; 10; 26; 10; 0; 0; 0; 13].

Definition ex_uploads : list Upload :=
  [ex_png_upload;
   mkUpload "" (Some "image/png") [1];
   mkUpload "notes.txt" (Some "text/plain") [1; 2; 3];
   mkUpload "fake.gif" (Some "image/gif") [0; 1; 2; 3]].

(** A badge id present in the [badges] table. *)
Definition badge_known (db : DB) (b : Z) : bool :=
  match badge_find_by_id db b with Some _ => true | None => false end.

(** The award tables of [db'] extend those of [db] with rows of user [u]
    earned at [now], keeping the [UNIQUE(user_id, x_id)] keys unique. *)
Definition ledger_grows (u now : Z) (db db' : DB) : Prop :=
  (exists nb, user_badges db' = (user_badges db ++ nb)%list
              /\ Forall (fun r => ub_user_id r = u /\ ub_earned_at r = now) nb)
  /\ (exists na, user_achievements db' = (user_achievements db ++ na)%list
                 /\ Forall (fun r => ua_user_id r = u /\ ua_earned_at r = now) na)
  /\ (NoDup (map (fun r => (ub_user_id r, ub_badge_id r)) (user_badges db)) ->
      NoDup (map (fun r => (ub_user_id r, ub_badge_id r)) (user_badges db')))
  /\ (NoDup (map (fun r => (ua_user_id r, ua_achievement_id r)) (user_achievements db)) ->
      NoDup (map (fun r => (ua_user_id r, ua_achievement_id r)) (user_achievements db'))).

(* ================================================================== *)
(** * Lemmas *)

Lemma err_lookup_app_l (k : string) (e x : Errors) :
  err_lookup k e <> None -> err_lookup k (e ++ x)%list <> None.
Proof.
  unfold err_lookup. induction e as [|[k0 v0] e IH]; simpl; [congruence|].
  destruct (String.eqb k0 k); auto.
Qed.

Lemma add_error_keeps (k k' : string) (o : option string) (e : Errors) :
  err_lookup k e <> None -> err_lookup k (add_error k' o e) <> None.
Proof. destruct o; simpl; auto using err_lookup_app_l. Qed.

Lemma add_error_some (k m : string) (e : Errors) :
  err_lookup k (add_error k (Some m) e) <> None.
Proof.
  unfold add_error, err_lookup. induction e as [|[k0 v0] e IH]; simpl.
  - rewrite String.eqb_refl. discriminate.
  - destruct (String.eqb k0 k); [discriminate | exact IH].
Qed.

Lemma validate_caption_long (s : StoryPost) :
  120 < Z.of_nat (String.length (caption s)) -> exists m, _validate_caption s = Some m.
Proof.
  intro H. unfold _validate_caption.
  destruct (_ || _); [eauto|].
  apply Z.ltb_lt in H. rewrite H. eauto.
Qed.

Lemma validate_description_short (s : StoryPost) :
  Z.of_nat (String.length (description s)) < 20 -> exists m, _validate_description s = Some m.
Proof.
  intro H. unfold _validate_description.
  destruct (_ || _); [eauto|].
  apply Z.ltb_lt in H. rewrite H. eauto.
Qed.


(** [validate] keeps every error recorded so far. *)
Lemma validate_keeps (k : string) (s : StoryPost) :
  err_lookup k
    (add_error "privacy" (_validate_privacy s)
      (add_error "category" (_validate_category s)
        (add_error "tags" (_validate_tags s)
          (add_error "description" (_validate_description s)
             (add_error "caption" (_validate_caption s) []))))) <> None ->
  err_lookup k (validate s) <> None.
Proof.
  intro H. unfold validate. destruct (String.eqb (privacy s) "Specific Groups").
  - apply add_error_keeps. exact H.
  - exact H.
Qed.

(** C8: a caption longer than 120 characters always yields a ['caption']
    error, a description shorter than 20 characters always yields a
    ['description'] error, whatever the other fields hold. *)
Theorem validate_reports_caption_and_description (s : StoryPost) :
  (120 < Z.of_nat (String.length (caption s)) -> err_lookup "caption" (validate s) <> None) /\
  (Z.of_nat (String.length (description s)) < 20 ->
     err_lookup "description" (validate s) <> None).
Proof.
  split; intro H; apply validate_keeps.
  - do 4 apply add_error_keeps.
    destruct (validate_caption_long s H) as [m Hm]. rewrite Hm. apply add_error_some.
  - do 3 apply add_error_keeps.
    destruct (validate_description_short s H) as [m Hm]. rewrite Hm. apply add_error_some.
Qed.

Lemma validate_reports_caption_and_description_witness :
  let s := set_description "short" (set_caption (hashes 121) ex_story) in
  (120 < Z.of_nat (String.length (caption s)) /\ err_lookup "caption" (validate s) <> None) /\
  (Z.of_nat (String.length (description s)) < 20 /\
   err_lookup "description" (validate s) <> None).
Proof.
  intro s.
  assert (H1 : 120 < Z.of_nat (String.length (caption s))) by (vm_compute; reflexivity).
  assert (H2 : Z.of_nat (String.length (description s)) < 20) by (vm_compute; reflexivity).
  split; split; auto.
  - exact (proj1 (validate_reports_caption_and_description s) H1).
  - exact (proj2 (validate_reports_caption_and_description s) H2).
Defined.

(* ------------------------------------------------------------------ *)
(** ** Achievement catalog lemmas *)

Lemma In_insert_asc_id (x y : Achievement) (l : list Achievement) :
  In x (insert_asc_id y l) <-> y = x \/ In x l.
Proof.
  induction l as [|z l IH]; simpl.
  - tauto.
  - destruct (a_id y <=? a_id z); simpl; [tauto|]. rewrite IH. tauto.
Qed.

Lemma In_sort_asc_id (x : Achievement) (l : list Achievement) :
  In x (sort_asc_id l) <-> In x l.
Proof.
  induction l as [|y l IH]; simpl; [tauto|].
  rewrite In_insert_asc_id, IH. split; intros [H|H]; auto.
Qed.

Lemma In_find_all_active (db : DB) (ach : Achievement) :
  In ach (find_all_active db) ->
  exists a0, In a0 (achievements db) /\ active a0 = true /\ ach = load_badge_ids db a0.
Proof.
  unfold find_all_active. intro H. apply in_map_iff in H as [a0 [<- Ha0]].
  apply In_sort_asc_id, filter_In in Ha0 as [Hin Hact]. eauto.
Qed.

Lemma rule_satisfied_load (db : DB) (a : Achievement) (st : Stats) :
  _rule_satisfied (load_badge_ids db a) st = _rule_satisfied a st.
Proof. reflexivity. Qed.

Lemma NoDup_map_inj {A B} (f : A -> B) (l : list A) (x y : A) :
  NoDup (map f l) -> In x l -> In y l -> f x = f y -> x = y.
Proof.
  induction l as [|z l IH]; simpl; [tauto|].
  intros Hnd Hx Hy Hf. inversion Hnd as [|? ? Hnot Hnd']; subst.
  destruct Hx as [<-|Hx], Hy as [<-|Hy]; auto.
  - exfalso. apply Hnot. rewrite Hf. apply in_map. exact Hy.
  - exfalso. apply Hnot. rewrite <- Hf. apply in_map. exact Hx.
Qed.

(* ------------------------------------------------------------------ *)
(** ** The award ledger through [award_badges] and [award_loop] *)

Lemma has_achievement_append (db : DB) (r : UserAchievement) (u x : Z) :
  has_achievement (with_user_achievements (user_achievements db ++ [r])%list db) u x
  = has_achievement db u x || ((ua_user_id r =? u) && (ua_achievement_id r =? x)).
Proof.
  unfold has_achievement. simpl. rewrite existsb_app. simpl. rewrite orb_false_r. reflexivity.
Qed.

Lemma has_badge_append (db : DB) (r : UserBadge) (u x : Z) :
  has_badge (with_user_badges (user_badges db ++ [r])%list db) u x
  = has_badge db u x || ((ub_user_id r =? u) && (ub_badge_id r =? x)).
Proof.
  unfold has_badge. simpl. rewrite existsb_app. simpl. rewrite orb_false_r. reflexivity.
Qed.

Lemma award_badges_frame (db : DB) (now u : Z) (bids : list Z) (out : list BadgeInfo) (db' : DB) :
  award_badges db now u bids = (out, db') ->
  same_content db db' /\ user_achievements db' = user_achievements db
  /\ (forall u' b, has_badge db u' b = true -> has_badge db' u' b = true).
Proof.
  revert db out. induction bids as [|b bids IH]; intros db out H; simpl in H.
  - inversion H; subst. repeat split; auto.
  - unfold award_badge in H.
    destruct (has_badge db u b) eqn:Hb.
    + destruct (award_badges db now u bids) as [o1 d1] eqn:E.
      inversion H; subst. exact (IH _ _ E).
    + set (db1 := with_user_badges (user_badges db ++ [mkUserBadge u b now])%list db) in H.
      destruct (award_badges db1 now u bids) as [o1 d1] eqn:E.
      inversion H; subst.
      destruct (IH _ _ E) as [[S1 [S2 [S3 [S4 S5]]]] [UA HB]].
      unfold same_content. subst db1. simpl in *.
      repeat split; auto.
      intros u' b' Hub. apply HB. rewrite has_badge_append, Hub. reflexivity.
Qed.

Lemma has_achievement_ext (d d' : DB) (u x : Z) :
  user_achievements d = user_achievements d' -> has_achievement d u x = has_achievement d' u x.
Proof. unfold has_achievement. intros ->. reflexivity. Qed.

Lemma has_badge_ext (d d' : DB) (u x : Z) :
  user_badges d = user_badges d' -> has_badge d u x = has_badge d' u x.
Proof. unfold has_badge. intros ->. reflexivity. Qed.

Lemma award_achievement_new (db : DB) (now u x : Z) :
  has_achievement db u x = false ->
  award_achievement db now u x
  = (true, with_user_achievements (user_achievements db ++ [mkUserAchievement u x now])%list db).
Proof. intro H. unfold award_achievement. rewrite H. reflexivity. Qed.

(** One step of the outer loop, by cases on the ledger check and the rule. *)
Ltac loop_step db u ach st H :=
  let Hh := fresh "Hh" in let Hr := fresh "Hr" in
  destruct (has_achievement db u (a_id ach)) eqn:Hh;
  [| destruct (_rule_satisfied ach st) eqn:Hr; simpl in H;
     [rewrite (award_achievement_new db _ u (a_id ach) Hh) in H; simpl in H | ]].

Lemma award_loop_frame (db : DB) (now u : Z) (st : Stats) (L : list Achievement)
    (out : list BadgeInfo) (db' : DB) :
  award_loop db now u st L = (out, db') ->
  same_content db db'
  /\ (forall u' x, has_achievement db u' x = true -> has_achievement db' u' x = true)
  /\ (forall u' b, has_badge db u' b = true -> has_badge db' u' b = true).
Proof.
  revert db out. induction L as [|ach L IH]; intros db out H; simpl in H.
  - inversion H; subst. repeat split; auto.
  - loop_step db u ach st H.
    + exact (IH _ _ H).
    + set (db1 := with_user_achievements _ db) in H.
      destruct (award_badges db1 now u (badge_ids ach)) as [o1 d2] eqn:E1.
      destruct (award_loop d2 now u st L) as [o2 d3] eqn:E2.
      inversion H; subst.
      destruct (award_badges_frame _ _ _ _ _ _ E1) as [[S1 [S2 [S3 [S4 S5]]]] [UA HB]].
      destruct (IH _ _ E2) as [[T1 [T2 [T3 [T4 T5]]]] [HA' HB']].
      subst db1. simpl in *.
      unfold same_content. repeat split; try congruence.
      * intros u' x Hx. apply HA'.
        rewrite (has_achievement_ext _ (with_user_achievements
                   (user_achievements db ++ [mkUserAchievement u (a_id ach) now])%list db) u' x UA).
        rewrite has_achievement_append, Hx. reflexivity.
      * intros u' b Hb. apply HB', HB. exact Hb.
    + exact (IH _ _ H).
Qed.

Lemma award_loop_only_satisfied (db : DB) (now u : Z) (st : Stats) (L : list Achievement)
    (out : list BadgeInfo) (db' : DB) :
  award_loop db now u st L = (out, db') ->
  forall u' x, has_achievement db' u' x = true ->
  has_achievement db u' x = true
  \/ (u' = u /\ exists ach, In ach L /\ a_id ach = x /\ _rule_satisfied ach st = true).
Proof.
  revert db out. induction L as [|ach L IH]; intros db out H u' x Hx; simpl in H.
  - inversion H; subst. auto.
  - loop_step db u ach st H.
    + destruct (IH _ _ H u' x Hx) as [?|[? [a [? ?]]]]; [left; assumption|].
      right. split; [assumption|]. exists a. simpl. tauto.
    + set (db1 := with_user_achievements _ db) in H.
      destruct (award_badges db1 now u (badge_ids ach)) as [o1 d2] eqn:E1.
      destruct (award_loop d2 now u st L) as [o2 d3] eqn:E2.
      inversion H; subst.
      destruct (award_badges_frame _ _ _ _ _ _ E1) as [_ [UA _]].
      destruct (IH _ _ E2 u' x Hx) as [Hd2|[? [a [? ?]]]];
        [|right; split; [assumption|]; exists a; simpl; tauto].
      rewrite (has_achievement_ext _ db1 u' x UA) in Hd2. subst db1.
      rewrite has_achievement_append in Hd2. simpl in Hd2.
      destruct (has_achievement db u' x) eqn:Hdb; auto.
      simpl in Hd2. apply andb_true_iff in Hd2 as [E3 E4].
      apply Z.eqb_eq in E3, E4. subst. right. split; [reflexivity|].
      exists ach. simpl. auto.
    + destruct (IH _ _ H u' x Hx) as [?|[? [a [? ?]]]]; [left; assumption|].
      right. split; [assumption|]. exists a. simpl. tauto.
Qed.

Lemma award_loop_settles (db : DB) (now u : Z) (st : Stats) (L : list Achievement)
    (out : list BadgeInfo) (db' : DB) :
  award_loop db now u st L = (out, db') ->
  forall ach, In ach L -> has_achievement db' u (a_id ach) = true \/ _rule_satisfied ach st = false.
Proof.
  revert db out. induction L as [|a L IH]; intros db out H ach Hin; simpl in H; [contradiction|].
  destruct Hin as [Ea|Hin].
  - subst a. loop_step db u ach st H.
    + left. apply (proj1 (proj2 (award_loop_frame _ _ _ _ _ _ _ H))). exact Hh.
    + set (db1 := with_user_achievements _ db) in H.
      destruct (award_badges db1 now u (badge_ids ach)) as [o1 d2] eqn:E1.
      destruct (award_loop d2 now u st L) as [o2 d3] eqn:E2.
      inversion H; subst.
      destruct (award_badges_frame _ _ _ _ _ _ E1) as [_ [UA _]].
      left. apply (proj1 (proj2 (award_loop_frame _ _ _ _ _ _ _ E2))).
      rewrite (has_achievement_ext _ db1 _ _ UA). subst db1.
      rewrite has_achievement_append. simpl. rewrite !Z.eqb_refl, orb_true_r. reflexivity.
    + right. reflexivity.
  - loop_step db u a st H.
    + exact (IH _ _ H ach Hin).
    + set (db1 := with_user_achievements _ db) in H.
      destruct (award_badges db1 now u (badge_ids a)) as [o1 d2] eqn:E1.
      destruct (award_loop d2 now u st L) as [o2 d3] eqn:E2.
      inversion H; subst. exact (IH _ _ E2 ach Hin).
    + exact (IH _ _ H ach Hin).
Qed.

Lemma award_loop_quiet (db : DB) (now u : Z) (st : Stats) (L : list Achievement) :
  (forall ach, In ach L -> has_achievement db u (a_id ach) = true \/ _rule_satisfied ach st = false) ->
  award_loop db now u st L = ([], db).
Proof.
  induction L as [|ach L IH]; intro H; simpl; [reflexivity|].
  assert (IH' : award_loop db now u st L = ([], db)) by (apply IH; intros; apply H; simpl; auto).
  destruct (H ach (or_introl eq_refl)) as [Hh|Hr].
  - rewrite Hh. exact IH'.
  - rewrite Hr. destruct (has_achievement db u (a_id ach)); exact IH'.
Qed.

Lemma get_user_stats_content (db db' : DB) (u : Z) :
  same_content db db' -> get_user_stats db' u = get_user_stats db u.
Proof. intros [S1 [S2 _]]. unfold get_user_stats. rewrite S1, S2. reflexivity. Qed.

Lemma find_all_active_content (db db' : DB) :
  same_content db db' -> find_all_active db' = find_all_active db.
Proof.
  intros [_ [_ [_ [S4 S5]]]]. unfold find_all_active, load_badge_ids. rewrite S4, S5. reflexivity.
Qed.

(** C1: a second [evaluate_and_award] right after a first one, on the
    database the first left, awards nothing, returns [[]] and leaves the
    database as it is. *)
Theorem evaluate_and_award_idempotent (db : DB) (now1 now2 : Z) (user_id : option Z) :
  let '(_, db1) := evaluate_and_award db now1 user_id in
  evaluate_and_award db1 now2 user_id = ([], db1).
Proof.
  destruct user_id as [u|]; simpl; [|reflexivity].
  destruct (award_loop db now1 u (get_user_stats db u) (find_all_active db)) as [out db1] eqn:E.
  destruct (award_loop_frame _ _ _ _ _ _ _ E) as [SC _].
  rewrite (get_user_stats_content _ _ u SC), (find_all_active_content _ _ SC).
  apply award_loop_quiet. exact (award_loop_settles _ _ _ _ _ _ _ E).
Qed.

(** C9: an achievement whose [rule_type] is none of the five rule types is
    never satisfied, whatever the stats, and so [evaluate_and_award] never
    records it for a user who does not hold it yet (achievement ids are the
    table's primary key, hence distinct). *)
Theorem unknown_rule_type_fails_closed (a : Achievement) (stats : Stats) (db : DB) (now u : Z) :
  str_in (rule_type a) ACHIEVEMENT_RULE_TYPES = false ->
  In a (achievements db) -> NoDup (map a_id (achievements db)) ->
  has_achievement db u (a_id a) = false ->
  _rule_satisfied a stats = false
  /\ has_achievement (snd (evaluate_and_award db now (Some u))) u (a_id a) = false.
Proof.
  intros Hunk Hin Hnd Hno.
  assert (Hrule : forall st, _rule_satisfied a st = false).
  { intro st. unfold str_in, ACHIEVEMENT_RULE_TYPES in Hunk. simpl in Hunk.
    unfold _rule_satisfied.
    destruct (String.eqb (rule_type a) "stories_created_total"); [discriminate|].
    destruct (String.eqb (rule_type a) "comments_written_total"); [discriminate|].
    destruct (String.eqb (rule_type a) "likes_received_total"); [discriminate|].
    destruct (String.eqb (rule_type a) "shares_received_total"); [discriminate|].
    destruct (String.eqb (rule_type a) "days_active_streak"); [discriminate|].
    reflexivity. }
  split; [apply Hrule|]. simpl.
  destruct (award_loop db now u (get_user_stats db u) (find_all_active db)) as [out db'] eqn:E.
  simpl. destruct (has_achievement db' u (a_id a)) eqn:Hd; [|reflexivity].
  destruct (award_loop_only_satisfied _ _ _ _ _ _ _ E u (a_id a) Hd)
    as [Hdb|[_ [ach [Hach [Hid Hsat]]]]]; [congruence|].
  apply In_find_all_active in Hach as [a0 [Ha0 [_ ->]]].
  rewrite rule_satisfied_load in Hsat. simpl in Hid.
  assert (a0 = a) by exact (NoDup_map_inj a_id _ _ _ Hnd Ha0 Hin Hid).
  subst a0. rewrite Hrule in Hsat. discriminate.
Qed.

Lemma unknown_rule_type_fails_closed_witness :
  str_in (rule_type ex_streak_typo) ACHIEVEMENT_RULE_TYPES = false
  /\ _rule_satisfied ex_streak_typo (get_user_stats ex_db_typo 5) = false
  /\ has_achievement (snd (evaluate_and_award ex_db_typo 10 (Some 5))) 5 (a_id ex_streak_typo)
     = false.
Proof.
  assert (H1 : str_in (rule_type ex_streak_typo) ACHIEVEMENT_RULE_TYPES = false)
    by reflexivity.
  assert (H2 : In ex_streak_typo (achievements ex_db_typo)) by (simpl; auto).
  assert (H3 : NoDup (map a_id (achievements ex_db_typo)))
    by (simpl; constructor; [simpl; lia | constructor; [simpl; auto | constructor]]).
  assert (H4 : has_achievement ex_db_typo 5 (a_id ex_streak_typo) = false) by reflexivity.
  destruct (unknown_rule_type_fails_closed ex_streak_typo (get_user_stats ex_db_typo 5)
              ex_db_typo 10 5 H1 H2 H3 H4) as [R1 R2].
  split; [exact H1 | split; [exact R1 | exact R2]].
Defined.

(* ------------------------------------------------------------------ *)
(** ** Story store lemmas *)

Lemma update_absent (sid : Z) (f : StoryPost -> StoryPost) (l : list StoryPost) :
  find (fun s => id s =? sid) l = None -> update_where_id sid f l = (l, 0%nat).
Proof.
  unfold update_where_id. induction l as [|s l IH]; simpl; [reflexivity|].
  destruct (id s =? sid); [discriminate|].
  intro H. specialize (IH H). injection IH as E1 E2.
  rewrite E1, E2. reflexivity.
Qed.

Lemma with_stories_same (db : DB) : with_stories (stories db) db = db.
Proof. destruct db; reflexivity. Qed.

Lemma exec_update_absent (db : DB) (sid : Z) (f : StoryPost -> StoryPost) :
  find_by_id db sid = None -> exec_update db sid f = (db, 0%nat).
Proof.
  intro H. unfold exec_update. rewrite (update_absent sid f _ H), with_stories_same.
  reflexivity.
Qed.

Lemma update_returning_absent (db : DB) (sid : Z) f col :
  find_by_id db sid = None -> update_returning db sid f col = (0, db).
Proof.
  intro H. unfold update_returning. rewrite (exec_update_absent db sid f H), H. reflexivity.
Qed.

(** The counter updates keep the gamification tables. *)
Lemma exec_update_tables (db : DB) (sid : Z) f :
  user_badges (fst (exec_update db sid f)) = user_badges db
  /\ user_achievements (fst (exec_update db sid f)) = user_achievements db.
Proof. unfold exec_update. destruct (update_where_id sid f (stories db)). split; reflexivity. Qed.

Lemma engage_anonymous (counter : DB -> Z -> Z * DB) (db : DB) (now sid : Z) (s : StoryPost) :
  find_by_id db sid = Some s -> author_id s = None ->
  (forall d, user_badges (snd (counter d sid)) = user_badges d
             /\ user_achievements (snd (counter d sid)) = user_achievements d) ->
  let '(_, newly, db') := engage counter db now sid in
  newly = [] /\ user_badges db' = user_badges db /\ user_achievements db' = user_achievements db.
Proof.
  intros Hf Ha Hc. unfold engage. rewrite Hf, Ha.
  specialize (Hc db). destruct (counter db sid) as [n db1]. simpl in Hc. tauto.
Qed.

Lemma update_returning_tables (db : DB) (sid : Z) f col :
  user_badges (snd (update_returning db sid f col)) = user_badges db
  /\ user_achievements (snd (update_returning db sid f col)) = user_achievements db.
Proof.
  unfold update_returning. pose proof (exec_update_tables db sid f) as H.
  destruct (exec_update db sid f) as [d n]. exact H.
Qed.

(** C10: liking, unliking or sharing a story id with no row returns
    [(0, [])] and leaves the database unchanged; on a story without an
    author no badge is evaluated and the award tables stay as they are. *)
Theorem engagement_on_missing_story (db : DB) (now sid : Z) :
  (find_by_id db sid = None ->
     like_story db now sid = (0, [], db)
     /\ unlike_story db now sid = (0, [], db)
     /\ share_story db now sid = (0, [], db))
  /\ (forall s, find_by_id db sid = Some s -> author_id s = None ->
        forall op, In op [like_story; unlike_story; share_story] ->
        let '(_, newly, db') := op db now sid in
        newly = [] /\ user_badges db' = user_badges db
        /\ user_achievements db' = user_achievements db).
Proof.
  split.
  - intro H. unfold like_story, unlike_story, share_story, engage,
      increment_likes, decrement_likes, increment_shares.
    rewrite !update_returning_absent by exact H. rewrite H. auto.
  - intros s Hf Ha op Hop. simpl in Hop.
    destruct Hop as [<-|[<-|[<-|[]]]]; apply (engage_anonymous _ _ _ _ s Hf Ha);
      intro d; apply update_returning_tables.
Qed.

Lemma engagement_on_missing_story_witness :
  (like_story ex_db 0 2 = (0, [], ex_db) /\ unlike_story ex_db 0 2 = (0, [], ex_db)
   /\ share_story ex_db 0 2 = (0, [], ex_db))
  /\ (let '(_, newly, db') := like_story ex_db_anon 0 1 in
      newly = [] /\ user_badges db' = user_badges ex_db_anon
      /\ user_achievements db' = user_achievements ex_db_anon).
Proof.
  split.
  - apply (proj1 (engagement_on_missing_story ex_db 0 2)). reflexivity.
  - apply (proj2 (engagement_on_missing_story ex_db_anon 0 1)
             (mkStoryPost 1 None "abc" "A quiet afternoon by the lake" [] None
                "Life Lessons" "Public" [] None [] 3 0 0 0 0 false None));
      [reflexivity | reflexivity | simpl; auto].
Defined.

Lemma filter_length_find {A} (p : A -> bool) (l : list A) :
  (0 <? List.length (filter p l))%nat = true <-> find p l <> None.
Proof.
  induction l as [|x l IH]; simpl.
  - split; [discriminate | congruence].
  - destruct (p x); simpl; [split; [discriminate | reflexivity] | exact IH].
Qed.

(* ------------------------------------------------------------------ *)
(** ** Tag normalisation *)

Lemma lstrip_hash_hashes (k : nat) (name : string) :
  (forall rest, name <> String "#"%char rest) -> lstrip_hash (hashes k ++ name) = name.
Proof.
  intro Hn. induction k as [|k IH]; simpl.
  - destruct name as [|c rest]; [reflexivity|]. unfold lstrip_hash. simpl.
    destruct (ascii_eqb c "#"%char) eqn:E; [|reflexivity].
    exfalso. apply (Hn rest). unfold ascii_eqb in E. apply Ascii.eqb_eq in E. subst. reflexivity.
  - exact IH.
Qed.

Lemma lstrip_app_keep (p : ascii -> bool) (t : string) (c : ascii) :
  p c = false -> py_truthy (lstrip_by p (t ++ String c EmptyString)) = true.
Proof.
  intro H. induction t as [|a t IH]; simpl; [rewrite H; reflexivity|].
  destruct (p a); [exact IH | reflexivity].
Qed.

Lemma rev_string_truthy (t : string) :
  py_truthy t = true -> py_truthy (rev_string t) = true.
Proof.
  destruct t as [|a t]; simpl; [discriminate|]. intros _.
  destruct (rev_string t); reflexivity.
Qed.

(** A string starting with a non-space character survives [strip()]. *)
Lemma strip_truthy (c : ascii) (t : string) :
  py_isspace c = false -> py_truthy (py_strip (String c t)) = true.
Proof.
  intro H. unfold py_strip. cbn [lstrip_by]. rewrite H.
  apply rev_string_truthy. cbn [rev_string]. apply lstrip_app_keep. exact H.
Qed.

(** C5, as the code has it: [lstrip('#')] removes every leading ['#'], so
    ['#name'] and ['##name'] both become ['name'], before storage (after
    blank tags are dropped) and before the pattern check of [validate]. *)
Theorem tag_normalization_strips_all_hashes (k : nat) (name : string) (s : StoryPost) :
  (forall rest, name <> String "#"%char rest) ->
  lstrip_hash (hashes k ++ name) = name
  /\ ((0 < k)%nat -> normalize_tags [hashes k ++ name] = [name])
  /\ (tags s = [hashes k ++ name] -> (_validate_tags s = None <-> tag_pattern_match name = true)).
Proof.
  intro Hn. pose proof (lstrip_hash_hashes k name Hn) as L.
  split; [exact L|]. split.
  - intro Hk. destruct k as [|k]; [lia|]. unfold normalize_tags.
    change (hashes (S k) ++ name) with (String "#"%char (hashes k ++ name)) in *.
    cbn [filter]. rewrite strip_truthy by reflexivity. cbn [map]. rewrite L. reflexivity.
  - intro Ht. unfold _validate_tags. rewrite Ht. simpl. rewrite L, andb_true_r.
    destruct (tag_pattern_match name); split; congruence.
Qed.

Lemma tag_normalization_strips_all_hashes_witness :
  lstrip_hash (hashes 2 ++ "name") = "name"
  /\ normalize_tags [hashes 2 ++ "name"] = ["name"]
  /\ (_validate_tags (set_tags [hashes 2 ++ "name"] ex_story) = None
      <-> tag_pattern_match "name" = true).
Proof.
  assert (Hn : forall rest, "name" <> String "#"%char rest) by discriminate.
  destruct (tag_normalization_strips_all_hashes 2 "name" (set_tags [hashes 2 ++ "name"] ex_story) Hn)
    as [A [B C]].
  split; [exact A | split; [apply B; lia | apply C; reflexivity]].
Defined.

(** C5 as stated fails: ['##name'] is stored as ['name'] and passes the
    tag pattern, instead of being checked as ['#name']. *)
Lemma double_hash_tag_accepted :
  normalize_tags ["##name"] = ["name"]
  /\ lstrip_hash "##name" <> "#name"
  /\ _validate_tags (set_tags ["##name"] ex_story) = None.
Proof. split; [reflexivity | split; [discriminate | reflexivity]]. Qed.

(* ------------------------------------------------------------------ *)
(** ** Engagement counters *)

Lemma find_update_where_id (sid : Z) (f : StoryPost -> StoryPost) (l : list StoryPost) :
  (forall s, id (f s) = id s) ->
  find (fun s => id s =? sid) (fst (update_where_id sid f l))
  = option_map f (find (fun s => id s =? sid) l).
Proof.
  intro Hf. unfold update_where_id; simpl.
  induction l as [|s l IH]; simpl; [reflexivity|].
  destruct (id s =? sid) eqn:E; simpl.
  - rewrite Hf, E. reflexivity.
  - rewrite E. exact IH.
Qed.

Lemma Forall_update_where_id (P : StoryPost -> Prop) (sid : Z) f (l : list StoryPost) :
  (forall s, P s -> P (f s)) -> Forall P l -> Forall P (fst (update_where_id sid f l)).
Proof.
  intros Hf Hl. unfold update_where_id; simpl. apply Forall_map.
  eapply Forall_impl; [|exact Hl]. intros s Hs. destruct (id s =? sid); auto.
Qed.

Lemma exec_update_ok (db : DB) (sid : Z) f :
  (forall s, counters_ok s -> counters_ok (f s)) ->
  db_counters_ok db -> db_counters_ok (fst (exec_update db sid f)).
Proof.
  intros Hf Hdb. unfold exec_update, db_counters_ok in *.
  pose proof (Forall_update_where_id _ sid f _ Hf Hdb) as H.
  destruct (update_where_id sid f (stories db)). exact H.
Qed.

Lemma exec_update_find (db : DB) (sid : Z) f :
  (forall s, id (f s) = id s) ->
  find_by_id (fst (exec_update db sid f)) sid = option_map f (find_by_id db sid).
Proof.
  intro Hf. unfold exec_update, find_by_id.
  pose proof (find_update_where_id sid f (stories db) Hf) as H.
  destruct (update_where_id sid f (stories db)). exact H.
Qed.

Ltac setter_id := intros []; reflexivity.
Ltac setter_ok := intros [] [? [? ?]]; unfold counters_ok; simpl in *; lia.

Lemma snd_update_returning (db : DB) (sid : Z) f col :
  snd (update_returning db sid f col) = fst (exec_update db sid f).
Proof. unfold update_returning. destruct (exec_update db sid f). reflexivity. Qed.

Lemma snd_comment_create (db : DB) (c : Comment) :
  snd (comment_create db c)
  = fst (exec_update (with_comments (comments db ++ [c])%list db) (c_story_id c)
           (fun s => set_comments_count (comments_count s + 1) s)).
Proof. unfold comment_create. destruct (exec_update _ _ _). reflexivity. Qed.

Lemma snd_comment_delete (db : DB) (cid : Z) (c : Comment) :
  find (fun c => c_id c =? cid) (comments db) = Some c ->
  snd (comment_delete db cid)
  = fst (exec_update (with_comments (filter (fun c' => negb (c_id c' =? cid)) (comments db)) db)
           (c_story_id c) (fun s => set_comments_count (Z.max 0 (comments_count s - 1)) s)).
Proof. intro H. unfold comment_delete. rewrite H. destruct (exec_update _ _ _). reflexivity. Qed.

Lemma engagement_step_ok (db : DB) (op : EngagementOp) :
  db_counters_ok db -> db_counters_ok (engagement_step db op).
Proof.
  intro H. destruct op as [sid|sid|sid|c|cid]; unfold engagement_step.
  - unfold increment_likes. rewrite snd_update_returning.
    apply exec_update_ok; [setter_ok | exact H].
  - unfold decrement_likes. rewrite snd_update_returning.
    apply exec_update_ok; [setter_ok | exact H].
  - unfold increment_shares. rewrite snd_update_returning.
    apply exec_update_ok; [setter_ok | exact H].
  - rewrite snd_comment_create. apply exec_update_ok; [setter_ok | exact H].
  - destruct (find (fun c => c_id c =? cid) (comments db)) as [c|] eqn:Hc.
    + rewrite (snd_comment_delete db cid c Hc). apply exec_update_ok; [setter_ok | exact H].
    + unfold comment_delete. rewrite Hc. exact H.
Qed.

(** C6: [decrement_likes] on a story with [likes_count = n] stores and
    returns [max(0, n-1)]; deleting a comment stores [max(0, n-1)] as its
    story's [comments_count]; and from a database whose counters are all
    non-negative, no sequence of likes, unlikes, shares, comment additions
    and comment deletions makes any counter negative. *)
Theorem counters_never_negative :
  (forall db sid s, find_by_id db sid = Some s ->
     exists s', find_by_id (snd (decrement_likes db sid)) sid = Some s'
                /\ likes_count s' = Z.max 0 (likes_count s - 1)
                /\ fst (decrement_likes db sid) = likes_count s')
  /\ (forall db cid c s, find (fun c => c_id c =? cid) (comments db) = Some c ->
        find_by_id db (c_story_id c) = Some s ->
        exists s', find_by_id (snd (comment_delete db cid)) (c_story_id c) = Some s'
                   /\ comments_count s' = Z.max 0 (comments_count s - 1))
  /\ (forall ops db, db_counters_ok db -> db_counters_ok (run_engagement ops db)).
Proof.
  split; [|split].
  - intros db sid s Hf. unfold decrement_likes, update_returning.
    pose proof (exec_update_find db sid
                  (fun s => set_likes_count (Z.max 0 (likes_count s - 1)) s)
                  ltac:(setter_id)) as K.
    rewrite Hf in K. destruct (exec_update _ _ _) as [d n]. simpl in *.
    rewrite K. eexists; split; [reflexivity|]. destruct s; simpl; auto.
  - intros db cid c s Hc Hs. unfold comment_delete. rewrite Hc.
    set (db1 := with_comments _ db).
    pose proof (exec_update_find db1 (c_story_id c)
                  (fun s => set_comments_count (Z.max 0 (comments_count s - 1)) s)
                  ltac:(setter_id)) as K.
    change (find_by_id db1 (c_story_id c)) with (find_by_id db (c_story_id c)) in K.
    rewrite Hs in K. destruct (exec_update _ _ _) as [d n]. simpl in *.
    rewrite K. eexists; split; [reflexivity|]. destruct s; reflexivity.
  - intro ops. unfold run_engagement. induction ops as [|op ops IH]; intros db H; simpl.
    + exact H.
    + apply IH, engagement_step_ok, H.
Qed.

Lemma counters_never_negative_witness :
  (exists s', find_by_id (snd (decrement_likes ex_db 1)) 1 = Some s'
              /\ likes_count s' = Z.max 0 (likes_count ex_story - 1)
              /\ fst (decrement_likes ex_db 1) = likes_count s')
  /\ (exists s', find_by_id (snd (comment_delete ex_db_commented 1)) (c_story_id ex_comment) = Some s'
                 /\ comments_count s' = Z.max 0 (comments_count (set_comments_count 1 ex_story) - 1))
  /\ db_counters_ok (run_engagement [OpUnlike 1; OpUnlike 1; OpLike 1; OpDeleteComment 1] ex_db).
Proof.
  destruct counters_never_negative as [A [B C]].
  split; [apply A; reflexivity|]. split.
  - apply B; reflexivity.
  - apply C. unfold db_counters_ok. simpl. constructor; [|constructor].
    unfold counters_ok. simpl. lia.
Defined.

(* ------------------------------------------------------------------ *)
(** ** Listing *)

Lemma In_insert_desc {A} (key : A -> Z) (x y : A) (l : list A) :
  In x (insert_desc key y l) <-> y = x \/ In x l.
Proof.
  induction l as [|z l IH]; simpl; [tauto|].
  destruct (key z <? key y); simpl; [tauto|]. rewrite IH. tauto.
Qed.

Lemma In_sort_desc {A} (key : A -> Z) (x : A) (l : list A) :
  In x (sort_desc key l) <-> In x l.
Proof.
  induction l as [|y l IH]; simpl; [tauto|]. rewrite In_insert_desc, IH. tauto.
Qed.

(** What [find_all] does guarantee without [include_deleted]: no deleted
    story, and no [scheduled_at] text greater than the text of "now". *)
Lemma find_all_filters (db : DB) (now_iso : string) (q c : option string) (sb : string)
    (s : StoryPost) :
  In s (find_all db now_iso q c sb false) ->
  In s (stories db) /\ is_deleted s = false
  /\ (forall t, scheduled_at s = Some t -> text_le t now_iso = true).
Proof.
  unfold find_all. intro H.
  assert (H' : In s (filter (fun s0 =>
             (false || negb (is_deleted s0))
             && match scheduled_at s0 with None => true | Some t => text_le t now_iso end
             && match q with
                | Some q0 => if py_truthy q0 then
                               sql_like (caption s0) ("%" ++ q0 ++ "%")
                               || sql_like (description s0) ("%" ++ q0 ++ "%")
                             else true
                | None => true end
             && match c with
                | Some c0 => if py_truthy c0 then String.eqb (category s0) c0 else true
                | None => true end) (stories db))).
  { destruct (String.eqb sb "likes"); [apply In_sort_desc in H; exact H|].
    destruct (String.eqb sb "comments"); apply In_sort_desc in H; exact H. }
  apply filter_In in H' as [Hin Hk].
  apply andb_true_iff in Hk as [Hk _]. apply andb_true_iff in Hk as [Hk _].
  apply andb_true_iff in Hk as [Hd Hs]. simpl in Hd. apply negb_true_iff in Hd.
  split; [exact Hin | split; [exact Hd|]].
  intros t Ht. rewrite Ht in Hs. exact Hs.
Qed.

(** C7: the search term is passed to SQL [LIKE] inside [%...%] without
    escaping, so ['_'] in the term matches any character: searching
    ["a_c"] lists [ex_story], whose caption ["abc"] and description do
    not contain ["a_c"]. *)
Theorem find_all_search_underscore_wildcard :
  In ex_story (find_all ex_db "2026-10-19T12:00:00" (Some "a_c") None "recent" false)
  /\ contains_ci "a_c" (caption ex_story) = false
  /\ contains_ci "a_c" (description ex_story) = false.
Proof.
  assert (E : find_all ex_db "2026-10-19T12:00:00" (Some "a_c") None "recent" false = [ex_story])
    by (vm_compute; reflexivity).
  rewrite E. split; [left; reflexivity | split; vm_compute; reflexivity].
Qed.

(* ------------------------------------------------------------------ *)
(** ** Newly earned badges *)

Lemma badge_find_by_id_id (db : DB) (b : Z) (badge : Badge) :
  badge_find_by_id db b = Some badge -> b_id badge = b.
Proof.
  unfold badge_find_by_id. intro H. apply find_some in H as [_ H]. apply Z.eqb_eq, H.
Qed.

Lemma newly_compose (a b c e : bool) :
  (a = true -> b = true) -> (b = true -> c = true) ->
  ((a = false /\ b = true /\ e = true) \/ (b = false /\ c = true /\ e = true))
  <-> (a = false /\ c = true /\ e = true).
Proof. destruct a, b, c, e; intuition congruence. Qed.

Lemma badge_known_iff (db : DB) (b : Z) : badge_known db b = true <-> badge_find_by_id db b <> None.
Proof. unfold badge_known. destruct (badge_find_by_id db b); split; congruence. Qed.

Lemma award_badges_newly (db : DB) (now u : Z) (bids : list Z) (out : list BadgeInfo) (db' : DB) :
  award_badges db now u bids = (out, db') ->
  forall b, In b (map bi_badge_id out)
            <-> has_badge db u b = false /\ has_badge db' u b = true /\ badge_known db b = true.
Proof.
  revert db out. induction bids as [|b0 bids IH]; intros db out H b; simpl in H.
  - inversion H; subst. simpl. split; [tauto | intros [A [B _]]; congruence].
  - unfold award_badge in H. destruct (has_badge db u b0) eqn:Hb0.
    + destruct (award_badges db now u bids) as [o1 d2] eqn:E.
      inversion H; subst out db'. exact (IH _ _ E b).
    + set (db1 := with_user_badges (user_badges db ++ [mkUserBadge u b0 now])%list db) in H.
      destruct (award_badges db1 now u bids) as [o1 d2] eqn:E.
      inversion H; subst out db'. clear H.
      destruct (award_badges_frame _ _ _ _ _ _ E) as [_ [_ Mono]].
      assert (Hh : has_badge db1 u b = has_badge db u b || (b0 =? b)).
      { subst db1. rewrite has_badge_append. simpl. rewrite Z.eqb_refl. reflexivity. }
      assert (Hk : badge_known db1 b = badge_known db b) by reflexivity.
      specialize (IH _ _ E b). rewrite Hk, Hh in IH.
      rewrite map_app, in_app_iff, IH.
      change (badge_find_by_id db1 b0) with (badge_find_by_id db b0).
      destruct (Z.eqb_spec b0 b) as [Heq|Hne].
      * subst b. rewrite orb_true_r.
        assert (H1 : has_badge d2 u b0 = true).
        { apply Mono. rewrite Hh, orb_true_r. reflexivity. }
        unfold badge_known. destruct (badge_find_by_id db b0) as [badge|] eqn:Hf; simpl.
        -- rewrite (badge_find_by_id_id _ _ _ Hf). intuition congruence.
        -- intuition congruence.
      * rewrite orb_false_r.
        assert (Hnot : ~ In b (map bi_badge_id
                   match badge_find_by_id db b0 with
                   | Some badge => [mkBadgeInfo (b_id badge) (b_title badge)
                                      (b_description badge) (b_icon_url badge)]
                   | None => [] end)).
        { destruct (badge_find_by_id db b0) as [badge|] eqn:Hf; simpl; [|tauto].
          rewrite (badge_find_by_id_id _ _ _ Hf). intuition. }
        intuition.
Qed.

Lemma award_loop_newly (db : DB) (now u : Z) (st : Stats) (L : list Achievement)
    (out : list BadgeInfo) (db' : DB) :
  award_loop db now u st L = (out, db') ->
  forall b, In b (map bi_badge_id out)
            <-> has_badge db u b = false /\ has_badge db' u b = true /\ badge_known db b = true.
Proof.
  revert db out. induction L as [|ach L IH]; intros db out H b; simpl in H.
  - inversion H; subst. simpl. split; [tauto | intros [A [B _]]; congruence].
  - loop_step db u ach st H.
    + exact (IH _ _ H b).
    + set (db1 := with_user_achievements _ db) in H.
      destruct (award_badges db1 now u (badge_ids ach)) as [o1 d2] eqn:E1.
      destruct (award_loop d2 now u st L) as [o2 d3] eqn:E2.
      inversion H; subst out db'. clear H.
      destruct (award_badges_frame _ _ _ _ _ _ E1) as [[_ [_ [B2 _]]] [_ M1]].
      destruct (award_loop_frame _ _ _ _ _ _ _ E2) as [_ [_ M2]].
      rewrite map_app, in_app_iff, (award_badges_newly _ _ _ _ _ _ E1 b), (IH _ _ E2 b).
      assert (Hk1 : badge_known db1 b = badge_known db b) by reflexivity.
      assert (Hk2 : badge_known d2 b = badge_known db b)
        by (unfold badge_known, badge_find_by_id; rewrite B2; reflexivity).
      assert (Hh1 : has_badge db1 u b = has_badge db u b) by reflexivity.
      rewrite Hk1, Hk2, Hh1.
      apply newly_compose; [intro X; apply M1; exact X | apply M2].
    + exact (IH _ _ H b).
Qed.

(** X28: a badge id is in the list [evaluate_and_award] returns exactly
    when its [user_badges] row was inserted by this call and the [badges]
    table still has that badge ([badge_repo.find_by_id] is not [None]); a
    badge the user held before the call is never reported. *)
Theorem evaluate_and_award_reports_new_badges (db : DB) (now u : Z) :
  let '(out, db') := evaluate_and_award db now (Some u) in
  forall b, In b (map bi_badge_id out)
            <-> has_badge db u b = false /\ has_badge db' u b = true
                /\ badge_find_by_id db b <> None.
Proof.
  simpl. destruct (award_loop db now u (get_user_stats db u) (find_all_active db))
    as [out db'] eqn:E.
  intro b. rewrite (award_loop_newly _ _ _ _ _ _ _ E b), badge_known_iff. reflexivity.
Qed.

(** C2: [BadgeRepository.delete] removes badge 7 from [ex_db] but, with
    SQLite foreign keys never switched on, leaves its link to achievement 1
    (the schema's [ON DELETE CASCADE] does not fire).  User 5 then earns
    achievement 1: the [user_badges] row (5, 7) is newly inserted, yet the
    call reports no badge.  On [ex_db] itself the same call reports badge 7. *)
Theorem deleted_badge_award_not_reported :
  badge_delete ex_db 7 = (true, ex_db_dangling)
  /\ achievement_badges ex_db_dangling = [(1, 7)]
  /\ badge_find_by_id ex_db_dangling 7 = None
  /\ (let '(out, db') := evaluate_and_award ex_db_dangling 10 (Some 5) in
      out = [] /\ has_badge ex_db_dangling 5 7 = false /\ has_badge db' 5 7 = true)
  /\ map bi_badge_id (fst (evaluate_and_award ex_db 10 (Some 5))) = [7].
Proof. vm_compute. repeat split; reflexivity. Qed.

(* ------------------------------------------------------------------ *)
(** ** Editing a story *)

Lemma find_update_where_id_replace (sid : Z) (f : StoryPost -> StoryPost) (l : list StoryPost) :
  (forall x, (id x =? sid) = true -> (id (f x) =? sid) = true) ->
  find (fun s => id s =? sid) (fst (update_where_id sid f l))
  = option_map f (find (fun s => id s =? sid) l).
Proof.
  intro Hf. unfold update_where_id; simpl.
  induction l as [|x l IH]; simpl; [reflexivity|].
  destruct (id x =? sid) eqn:E; simpl.
  - rewrite (Hf x E). reflexivity.
  - rewrite E. exact IH.
Qed.

Lemma repo_update_found (db : DB) (now : Z) (st x : StoryPost) :
  find_by_id db (id st) = Some x -> id st <> 0 ->
  exists db', repo_update db now st = (true, db', set_updated_at now st)
              /\ find_by_id db' (id st) = Some (set_updated_at now st).
Proof.
  intros Hf Hid. unfold repo_update.
  destruct (Z.eqb_spec (id st) 0) as [E|_]; [contradiction|].
  assert (Hsid : id (set_updated_at now st) = id st) by (destruct st; reflexivity).
  rewrite Hsid. unfold exec_update.
  pose proof (find_update_where_id_replace (id st) (fun _ => set_updated_at now st)
                (stories db)) as K.
  assert (Hn : Nat.ltb 0 (List.length (filter (fun s => id s =? id st) (stories db))) = true).
  { apply filter_length_find. unfold find_by_id in Hf. rewrite Hf. discriminate. }
  unfold update_where_id in *. simpl in K. rewrite Hn.
  eexists. split; [reflexivity|].
  unfold find_by_id. simpl. rewrite K.
  - unfold find_by_id in Hf. rewrite Hf. reflexivity.
  - intros y _. rewrite Hsid. apply Z.eqb_refl.
Qed.

Lemma apply_update_fields_fields (now : Z) (s : StoryPost)
    (cap desc cat priv : option string) (tgs grp : option (list string)) :
  let e := apply_update_fields now s cap desc cat priv tgs grp in
  caption e = (if is_editable now s
               then match cap with Some c => py_strip c | None => caption s end
               else caption s)
  /\ description e = (if is_editable now s
                      then match desc with Some d => py_strip d | None => description s end
                      else description s)
  /\ category e = match cat with Some c => c | None => category s end
  /\ privacy e = match priv with Some p => p | None => privacy s end
  /\ tags e = match tgs with Some ts => normalize_tags ts | None => tags s end
  /\ allowed_groups e = match grp with Some g => g | None => allowed_groups s end
  /\ id e = id s.
Proof.
  unfold apply_update_fields.
  destruct (is_editable now s), cap, desc, cat, priv, tgs, grp; destruct s;
    repeat split; reflexivity.
Qed.

(** The fields [update_story] leaves to the entity survive a media update
    and the [updated_at] refresh. *)
Lemma store_fields (now : Z) (p : list string) (e : StoryPost) :
  let e' := set_updated_at now (set_media_paths p e) in
  caption e' = caption e /\ description e' = description e /\ category e' = category e
  /\ privacy e' = privacy e /\ tags e' = tags e /\ allowed_groups e' = allowed_groups e
  /\ id e' = id e.
Proof. destruct e; repeat split; reflexivity. Qed.

Lemma store_fields_no_media (now : Z) (e : StoryPost) :
  let e' := set_updated_at now e in
  caption e' = caption e /\ description e' = description e /\ category e' = category e
  /\ privacy e' = privacy e /\ tags e' = tags e /\ allowed_groups e' = allowed_groups e
  /\ id e' = id e.
Proof. destruct e; repeat split; reflexivity. Qed.

Lemma apply_update_fields_media (now : Z) (s : StoryPost)
    (cap desc cat priv : option string) (tgs grp : option (list string)) :
  media_paths (apply_update_fields now s cap desc cat priv tgs grp) = media_paths s.
Proof.
  unfold apply_update_fields.
  destruct (is_editable now s), cap, desc, cat, priv, tgs, grp; destruct s; reflexivity.
Qed.

Lemma apply_update_fields_locked (now : Z) (s : StoryPost)
    (cap desc cat priv : option string) (tgs grp : option (list string)) :
  is_editable now s = false ->
  apply_update_fields now s cap desc cat priv tgs grp
  = apply_update_fields now s None None cat priv tgs grp.
Proof. intro H. unfold apply_update_fields. rewrite H. reflexivity. Qed.

Lemma store_media_paths (now : Z) (p : list string) (e : StoryPost) :
  media_paths (set_updated_at now (set_media_paths p e)) = p
  /\ media_paths (set_updated_at now e) = media_paths e.
Proof. destruct e; split; reflexivity. Qed.

(** C3.  For an existing, non-deleted story:
    - once the story is 24 hours old ([is_editable] false), the supplied
      caption and description have no effect on the call at all: its
      result, errors included, and the database it leaves are those of the
      same call without them;
    - when the call succeeds, the stored story keeps its caption and
      description if it is locked, and takes the supplied ones (stripped)
      if it is younger; category, privacy, tags (blank ones dropped,
      leading ['#'] stripped) and allowed groups are the supplied ones; the
      media, if any, saved without error and their paths are appended;
    - the call succeeds whenever the edited story passes [validate()] and
      the supplied media, if any, save without error; otherwise it returns
      the errors and stores nothing. *)
Theorem update_story_edit_lock (FS : Type) (save : list FS -> list string * list string)
    (db : DB) (now sid : Z) (s : StoryPost) (cap desc cat priv : option string)
    (tgs grp : option (list string)) (media : list FS) :
  find_by_id db sid = Some s -> is_deleted s = false ->
  let e := apply_update_fields now s cap desc cat priv tgs grp in
  (is_editable now s = false ->
     update_story FS save db now sid cap desc cat priv tgs grp media
     = update_story FS save db now sid None None cat priv tgs grp media)
  /\ match update_story FS save db now sid cap desc cat priv tgs grp media with
     | (Some s', [], db') =>
         validate e = [] /\ find_by_id db' sid = Some s'
         /\ caption s' = (if is_editable now s
                          then match cap with Some c => py_strip c | None => caption s end
                          else caption s)
         /\ description s' = (if is_editable now s
                              then match desc with Some d => py_strip d | None => description s end
                              else description s)
         /\ category s' = match cat with Some c => c | None => category s end
         /\ privacy s' = match priv with Some p => p | None => privacy s end
         /\ tags s' = match tgs with Some ts => normalize_tags ts | None => tags s end
         /\ allowed_groups s' = match grp with Some g => g | None => allowed_groups s end
         /\ (media = [] \/ snd (save media) = [])
         /\ media_paths s' = (media_paths s ++ match media with
                                               | [] => []
                                               | _ :: _ => fst (save media)
                                               end)%list
     | (None, errs, db') => errs <> [] /\ db' = db
     | (Some _, _ :: _, _) => False
     end
  /\ (validate e = [] -> sid <> 0 -> (media = [] \/ snd (save media) = []) ->
      exists s' db', update_story FS save db now sid cap desc cat priv tgs grp media
                     = (Some s', [], db')).
Proof.
  intros Hf Hd e.
  assert (Hid : id s = sid)
    by (unfold find_by_id in Hf; apply find_some in Hf as [_ E]; apply Z.eqb_eq, E).
  pose proof (apply_update_fields_fields now s cap desc cat priv tgs grp) as F.
  cbv zeta in F. fold e in F. destruct F as [F1 [F2 [F3 [F4 [F5 [F6 F7]]]]]].
  assert (FM : media_paths e = media_paths s) by apply apply_update_fields_media.
  split.
  { intro HL. unfold update_story. rewrite Hf, Hd. cbv beta iota zeta.
    rewrite (apply_update_fields_locked now s cap desc cat priv tgs grp HL). reflexivity. }
  unfold update_story. rewrite Hf, Hd. cbv beta iota zeta. fold e.
  rewrite <- F1, <- F2, <- F3, <- F4, <- F5, <- F6, <- FM.
  destruct (validate e) as [|err errs] eqn:Hv.
  - destruct media as [|m ms].
    + cbv beta iota. destruct (Z.eq_dec sid 0) as [Z0|NZ].
      * unfold repo_update. rewrite F7, Hid, Z0. simpl.
        split; [split; [discriminate | reflexivity] | intros _ C; contradiction].
      * destruct (repo_update_found db now e s) as [db' [Hr Hfd]];
          [rewrite F7, Hid; exact Hf | rewrite F7, Hid; exact NZ|].
        rewrite Hr. cbv beta iota.
        destruct (store_fields_no_media now e) as [G1 [G2 [G3 [G4 [G5 [G6 G7]]]]]].
        destruct (store_media_paths now [] e) as [_ G8].
        rewrite F7, Hid in Hfd.
        split; [|intros _ _ _; eexists; eexists; reflexivity].
        rewrite app_nil_r. repeat split; auto.
    + destruct (save (m :: ms)) as [paths ferrs] eqn:Hs. cbn [fst snd].
      destruct ferrs as [|fe fes].
      * cbv beta iota. set (e' := set_media_paths (media_paths e ++ paths)%list e).
        assert (Hid' : id e' = id e) by (subst e'; destruct e; reflexivity).
        destruct (Z.eq_dec sid 0) as [Z0|NZ].
        -- unfold repo_update. rewrite Hid', F7, Hid, Z0. simpl.
           split; [split; [discriminate | reflexivity] | intros _ C; contradiction].
        -- destruct (repo_update_found db now e' s) as [db' [Hr Hfd]];
             [rewrite Hid', F7, Hid; exact Hf | rewrite Hid', F7, Hid; exact NZ|].
           rewrite Hr. cbv beta iota.
           destruct (store_fields now (media_paths e ++ paths)%list e)
             as [G1 [G2 [G3 [G4 [G5 [G6 G7]]]]]].
           destruct (store_media_paths now (media_paths e ++ paths)%list e) as [G8 _].
           fold e' in G1, G2, G3, G4, G5, G6, G7, G8.
           rewrite Hid', F7, Hid in Hfd.
           split; [|intros _ _ _; eexists; eexists; reflexivity].
           repeat split; auto.
      * cbv beta iota. split; [split; [simpl; discriminate | reflexivity]|].
        intros _ _ [C|C]; discriminate.
  - cbv beta iota. split; [split; [discriminate | reflexivity]|].
    intro C. discriminate.
Qed.

Lemma update_story_edit_lock_witness :
  is_editable ex_now_25h ex_story = false
  /\ update_story unit (fun _ => (["uploads/a.png"], [])) ex_db ex_now_25h 1
       (Some "new caption") (Some "A new description for the lake story")
       (Some "Travel Adventures") None None None [tt]
     = update_story unit (fun _ => (["uploads/a.png"], [])) ex_db ex_now_25h 1
         None None (Some "Travel Adventures") None None None [tt]
  /\ exists s' db', update_story unit (fun _ => (["uploads/a.png"], [])) ex_db ex_now_25h 1
                     (Some "new caption") (Some "A new description for the lake story")
                     (Some "Travel Adventures") None None None [tt]
                   = (Some s', [], db').
Proof.
  pose proof (update_story_edit_lock unit (fun _ => (["uploads/a.png"], [])) ex_db ex_now_25h 1
                ex_story (Some "new caption") (Some "A new description for the lake story")
                (Some "Travel Adventures") None None None [tt]) as T.
  specialize (T eq_refl eq_refl). cbv zeta in T.
  destruct T as [L [_ C]].
  split; [vm_compute; reflexivity|].
  split; [apply L; vm_compute; reflexivity|].
  apply C; [vm_compute; reflexivity | discriminate | right; reflexivity].
Defined.

(* ================================================================== *)
(** * Further properties of the code *)

(* ------------------------------------------------------------------ *)
(** ** Sorting *)

Section SortBy.

Context {A : Type} (le : A -> A -> bool).

Lemma Perm_insert_by (x : A) (l : list A) : Permutation (insert_by le x l) (x :: l).
Proof.
  induction l as [|y l IH]; simpl; [reflexivity|].
  destruct (le x y); [reflexivity|].
  rewrite IH. apply perm_swap.
Qed.

Lemma Perm_sort_by (l : list A) : Permutation (sort_by le l) l.
Proof.
  induction l as [|x l IH]; simpl; [reflexivity|].
  rewrite Perm_insert_by, IH. reflexivity.
Qed.

Hypothesis le_total : forall a b, le a b = false -> le b a = true.

Lemma Sorted_insert_by (x : A) (l : list A) :
  Sorted (fun a b => le a b = true) l -> Sorted (fun a b => le a b = true) (insert_by le x l).
Proof.
  induction l as [|y l IH]; simpl; intro H.
  - repeat constructor.
  - destruct (le x y) eqn:E.
    + constructor; [exact H | constructor; exact E].
    + apply Sorted_inv in H as [H1 H2]. constructor; [apply IH; exact H1|].
      destruct l as [|z l']; simpl.
      * constructor. apply le_total; exact E.
      * destruct (le x z); constructor; [apply le_total; exact E | inversion H2; assumption].
Qed.

Lemma Sorted_sort_by (l : list A) : Sorted (fun a b => le a b = true) (sort_by le l).
Proof.
  induction l as [|x l IH]; simpl; [constructor|]. apply Sorted_insert_by, IH.
Qed.

Hypothesis le_trans : forall a b c, le a b = true -> le b c = true -> le a c = true.

Lemma StronglySorted_filter (p : A -> bool) (l : list A) :
  StronglySorted (fun a b => le a b = true) l ->
  StronglySorted (fun a b => le a b = true) (filter p l).
Proof.
  induction l as [|x l IH]; simpl; intro H; [constructor|].
  apply StronglySorted_inv in H as [H1 H2].
  destruct (p x); [|apply IH, H1].
  constructor; [apply IH, H1|].
  apply Forall_forall. intros y Hy. apply filter_In in Hy as [Hy _].
  rewrite Forall_forall in H2. apply H2, Hy.
Qed.

Lemma Sorted_filter_sort_by (p : A -> bool) (l : list A) :
  Sorted (fun a b => le a b = true) (filter p (sort_by le l)).
Proof.
  apply StronglySorted_Sorted, StronglySorted_filter, Sorted_StronglySorted;
    [intros a b c; apply le_trans | apply Sorted_sort_by].
Qed.

End SortBy.

(* ------------------------------------------------------------------ *)
(** ** Soft delete, restore, purge *)

Lemma filter_filter {A} (f g : A -> bool) (l : list A) :
  filter f (filter g l) = filter (fun x => g x && f x) l.
Proof.
  induction l as [|x l IH]; simpl; [reflexivity|].
  destruct (g x); simpl; [destruct (f x); simpl; rewrite IH; reflexivity | exact IH].
Qed.

Lemma with_stories_twice (l l' : list StoryPost) (db : DB) :
  with_stories l (with_stories l' db) = with_stories l db.
Proof. reflexivity. Qed.

Lemma set_deleted_id (b : bool) (v : option Z) (s : StoryPost) : id (set_deleted b v s) = id s.
Proof. destruct s; reflexivity. Qed.

Lemma soft_delete_found (db : DB) (now sid : Z) (s : StoryPost) :
  find_by_id db sid = Some s ->
  fst (soft_delete db now sid) = true
  /\ find_by_id (snd (soft_delete db now sid)) sid = Some (set_deleted true (Some now) s)
  /\ comments (snd (soft_delete db now sid)) = comments db
  /\ user_badges (snd (soft_delete db now sid)) = user_badges db
  /\ user_achievements (snd (soft_delete db now sid)) = user_achievements db.
Proof.
  intro Hf. unfold soft_delete.
  pose proof (exec_update_find db sid (set_deleted true (Some now))
                (set_deleted_id true (Some now))) as F.
  pose proof (exec_update_tables db sid (set_deleted true (Some now))) as [T1 T2].
  assert (Hn : (0 <? snd (exec_update db sid (set_deleted true (Some now))))%nat = true).
  { unfold exec_update. destruct (update_where_id _ _ _) eqn:E. simpl.
    unfold update_where_id in E. injection E as _ E. subst n.
    apply filter_length_find. unfold find_by_id in Hf. rewrite Hf. discriminate. }
  assert (Hc : comments (fst (exec_update db sid (set_deleted true (Some now)))) = comments db).
  { unfold exec_update. destruct (update_where_id _ _ _). reflexivity. }
  destruct (exec_update db sid (set_deleted true (Some now))) as [d n].
  simpl in *. rewrite Hf in F. simpl in F. auto.
Qed.

Lemma restore_found (db : DB) (sid : Z) (s : StoryPost) :
  find_by_id db sid = Some s ->
  fst (restore db sid) = true
  /\ find_by_id (snd (restore db sid)) sid = Some (set_deleted false None s).
Proof.
  intro Hf. unfold restore.
  pose proof (exec_update_find db sid (set_deleted false None) (set_deleted_id false None)) as F.
  assert (Hn : (0 <? snd (exec_update db sid (set_deleted false None)))%nat = true).
  { unfold exec_update. destruct (update_where_id _ _ _) eqn:E. simpl.
    unfold update_where_id in E. injection E as _ E. subst n.
    apply filter_length_find. unfold find_by_id in Hf. rewrite Hf. discriminate. }
  destruct (exec_update db sid (set_deleted false None)) as [d n].
  simpl in *. rewrite Hf in F. simpl in F. auto.
Qed.

(** [timedelta.days < 7] is [now - deleted_at < 7 days]. *)
Lemma days_lt_7 (x : Z) : x / 86400000000 < SOFT_DELETE_DAYS <-> x < 7 * 86400000000.
Proof.
  unfold SOFT_DELETE_DAYS. split; intro H.
  - destruct (Z_lt_ge_dec x (7 * 86400000000)) as [L|L]; [exact L|].
    assert (7 <= x / 86400000000) by (apply Z.div_le_lower_bound; lia). lia.
  - apply Z.div_lt_upper_bound; lia.
Qed.

Lemma delete_story_found (db : DB) (now sid : Z) (s : StoryPost) :
  find_by_id db sid = Some s ->
  let '(ok, title, db') := delete_story db now sid in
  ok = true /\ title = Some (caption s)
  /\ find_by_id db' sid = Some (set_deleted true (Some now) s)
  /\ comments db' = comments db /\ user_badges db' = user_badges db
  /\ user_achievements db' = user_achievements db.
Proof.
  intros Hf. unfold delete_story. rewrite Hf.
  destruct (soft_delete_found db now sid s Hf) as [A [B [C [D E]]]].
  destruct (soft_delete db now sid) as [ok d]. simpl in *. subst ok.
  repeat split; assumption.
Qed.

(** X1: [StoryService.delete_story]: an unknown id gives [(False, None)] and
    writes nothing; an existing story, deleted or not, gets
    [is_deleted = 1] and [deleted_at = now] (a second delete moves the
    recovery window), the call returns [(True, caption)], and the comment
    and award tables are left alone. *)
Theorem delete_story_marks_deleted (db : DB) (now sid : Z) :
  (find_by_id db sid = None -> delete_story db now sid = (false, None, db))
  /\ (forall s, find_by_id db sid = Some s ->
        let '(ok, title, db') := delete_story db now sid in
        ok = true /\ title = Some (caption s)
        /\ find_by_id db' sid = Some (set_deleted true (Some now) s)
        /\ comments db' = comments db /\ user_badges db' = user_badges db
        /\ user_achievements db' = user_achievements db).
Proof.
  split.
  - intro H. unfold delete_story. rewrite H. reflexivity.
  - intros s Hf. apply delete_story_found, Hf.
Qed.

Lemma delete_story_marks_deleted_witness :
  delete_story ex_db 10 3 = (false, None, ex_db)
  /\ (let '(ok, title, db') := delete_story ex_db 10 1 in
      ok = true /\ title = Some (caption ex_story)
      /\ find_by_id db' 1 = Some (set_deleted true (Some 10) ex_story)
      /\ comments db' = comments ex_db /\ user_badges db' = user_badges ex_db
      /\ user_achievements db' = user_achievements ex_db).
Proof.
  split.
  - apply (proj1 (delete_story_marks_deleted ex_db 10 3)). reflexivity.
  - apply (proj2 (delete_story_marks_deleted ex_db 10 1)). reflexivity.
Defined.

(** X2: Deleting a live story at [t] and restoring it at [t']: the restore
    succeeds exactly when [t' - t] is under seven days, and then the row is
    the original story again; otherwise it fails with the expiry message
    and writes nothing. *)
Theorem delete_then_restore_round_trip (db : DB) (t t' sid : Z) (s : StoryPost) :
  find_by_id db sid = Some s -> is_deleted s = false -> deleted_at s = None ->
  let db1 := snd (delete_story db t sid) in
  let '(ok, msg, db2) := restore_story db1 t' sid in
  (ok = true <-> t' - t < 7 * 86400000000)
  /\ (ok = true -> msg = "Story restored successfully" /\ find_by_id db2 sid = Some s)
  /\ (ok = false ->
      msg = "Story cannot be restored (expired after 7 days)" /\ db2 = db1).
Proof.
  intros Hf Hd Hn db1.
  pose proof (delete_story_found db t sid s Hf) as D.
  unfold db1. destruct (delete_story db t sid) as [[ok title] d1]. simpl.
  destruct D as [_ [_ [F1 _]]].
  assert (E1 : is_deleted (set_deleted true (Some t) s) = true) by (destruct s; reflexivity).
  assert (E2 : can_be_restored t' (set_deleted true (Some t) s)
               = ((t' - t) / 86400000000 <? SOFT_DELETE_DAYS)) by (destruct s; reflexivity).
  assert (E3 : set_deleted false None (set_deleted true (Some t) s) = s)
    by (destruct s; simpl in *; subst; reflexivity).
  unfold restore_story. rewrite F1, E1, E2. cbn [negb].
  destruct (Z.ltb_spec ((t' - t) / 86400000000) SOFT_DELETE_DAYS) as [L|L]; cbn [negb].
  - destruct (restore_found d1 sid _ F1) as [R1 R2].
    destruct (restore d1 sid) as [ok2 d2]. simpl in R1, R2. subst ok2. rewrite E3 in R2.
    split; [split; [intros _; apply days_lt_7, L | reflexivity]|].
    split; [intros _; split; [reflexivity | exact R2] | discriminate].
  - split; [split; [discriminate | intro C; apply days_lt_7 in C; lia]|].
    split; [discriminate | intros _; split; reflexivity].
Qed.

Lemma delete_then_restore_round_trip_witness :
  let db1 := snd (delete_story ex_db 0 1) in
  let '(ok, msg, db2) := restore_story db1 (3 * ex_day) 1 in
  (ok = true <-> 3 * ex_day - 0 < 7 * 86400000000)
  /\ (ok = true -> msg = "Story restored successfully" /\ find_by_id db2 1 = Some ex_story)
  /\ (ok = false ->
      msg = "Story cannot be restored (expired after 7 days)" /\ db2 = db1).
Proof. apply (delete_then_restore_round_trip ex_db 0 (3 * ex_day) 1 ex_story); reflexivity. Defined.

Lemma stories_with_stories (l : list StoryPost) (db : DB) : stories (with_stories l db) = l.
Proof. reflexivity. Qed.

Lemma purge_rows_spec (now : Z) (R : list StoryPost) (db : DB) (c : Z) :
  purge_rows now R db c
  = (with_stories (filter (fun s => negb (existsb (fun r => negb (can_be_restored now r)
                                                            && (id r =? id s)) R))
                          (stories db)) db,
     c + Z.of_nat (List.length (filter (fun r => negb (can_be_restored now r)) R))).
Proof.
  revert db c. induction R as [|r R IH]; intros db c; simpl.
  - rewrite filter_true, with_stories_same, Z.add_0_r. reflexivity.
  - destruct (can_be_restored now r) eqn:E; simpl.
    + rewrite IH. reflexivity.
    + rewrite IH, with_stories_twice, stories_with_stories, filter_filter. f_equal.
      * f_equal. apply filter_ext. intro s.
        rewrite (Z.eqb_sym (id s) (id r)). destruct (id r =? id s); reflexivity.
      * rewrite Zpos_P_of_succ_nat. lia.
Qed.

Lemma existsb_expired (now : Z) (L : list StoryPost) (s : StoryPost) :
  NoDup (map id L) -> In s L ->
  existsb (fun r => negb (can_be_restored now r) && (id r =? id s)) (filter is_deleted L)
  = is_deleted s && negb (can_be_restored now s).
Proof.
  intros Hnd Hs.
  destruct (existsb _ _) eqn:X.
  - apply existsb_exists in X as [r [Hr Hx]].
    apply filter_In in Hr as [Hr Hdel].
    apply andb_true_iff in Hx as [Hx Hid]. apply Z.eqb_eq in Hid.
    rewrite <- (NoDup_map_inj id L r s Hnd Hr Hs Hid), Hdel, Hx. reflexivity.
  - destruct (is_deleted s && negb (can_be_restored now s)) eqn:Y; [|reflexivity].
    rewrite <- X. apply existsb_exists. exists s.
    apply andb_true_iff in Y as [Y1 Y2].
    split; [apply filter_In; auto | rewrite Y2, Z.eqb_refl; reflexivity].
Qed.

Lemma purge_expired_result (db : DB) (now : Z) :
  NoDup (map id (stories db)) ->
  let '(n, db') := purge_expired db now in
  db' = with_stories (filter (fun s => negb (is_deleted s && negb (can_be_restored now s)))
                             (stories db)) db
  /\ n = Z.of_nat (List.length
                     (filter (fun s => is_deleted s && negb (can_be_restored now s))
                             (stories db))).
Proof.
  intro Hnd. unfold purge_expired. rewrite purge_rows_spec. split.
  - f_equal. apply filter_ext_in. intros s Hs. f_equal. apply existsb_expired; assumption.
  - rewrite filter_filter. reflexivity.
Qed.

(** X3: [StoryRepository.purge_expired] (= [StoryService.purge_expired_stories]),
    on a table whose ids are unique (the primary key): it removes exactly the
    deleted stories whose recovery window has closed, returns how many,
    and changes no other row or table (comments of a purged story stay,
    since SQLite foreign keys are not switched on). *)
Theorem purge_expired_removes_expired (db : DB) (now : Z) :
  NoDup (map id (stories db)) ->
  let '(n, db') := purge_expired db now in
  db' = with_stories (filter (fun s => negb (is_deleted s && negb (can_be_restored now s)))
                             (stories db)) db
  /\ n = Z.of_nat (List.length
                     (filter (fun s => is_deleted s && negb (can_be_restored now s))
                             (stories db))).
Proof. apply purge_expired_result. Qed.

Lemma NoDup_ids_trash : NoDup (map id (stories ex_db_trash)).
Proof. simpl. constructor; [simpl; intros [H|[]]; discriminate | constructor; [simpl; tauto | constructor]]. Qed.

Lemma purge_expired_removes_expired_witness :
  NoDup (map id (stories ex_db_trash))
  /\ (let '(n, db') := purge_expired ex_db_trash (8 * ex_day) in
      db' = with_stories (filter (fun s => negb (is_deleted s
                                                && negb (can_be_restored (8 * ex_day) s)))
                                 (stories ex_db_trash)) ex_db_trash
      /\ n = Z.of_nat (List.length
                         (filter (fun s => is_deleted s
                                           && negb (can_be_restored (8 * ex_day) s))
                                 (stories ex_db_trash)))).
Proof.
  split; [exact NoDup_ids_trash|].
  apply (purge_expired_removes_expired ex_db_trash (8 * ex_day) NoDup_ids_trash).
Defined.

Lemma deleted_at_desc_total (a b : StoryPost) :
  deleted_at_desc a b = false -> deleted_at_desc b a = true.
Proof.
  unfold deleted_at_desc.
  destruct (deleted_at a) as [x|], (deleted_at b) as [y|]; try discriminate; auto.
  intro H. apply Z.leb_gt in H. apply Z.leb_le. lia.
Qed.

Lemma deleted_at_desc_trans (a b c : StoryPost) :
  deleted_at_desc a b = true -> deleted_at_desc b c = true -> deleted_at_desc a c = true.
Proof.
  unfold deleted_at_desc.
  destruct (deleted_at a) as [x|], (deleted_at b) as [y|], (deleted_at c) as [z|];
    try discriminate; auto.
  rewrite !Z.leb_le. lia.
Qed.

Lemma can_be_restored_deleted (now : Z) (s : StoryPost) :
  can_be_restored now s = true -> is_deleted s = true.
Proof. unfold can_be_restored. destruct (is_deleted s); [reflexivity | discriminate]. Qed.

Lemma In_find_deleted (db : DB) (now : Z) (s : StoryPost) :
  In s (find_deleted db now) <-> In s (stories db) /\ can_be_restored now s = true.
Proof.
  unfold find_deleted. rewrite filter_In.
  split; intros [H1 H2]; split; try exact H2.
  - apply (Permutation_in _ (Perm_sort_by deleted_at_desc _)) in H1.
    apply filter_In in H1. tauto.
  - apply (Permutation_in _ (Permutation_sym (Perm_sort_by deleted_at_desc _))).
    apply filter_In. split; [exact H1 | apply (can_be_restored_deleted now), H2].
Qed.

(** X4: [StoryRepository.find_deleted] (= [StoryService.list_deleted_stories])
    lists exactly the stored stories that [can_be_restored()] (deleted,
    with a [deleted_at], under seven days ago), most recently deleted
    first. *)
Theorem find_deleted_lists_restorable (db : DB) (now : Z) :
  (forall s, In s (find_deleted db now) <-> In s (stories db) /\ can_be_restored now s = true)
  /\ Sorted (fun a b => deleted_at_desc a b = true) (find_deleted db now).
Proof.
  split; [intro s; apply In_find_deleted|].
  apply Sorted_filter_sort_by; [apply deleted_at_desc_total | apply deleted_at_desc_trans].
Qed.

(** X5: After [purge_expired], the deleted stories left in the table are
    exactly the ones [find_deleted] listed before the purge: nothing
    restorable is purged and nothing expired is left. *)
Theorem purge_leaves_only_restorable (db : DB) (now : Z) :
  NoDup (map id (stories db)) ->
  forall s, (In s (stories (snd (purge_expired db now))) /\ is_deleted s = true)
            <-> In s (find_deleted db now).
Proof.
  intros Hnd s. pose proof (purge_expired_result db now Hnd) as P.
  destruct (purge_expired db now) as [n db']. destruct P as [-> _]. cbn [snd].
  rewrite stories_with_stories, filter_In, In_find_deleted.
  split.
  - intros [[H1 H2] H3]. rewrite H3 in H2. simpl in H2.
    split; [exact H1 | destruct (can_be_restored now s); [reflexivity | discriminate]].
  - intros [H1 H2]. rewrite (can_be_restored_deleted now s H2), H2. auto.
Qed.

Lemma purge_leaves_only_restorable_witness :
  NoDup (map id (stories ex_db_trash))
  /\ ((In ex_old_deleted (stories (snd (purge_expired ex_db_trash (8 * ex_day))))
       /\ is_deleted ex_old_deleted = true)
      <-> In ex_old_deleted (find_deleted ex_db_trash (8 * ex_day))).
Proof.
  split; [exact NoDup_ids_trash|].
  apply (purge_leaves_only_restorable ex_db_trash (8 * ex_day) NoDup_ids_trash).
Defined.

(* ------------------------------------------------------------------ *)
(** ** Comments *)

Lemma str_app_assoc (a b c : string) : ((a ++ b) ++ c)%string = (a ++ (b ++ c))%string.
Proof. induction a as [|x a IH]; simpl; [reflexivity | rewrite IH; reflexivity]. Qed.

Lemma str_app_nil (a : string) : (a ++ "")%string = a.
Proof. induction a as [|x a IH]; simpl; [reflexivity | rewrite IH; reflexivity]. Qed.

Lemma rev_string_app (a b : string) :
  rev_string (a ++ b) = (rev_string b ++ rev_string a)%string.
Proof.
  induction a as [|x a IH]; simpl; [rewrite str_app_nil; reflexivity|].
  rewrite IH, str_app_assoc. reflexivity.
Qed.

Lemma rev_string_involutive (s : string) : rev_string (rev_string s) = s.
Proof.
  induction s as [|x s IH]; simpl; [reflexivity|].
  rewrite rev_string_app, IH. reflexivity.
Qed.

Lemma lstrip_idem (p : ascii -> bool) (s : string) :
  lstrip_by p (lstrip_by p s) = lstrip_by p s.
Proof.
  induction s as [|x s IH]; simpl; [reflexivity|].
  destruct (p x) eqn:E; [exact IH | simpl; rewrite E; reflexivity].
Qed.

Lemma lstrip_head (p : ascii -> bool) (s : string) :
  lstrip_by p s = EmptyString \/ exists c t, lstrip_by p s = String c t /\ p c = false.
Proof.
  induction s as [|x s IH]; simpl; [left; reflexivity|].
  destruct (p x) eqn:E; [exact IH | right; exists x, s; auto].
Qed.

Lemma lstrip_snoc (p : ascii -> bool) (t : string) (c : ascii) :
  p c = false -> exists t', lstrip_by p (t ++ String c EmptyString) = (t' ++ String c EmptyString)%string.
Proof.
  intro H. induction t as [|x t IH]; simpl.
  - rewrite H. exists EmptyString. reflexivity.
  - destruct (p x); [exact IH | exists (String x t); reflexivity].
Qed.

(** [s.strip().strip() == s.strip()] *)
Lemma py_strip_idem (s : string) : py_strip (py_strip s) = py_strip s.
Proof.
  unfold py_strip.
  destruct (lstrip_head py_isspace s) as [HA | [c [t [HA Hc]]]]; rewrite HA; [reflexivity|].
  cbn [rev_string]. destruct (lstrip_snoc py_isspace (rev_string t) c Hc) as [t' Ht'].
  rewrite Ht'.
  assert (HB : lstrip_by py_isspace (rev_string (t' ++ String c EmptyString))
               = rev_string (t' ++ String c EmptyString)).
  { rewrite rev_string_app. simpl. rewrite Hc. reflexivity. }
  rewrite HB, rev_string_involutive, <- Ht', lstrip_idem. reflexivity.
Qed.

Lemma py_strip_empty : py_strip EmptyString = EmptyString.
Proof. reflexivity. Qed.

Lemma strip_truthy_src (s : string) :
  py_truthy (py_strip s) = true -> py_truthy s = true.
Proof. destruct s; [simpl; discriminate | reflexivity]. Qed.

Lemma comment_validate_nil (c : Comment) :
  comment_validate c = []
  <-> (py_truthy (py_strip (c_author_name c)) = true
       /\ (String.length (c_author_name c) <= 50)%nat
       /\ py_truthy (py_strip (c_content c)) = true
       /\ (String.length (c_content c) <= 1000)%nat).
Proof.
  unfold comment_validate, _validate_content, _validate_author_name.
  pose proof (strip_truthy_src (c_author_name c)) as SA.
  pose proof (strip_truthy_src (c_content c)) as SC.
  destruct (py_truthy (py_strip (c_author_name c))) eqn:A2;
  destruct (py_truthy (py_strip (c_content c))) eqn:B2;
  [rewrite (SA eq_refl), (SC eq_refl) | rewrite (SA eq_refl) | rewrite (SC eq_refl) | ];
  simpl; rewrite ?orb_true_r;
  destruct (50 <? Z.of_nat (String.length (c_author_name c))) eqn:A3;
  destruct (1000 <? Z.of_nat (String.length (c_content c))) eqn:B3;
  simpl; rewrite ?Z.ltb_lt, ?Z.ltb_ge in *;
  split; intro H; try discriminate; try (decompose [and] H; try discriminate; lia);
  try (repeat split; lia); destruct (_ ++ _)%list; discriminate.
Qed.

Lemma tables_record_activity (st : Store) (today : string) (u : option Z) :
  tables (record_activity st today u) = tables st.
Proof.
  destruct u as [a|]; [|reflexivity]. unfold record_activity, record_activity_date.
  destruct (existsb _ _); reflexivity.
Qed.

Lemma In_record_activity_date (st : Store) (u : Z) (d : string) :
  In (u, d) (user_activity_dates (record_activity_date st u d)).
Proof.
  unfold record_activity_date. destruct (existsb _ _) eqn:E.
  - apply existsb_exists in E as [[u' d'] [Hin Hr]]. simpl in Hr.
    apply andb_true_iff in Hr as [H1 H2]. apply Z.eqb_eq in H1. apply String.eqb_eq in H2.
    subst. exact Hin.
  - simpl. apply in_or_app. right. left. reflexivity.
Qed.

Lemma same_content_refl (db : DB) : same_content db db.
Proof. repeat split. Qed.

Lemma evaluate_and_award_content (db : DB) (now : Z) (u : option Z) (out : list BadgeInfo) (db' : DB) :
  evaluate_and_award db now u = (out, db') -> same_content db db'.
Proof.
  destruct u as [a|]; simpl; intro H.
  - apply (award_loop_frame _ _ _ _ _ _ _ H).
  - inversion H; subst. apply same_content_refl.
Qed.

(** The valid branch of [add_comment]. *)
Lemma add_comment_valid (st : Store) (now : Z) (today : string) (nid sid : Z)
    (name content : string) (aid : option Z) :
  comment_validate (mkComment nid sid (py_strip name) aid (py_strip content) now) = [] ->
  let c := mkComment nid sid (py_strip name) aid (py_strip content) now in
  let db1 := snd (comment_create (tables st) c) in
  let '(res, errs, newly, st') := add_comment st now today nid sid name content aid in
  res = Some c /\ errs = [] /\ same_content db1 (tables st')
  /\ user_activity_dates st'
     = user_activity_dates (record_activity (mkStore db1 (user_activity_dates st)) today aid)
  /\ (aid = None -> newly = [] /\ tables st' = db1).
Proof.
  intro Hv. cbv zeta. unfold add_comment. rewrite Hv.
  destruct (comment_create (tables st) _) as [cid db1]. cbn [snd].
  destruct aid as [a|].
  - destruct (evaluate_and_award _ now (Some a)) as [newly db2] eqn:E.
    apply evaluate_and_award_content in E.
    rewrite tables_record_activity in E. simpl in E |- *.
    split; [reflexivity | split; [reflexivity | split; [exact E | split; [reflexivity | discriminate]]]].
  - simpl. repeat split; apply same_content_refl.
Qed.

(** X6: [CommentService.add_comment] validates the stripped name and content:
    it accepts exactly a non-blank name of at most 50 characters and a
    non-blank comment of at most 1000 characters, counted after
    [strip()]; a rejected comment returns [(None, errors, [])] and
    writes nothing. *)
Theorem add_comment_validation (st : Store) (now : Z) (today : string) (nid sid : Z)
    (name content : string) (aid : option Z) :
  let '(res, errs, newly, st') := add_comment st now today nid sid name content aid in
  (errs = [] <-> (py_truthy (py_strip name) = true
                  /\ (String.length (py_strip name) <= 50)%nat
                  /\ py_truthy (py_strip content) = true
                  /\ (String.length (py_strip content) <= 1000)%nat))
  /\ (errs <> [] -> res = None /\ newly = [] /\ st' = st).
Proof.
  pose proof (comment_validate_nil (mkComment nid sid (py_strip name) aid (py_strip content) now))
    as V. cbn [c_author_name c_content] in V. rewrite !py_strip_idem in V.
  destruct (comment_validate (mkComment nid sid (py_strip name) aid (py_strip content) now))
    as [|e es] eqn:E.
  - pose proof (add_comment_valid st now today nid sid name content aid E) as K. cbv zeta in K.
    destruct (add_comment st now today nid sid name content aid) as [[[res errs] newly] st'].
    destruct K as [_ [-> _]]. split; [exact V | intro H; contradiction].
  - unfold add_comment. cbv zeta. rewrite E. split; [exact V | auto].
Qed.

Lemma add_comment_validation_witness :
  let '(res, errs, newly, st') :=
    add_comment (mkStore ex_db []) 0 "2025-01-01" 2 1 "   " "Nice" (Some 6) in
  (errs = [] <-> (py_truthy (py_strip "   ") = true
                  /\ (String.length (py_strip "   ") <= 50)%nat
                  /\ py_truthy (py_strip "Nice") = true
                  /\ (String.length (py_strip "Nice") <= 1000)%nat))
  /\ (errs <> [] -> res = None /\ newly = [] /\ st' = mkStore ex_db []).
Proof. exact (add_comment_validation (mkStore ex_db []) 0 "2025-01-01" 2 1 "   " "Nice" (Some 6)). Defined.

Lemma find_update_where_id_other (sid k : Z) (f : StoryPost -> StoryPost) (l : list StoryPost) :
  (forall s, id (f s) = id s) -> k <> sid ->
  find (fun s => id s =? k) (fst (update_where_id sid f l)) = find (fun s => id s =? k) l.
Proof.
  intros Hf Hk. unfold update_where_id; simpl.
  induction l as [|s l IH]; simpl; [reflexivity|].
  destruct (id s =? sid) eqn:E; simpl; [|destruct (id s =? k); [reflexivity | exact IH]].
  apply Z.eqb_eq in E. rewrite Hf.
  assert ((id s =? k) = false) as -> by (apply Z.eqb_neq; lia). exact IH.
Qed.

Lemma exec_update_find_other (db : DB) (sid k : Z) f :
  (forall s, id (f s) = id s) -> k <> sid ->
  find_by_id (fst (exec_update db sid f)) k = find_by_id db k.
Proof.
  intros Hf Hk. unfold exec_update, find_by_id.
  pose proof (find_update_where_id_other sid k f (stories db) Hf Hk) as H.
  destruct (update_where_id sid f (stories db)). exact H.
Qed.

Lemma snd_restore (db : DB) (sid : Z) :
  snd (restore db sid) = fst (exec_update db sid (set_deleted false None)).
Proof. unfold restore. destruct (exec_update db sid (set_deleted false None)). reflexivity. Qed.

(** C4, as the code has it: the store's [restore] reports success exactly
    when a record with the id exists, deleted or not, and sets
    [is_deleted = 0, deleted_at = NULL] on it, leaving its other columns
    and every other record as they were.  The "must currently be deleted"
    check lives in [StoryService.restore_story], which refuses a live
    story with ["Story is not deleted"] and writes nothing. *)
Theorem restore_guard_in_service (db : DB) (now sid : Z) :
  (fst (restore db sid) = true <-> find_by_id db sid <> None)
  /\ find_by_id (snd (restore db sid)) sid
     = option_map (set_deleted false None) (find_by_id db sid)
  /\ (forall s', find_by_id (snd (restore db sid)) sid = Some s' ->
        is_deleted s' = false /\ deleted_at s' = None)
  /\ (forall k, k <> sid -> find_by_id (snd (restore db sid)) k = find_by_id db k)
  /\ (forall s, find_by_id db sid = Some s -> is_deleted s = false ->
        restore_story db now sid = (false, "Story is not deleted", db)).
Proof.
  assert (F : find_by_id (snd (restore db sid)) sid
              = option_map (set_deleted false None) (find_by_id db sid))
    by (rewrite snd_restore; apply exec_update_find, set_deleted_id).
  split; [|split; [exact F | split; [|split]]].
  - unfold restore, exec_update, update_where_id. simpl.
    apply filter_length_find.
  - intros s' H. rewrite F in H.
    destruct (find_by_id db sid) as [s|]; [|discriminate].
    injection H as <-. destruct s; split; reflexivity.
  - intros k Hk. rewrite snd_restore. apply exec_update_find_other; [apply set_deleted_id | exact Hk].
  - intros s Hf Hd. unfold restore_story. rewrite Hf, Hd. reflexivity.
Qed.

Lemma restore_guard_in_service_witness :
  (fst (restore ex_db 1) = true <-> find_by_id ex_db 1 <> None)
  /\ find_by_id (snd (restore ex_db 1)) 1 = Some (set_deleted false None ex_story)
  /\ restore_story ex_db 0 1 = (false, "Story is not deleted", ex_db).
Proof.
  destruct (restore_guard_in_service ex_db 0 1) as [A [B [_ [_ E]]]].
  split; [exact A|]. split; [exact B|].
  apply (E ex_story); reflexivity.
Defined.

(** C4 as stated fails: [ex_story] (id 1) is not deleted, yet the store's
    [restore] on it reports success. *)
Lemma restore_succeeds_on_live_story :
  find_by_id ex_db 1 = Some ex_story /\ is_deleted ex_story = false
  /\ restore ex_db 1 = (true, ex_db).
Proof. repeat split; reflexivity. Qed.

Lemma find_by_id_content (db db' : DB) (k : Z) :
  same_content db db' -> find_by_id db' k = find_by_id db k.
Proof. intros [S _]. unfold find_by_id. rewrite S. reflexivity. Qed.

Lemma comments_comment_create (db : DB) (c : Comment) :
  comments (snd (comment_create db c)) = (comments db ++ [c])%list.
Proof. rewrite snd_comment_create. unfold exec_update. destruct (update_where_id _ _ _). reflexivity. Qed.

(** X7: A comment [CommentService.add_comment] accepts is stored with its
    stripped name and content and returned; its story's
    [comments_count] goes up by one and no other story changes; with an
    author id, today's activity date is recorded for the author, and
    without one no badge is evaluated and no award row is written. *)
Theorem add_comment_stores (st : Store) (now : Z) (today : string) (nid sid : Z)
    (name content : string) (aid : option Z) :
  py_truthy (py_strip name) = true -> (String.length (py_strip name) <= 50)%nat ->
  py_truthy (py_strip content) = true -> (String.length (py_strip content) <= 1000)%nat ->
  let c := mkComment nid sid (py_strip name) aid (py_strip content) now in
  let '(res, errs, newly, st') := add_comment st now today nid sid name content aid in
  res = Some c /\ errs = []
  /\ comments (tables st') = (comments (tables st) ++ [c])%list
  /\ find_by_id (tables st') sid
     = option_map (fun s => set_comments_count (comments_count s + 1) s) (find_by_id (tables st) sid)
  /\ (forall k, k <> sid -> find_by_id (tables st') k = find_by_id (tables st) k)
  /\ match aid with
     | Some a => In (a, today) (user_activity_dates st')
     | None => newly = [] /\ user_activity_dates st' = user_activity_dates st
               /\ user_badges (tables st') = user_badges (tables st)
               /\ user_achievements (tables st') = user_achievements (tables st)
     end.
Proof.
  intros H1 H2 H3 H4.
  assert (Hv : comment_validate (mkComment nid sid (py_strip name) aid (py_strip content) now) = []).
  { apply comment_validate_nil. cbn [c_author_name c_content]. rewrite !py_strip_idem. auto. }
  pose proof (add_comment_valid st now today nid sid name content aid Hv) as K. cbv zeta in *.
  destruct (add_comment st now today nid sid name content aid) as [[[res errs] newly] st'].
  destruct K as [Hr [He [Hs [Hd Hn]]]].
  set (c := mkComment nid sid (py_strip name) aid (py_strip content) now) in *.
  split; [exact Hr|]. split; [exact He|].
  destruct Hs as [S1 [S2 _]].
  split; [rewrite S2; apply comments_comment_create|].
  assert (Hfind : forall k, find_by_id (tables st') k = find_by_id (snd (comment_create (tables st) c)) k)
    by (intro k; unfold find_by_id; rewrite S1; reflexivity).
  rewrite snd_comment_create in Hfind.
  split.
  - rewrite Hfind, exec_update_find by setter_id. reflexivity.
  - split.
    + intros k Hk. rewrite Hfind, exec_update_find_other by (setter_id || exact Hk). reflexivity.
    + destruct aid as [a|].
      * rewrite Hd. apply In_record_activity_date.
      * destruct (Hn eq_refl) as [Hnw Ht]. split; [exact Hnw|]. split; [exact Hd|].
        rewrite Ht, snd_comment_create. unfold exec_update.
        destruct (update_where_id _ _ _). split; reflexivity.
Qed.

Lemma add_comment_stores_witness :
  let c := mkComment 2 1 (py_strip " Bea ") (Some 6) (py_strip "Nice trip ") 5 in
  let '(res, errs, newly, st') :=
    add_comment (mkStore ex_db_commented []) 5 "2025-01-01" 2 1 " Bea " "Nice trip " (Some 6) in
  res = Some c /\ errs = []
  /\ comments (tables st') = (comments ex_db_commented ++ [c])%list
  /\ find_by_id (tables st') 1
     = option_map (fun s => set_comments_count (comments_count s + 1) s) (find_by_id ex_db_commented 1)
  /\ (forall k, k <> 1 -> find_by_id (tables st') k = find_by_id ex_db_commented k)
  /\ In (6, "2025-01-01") (user_activity_dates st').
Proof.
  apply (add_comment_stores (mkStore ex_db_commented []) 5 "2025-01-01" 2 1 " Bea " "Nice trip " (Some 6));
    vm_compute; first [reflexivity | lia].
Defined.

Lemma filter_all {A} (f : A -> bool) (l : list A) :
  (forall x, In x l -> f x = true) -> filter f l = l.
Proof.
  induction l as [|x l IH]; simpl; intro H; [reflexivity|].
  rewrite (H x (or_introl eq_refl)), IH; [reflexivity|]. intros y Hy. apply H. right. exact Hy.
Qed.

Lemma count_snoc (l : list Comment) (c : Comment) (k : Z) :
  List.length (filter (fun c' => c_story_id c' =? k) (l ++ [c])%list)
  = Nat.add (List.length (filter (fun c' => c_story_id c' =? k) l))
            (if c_story_id c =? k then 1%nat else 0%nat).
Proof. rewrite filter_app, length_app. simpl. destruct (c_story_id c =? k); reflexivity. Qed.

Lemma count_remove (L : list Comment) (c : Comment) (cid k : Z) :
  NoDup (map c_id L) -> In c L -> c_id c = cid ->
  List.length (filter (fun c' => c_story_id c' =? k) L)
  = Nat.add (List.length (filter (fun c' => c_story_id c' =? k)
                             (filter (fun c' => negb (c_id c' =? cid)) L)))
            (if c_story_id c =? k then 1%nat else 0%nat).
Proof.
  intros Hnd Hin Hc. induction L as [|x L IH]; [destruct Hin|].
  simpl in Hnd. apply NoDup_cons_iff in Hnd as [Hx Hnd].
  cbn [filter]. destruct (c_id x =? cid) eqn:E; cbn [negb].
  - apply Z.eqb_eq in E.
    assert (x = c) as <-.
    { destruct Hin as [->|Hin]; [reflexivity|].
      exfalso. apply Hx. rewrite E, <- Hc. apply in_map, Hin. }
    rewrite (filter_all (fun c' => negb (c_id c' =? cid)) L).
    + destruct (c_story_id x =? k); simpl; lia.
    + intros y Hy. apply negb_true_iff, Z.eqb_neq. intro Hyc. apply Hx.
      rewrite E, <- Hyc. apply in_map, Hy.
  - destruct Hin as [->|Hin]; [apply Z.eqb_neq in E; contradiction|].
    specialize (IH Hnd Hin). cbn [filter].
    destruct (c_story_id x =? k); simpl; lia.
Qed.

Lemma sync_content (db db' : DB) :
  same_content db db' -> comments_in_sync db -> comments_in_sync db'.
Proof.
  intros [S1 [S2 _]]. unfold comments_in_sync, get_comments_count. rewrite S1, S2. auto.
Qed.

Lemma sync_comment_create (db : DB) (c : Comment) :
  comments_in_sync db -> comments_in_sync (snd (comment_create db c)).
Proof.
  intro H. rewrite snd_comment_create. unfold comments_in_sync, exec_update, update_where_id in *.
  cbn. apply Forall_map. eapply Forall_impl; [|exact H]. intros s Hs.
  unfold get_comments_count in *. cbn [comments with_stories with_comments].
  destruct (id s =? c_story_id c) eqn:E.
  - destruct s; cbn in *. rewrite count_snoc, Hs, Z.eqb_sym, E. lia.
  - rewrite count_snoc, Hs, Z.eqb_sym, E. lia.
Qed.

Lemma sync_comment_delete (db : DB) (cid : Z) :
  NoDup (map c_id (comments db)) -> comments_in_sync db -> comments_in_sync (snd (comment_delete db cid)).
Proof.
  intros Hnd H. destruct (find (fun c => c_id c =? cid) (comments db)) as [c|] eqn:Hc.
  - rewrite (snd_comment_delete db cid c Hc).
    apply find_some in Hc as [Hin Hcid]. apply Z.eqb_eq in Hcid.
    unfold comments_in_sync, exec_update, update_where_id in *.
    cbn. apply Forall_map. eapply Forall_impl; [|exact H]. intros s Hs.
    unfold get_comments_count in *. cbn [comments with_stories with_comments].
    rewrite (count_remove (comments db) c cid (id s) Hnd Hin Hcid) in Hs.
    destruct (id s =? c_story_id c) eqn:E.
    + destruct s; cbn in *. rewrite Hs, Z.eqb_sym, E. lia.
    + rewrite Hs, Z.eqb_sym, E. lia.
  - unfold comment_delete. rewrite Hc. exact H.
Qed.

(** X8: Every stored story's [comments_count] equals the [COUNT] of its
    comments ([get_comments_count]) after [CommentService.add_comment]
    and after [CommentService.delete_comment] when it did before
    (comment ids being unique, as the primary key makes them). *)
Theorem comments_count_in_sync :
  (forall st now today nid sid name content aid,
     comments_in_sync (tables st) ->
     comments_in_sync (tables (snd (add_comment st now today nid sid name content aid))))
  /\ (forall db cid, NoDup (map c_id (comments db)) -> comments_in_sync db ->
        comments_in_sync (snd (comment_delete db cid))).
Proof.
  split; [|exact sync_comment_delete].
  intros st now today nid sid name content aid H.
  destruct (comment_validate (mkComment nid sid (py_strip name) aid (py_strip content) now))
    as [|e es] eqn:E.
  - pose proof (add_comment_valid st now today nid sid name content aid E) as K. cbv zeta in K.
    destruct (add_comment st now today nid sid name content aid) as [[[res errs] newly] st'].
    destruct K as [_ [_ [Hs _]]]. cbn [snd].
    apply (sync_content _ _ Hs), sync_comment_create, H.
  - unfold add_comment. cbv zeta. rewrite E. exact H.
Qed.

Lemma ex_db_commented_sync : comments_in_sync ex_db_commented.
Proof. unfold comments_in_sync. vm_compute. repeat constructor. Qed.

Lemma comments_count_in_sync_witness :
  comments_in_sync (tables (snd (add_comment (mkStore ex_db_commented []) 5 "2025-01-01" 2 1
                                  "Bea" "Nice trip" (Some 6))))
  /\ comments_in_sync (snd (comment_delete ex_db_commented 1)).
Proof.
  destruct comments_count_in_sync as [A B]. split.
  - apply A, ex_db_commented_sync.
  - apply B; [vm_compute; repeat constructor; intros [] | exact ex_db_commented_sync].
Defined.

Lemma comment_created_desc_total (a b : Comment) :
  comment_created_desc a b = false -> comment_created_desc b a = true.
Proof. unfold comment_created_desc. rewrite Z.leb_gt, Z.leb_le. lia. Qed.

(** X9: [CommentService.get_comments] lists exactly the comments of the given
    story, newest first, and as many of them as [get_comments_count]
    counts. *)
Theorem get_comments_lists_story (db : DB) (story_id : Z) :
  (forall c, In c (find_by_story_id db story_id) <-> In c (comments db) /\ c_story_id c = story_id)
  /\ Sorted (fun a b => comment_created_desc a b = true) (find_by_story_id db story_id)
  /\ Z.of_nat (List.length (find_by_story_id db story_id)) = get_comments_count db story_id.
Proof.
  unfold find_by_story_id, get_comments_count.
  pose proof (Perm_sort_by comment_created_desc
                (filter (fun c => c_story_id c =? story_id) (comments db))) as P.
  split; [|split].
  - intro c. split; intro H.
    + apply (Permutation_in _ P), filter_In in H as [H1 H2]. apply Z.eqb_eq in H2. auto.
    + apply (Permutation_in _ (Permutation_sym P)), filter_In.
      destruct H as [H1 H2]. rewrite H2, Z.eqb_refl. auto.
  - apply Sorted_sort_by, comment_created_desc_total.
  - rewrite (Permutation_length P). reflexivity.
Qed.

(* ------------------------------------------------------------------ *)
(** ** Listing and likes *)

Lemma Sorted_insert_desc {A} (key : A -> Z) (x : A) (l : list A) :
  Sorted (fun a b => key b <= key a) l -> Sorted (fun a b => key b <= key a) (insert_desc key x l).
Proof.
  induction l as [|y l IH]; simpl; intro H.
  - repeat constructor.
  - destruct (key y <? key x) eqn:E.
    + apply Z.ltb_lt in E. constructor; [exact H | constructor; lia].
    + apply Z.ltb_ge in E. apply Sorted_inv in H as [H1 H2]. constructor; [apply IH; exact H1|].
      destruct l as [|z l']; simpl.
      * constructor. lia.
      * destruct (key z <? key x); constructor; [lia | inversion H2; assumption].
Qed.

Lemma Sorted_sort_desc {A} (key : A -> Z) (l : list A) :
  Sorted (fun a b => key b <= key a) (sort_desc key l).
Proof. induction l as [|x l IH]; simpl; [constructor | apply Sorted_insert_desc, IH]. Qed.

(** X10: [StoryRepository.find_all] orders by [likes_count] for ["likes"], by
    [comments_count] for ["comments"] and by [created_at] for any other
    value, descending; an empty search or category string filters
    nothing; with [include_deleted] and no filter it lists every story
    whose [scheduled_at] is unset or not after now, deleted or not. *)
Theorem find_all_order_and_filters (db : DB) (now_iso : string) (q c : option string)
    (sb : string) (incl : bool) :
  let key := if String.eqb sb "likes" then likes_count
             else if String.eqb sb "comments" then comments_count else created_at in
  Sorted (fun a b => key b <= key a) (find_all db now_iso q c sb incl)
  /\ find_all db now_iso (Some "") (Some "") sb incl = find_all db now_iso None None sb incl
  /\ (forall s, In s (find_all db now_iso None None sb true)
                <-> In s (stories db)
                    /\ match scheduled_at s with None => true | Some t => text_le t now_iso end = true).
Proof.
  cbv zeta. split; [|split].
  - unfold find_all. destruct (String.eqb sb "likes"); [apply Sorted_sort_desc|].
    destruct (String.eqb sb "comments"); apply Sorted_sort_desc.
  - reflexivity.
  - intro s. unfold find_all.
    assert (K : forall l, In s (if String.eqb sb "likes" then sort_desc likes_count l
                                else if String.eqb sb "comments" then sort_desc comments_count l
                                else sort_desc created_at l) <-> In s l).
    { intro l. destruct (String.eqb sb "likes"); [apply In_sort_desc|].
      destruct (String.eqb sb "comments"); apply In_sort_desc. }
    rewrite K, filter_In. simpl. rewrite !andb_true_r. reflexivity.
Qed.

Lemma exec_update_stories (db : DB) (sid : Z) f :
  fst (exec_update db sid f)
  = with_stories (map (fun s => if id s =? sid then f s else s) (stories db)) db.
Proof. reflexivity. Qed.

(** X11: A like followed by an unlike gives the table back and returns the
    likes the story had (or [0] for a missing story), when the counters
    are non-negative; an unlike at [0] likes followed by a like leaves
    the story at [1] like. *)
Theorem like_then_unlike_restores (db : DB) (sid : Z) :
  db_counters_ok db ->
  decrement_likes (snd (increment_likes db sid)) sid
  = (match find_by_id db sid with Some s => likes_count s | None => 0 end, db)
  /\ (forall s, find_by_id db sid = Some s -> likes_count s = 0 ->
        fst (increment_likes (snd (decrement_likes db sid)) sid) = 1).
Proof.
  intro H. split.
  - assert (E : fst (exec_update (fst (exec_update db sid
                   (fun s => set_likes_count (likes_count s + 1) s))) sid
                   (fun s => set_likes_count (Z.max 0 (likes_count s - 1)) s)) = db).
    { rewrite !exec_update_stories, with_stories_twice, stories_with_stories, map_map.
      rewrite map_ext_in with (g := fun s => s); [rewrite map_id; apply with_stories_same|].
      intros s Hs. unfold db_counters_ok in H. rewrite Forall_forall in H.
      destruct (H s Hs) as [Hl _].
      destruct (id s =? sid) eqn:E; [|rewrite E; reflexivity].
      destruct s; cbn in *. rewrite E. f_equal. lia. }
    unfold decrement_likes, increment_likes, update_returning.
    destruct (exec_update db sid _) as [d1 n1] eqn:E1. cbn [snd].
    destruct (exec_update d1 sid _) as [d2 n2] eqn:E2.
    cbn [fst] in E. rewrite E2 in E. cbn [fst] in E. subst d2. reflexivity.
  - intros s Hs H0. unfold increment_likes, update_returning.
    pose proof (exec_update_find (snd (decrement_likes db sid)) sid
                  (fun s => set_likes_count (likes_count s + 1) s) ltac:(setter_id)) as K.
    destruct (exec_update _ sid _) as [d n]. cbn [fst] in *. rewrite K.
    unfold decrement_likes. rewrite snd_update_returning, exec_update_find by setter_id.
    rewrite Hs. destruct s; cbn in *. subst. reflexivity.
Qed.

Lemma like_then_unlike_restores_witness :
  decrement_likes (snd (increment_likes ex_db 1)) 1
  = (match find_by_id ex_db 1 with Some s => likes_count s | None => 0 end, ex_db)
  /\ (forall s, find_by_id ex_db 1 = Some s -> likes_count s = 0 ->
        fst (increment_likes (snd (decrement_likes ex_db 1)) 1) = 1).
Proof.
  apply like_then_unlike_restores. unfold db_counters_ok, counters_ok. vm_compute.
  repeat constructor; discriminate.
Defined.

(* ------------------------------------------------------------------ *)
(** ** The award ledger only grows *)

Lemma NoDup_snoc {A} (l : list A) (x : A) : NoDup l -> ~ In x l -> NoDup (l ++ [x])%list.
Proof.
  intros H Hx. apply Permutation_NoDup with (x :: l); [apply Permutation_cons_append|].
  constructor; assumption.
Qed.

Lemma has_badge_false_notin (db : DB) (u b : Z) :
  has_badge db u b = false ->
  ~ In (u, b) (map (fun r => (ub_user_id r, ub_badge_id r)) (user_badges db)).
Proof.
  intros H Hin. apply in_map_iff in Hin as [r [Er Hr]]. injection Er as E1 E2.
  assert (existsb (fun r => (ub_user_id r =? u) && (ub_badge_id r =? b)) (user_badges db) = true)
    by (apply existsb_exists; exists r; rewrite E1, E2, !Z.eqb_refl; auto).
  unfold has_badge in H. congruence.
Qed.

Lemma has_achievement_false_notin (db : DB) (u x : Z) :
  has_achievement db u x = false ->
  ~ In (u, x) (map (fun r => (ua_user_id r, ua_achievement_id r)) (user_achievements db)).
Proof.
  intros H Hin. apply in_map_iff in Hin as [r [Er Hr]]. injection Er as E1 E2.
  assert (existsb (fun r => (ua_user_id r =? u) && (ua_achievement_id r =? x))
                  (user_achievements db) = true)
    by (apply existsb_exists; exists r; rewrite E1, E2, !Z.eqb_refl; auto).
  unfold has_achievement in H. congruence.
Qed.

Lemma ledger_refl (u now : Z) (db : DB) : ledger_grows u now db db.
Proof.
  repeat split; auto; [exists [] | exists []]; rewrite app_nil_r; auto.
Qed.

Lemma ledger_trans (u now : Z) (d1 d2 d3 : DB) :
  ledger_grows u now d1 d2 -> ledger_grows u now d2 d3 -> ledger_grows u now d1 d3.
Proof.
  intros [[b1 [Eb1 Fb1]] [[a1 [Ea1 Fa1]] [Nb1 Na1]]] [[b2 [Eb2 Fb2]] [[a2 [Ea2 Fa2]] [Nb2 Na2]]].
  split; [|split; [|split]].
  - exists (b1 ++ b2)%list. rewrite Eb2, Eb1, app_assoc. split; [reflexivity|].
    apply Forall_app; auto.
  - exists (a1 ++ a2)%list. rewrite Ea2, Ea1, app_assoc. split; [reflexivity|].
    apply Forall_app; auto.
  - auto.
  - auto.
Qed.

Lemma ledger_award_badge (u now b : Z) (db : DB) :
  ledger_grows u now db (snd (award_badge db now u b)).
Proof.
  unfold award_badge. destruct (has_badge db u b) eqn:H; [apply ledger_refl|].
  cbn [snd]. split; [|split; [|split]]; cbn [user_badges user_achievements with_user_badges].
  - exists [mkUserBadge u b now]. split; [reflexivity | repeat constructor].
  - exists []. rewrite app_nil_r. auto.
  - intro Hnd. rewrite map_app. apply NoDup_snoc; [exact Hnd | apply has_badge_false_notin, H].
  - auto.
Qed.

Lemma ledger_award_achievement (u now x : Z) (db : DB) :
  has_achievement db u x = false ->
  ledger_grows u now db (with_user_achievements
                           (user_achievements db ++ [mkUserAchievement u x now])%list db).
Proof.
  intro H. split; [|split; [|split]]; cbn [user_badges user_achievements with_user_achievements].
  - exists []. rewrite app_nil_r. auto.
  - exists [mkUserAchievement u x now]. split; [reflexivity | repeat constructor].
  - auto.
  - intro Hnd. rewrite map_app. apply NoDup_snoc; [exact Hnd | apply has_achievement_false_notin, H].
Qed.

Lemma ledger_award_badges (db : DB) (now u : Z) (bids : list Z) :
  ledger_grows u now db (snd (award_badges db now u bids)).
Proof.
  revert db. induction bids as [|b bids IH]; intro db; simpl; [apply ledger_refl|].
  pose proof (ledger_award_badge u now b db) as L1.
  destruct (award_badge db now u b) as [ins db1]. cbn [snd] in L1.
  specialize (IH db1). destruct (award_badges db1 now u bids) as [o db2]. cbn [snd] in *.
  exact (ledger_trans _ _ _ _ _ L1 IH).
Qed.

Lemma ledger_award_loop (db : DB) (now u : Z) (st : Stats) (L : list Achievement) :
  ledger_grows u now db (snd (award_loop db now u st L)).
Proof.
  revert db. induction L as [|ach L IH]; intro db; simpl; [apply ledger_refl|].
  destruct (has_achievement db u (a_id ach)) eqn:Hh; [apply IH|].
  destruct (_rule_satisfied ach st); simpl; [|apply IH].
  rewrite (award_achievement_new db now u (a_id ach) Hh). simpl.
  pose proof (ledger_award_achievement u now (a_id ach) db Hh) as L1.
  set (db1 := with_user_achievements _ db) in *.
  pose proof (ledger_award_badges db1 now u (badge_ids ach)) as L2.
  destruct (award_badges db1 now u (badge_ids ach)) as [o1 d2]. cbn [snd] in L2.
  specialize (IH d2). destruct (award_loop d2 now u st L) as [o2 d3]. cbn [snd] in *.
  exact (ledger_trans _ _ _ _ _ L1 (ledger_trans _ _ _ _ _ L2 IH)).
Qed.

(** X12: [evaluate_and_award] never removes or rewrites an award row: it
    only appends rows of the evaluated user, stamped with the call's
    time, and it never duplicates a [(user_id, badge_id)] or
    [(user_id, achievement_id)] pair. *)
Theorem evaluate_and_award_only_appends (db : DB) (now u : Z) :
  let '(_, db') := evaluate_and_award db now (Some u) in
  (exists nb, user_badges db' = (user_badges db ++ nb)%list
              /\ Forall (fun r => ub_user_id r = u /\ ub_earned_at r = now) nb)
  /\ (exists na, user_achievements db' = (user_achievements db ++ na)%list
                 /\ Forall (fun r => ua_user_id r = u /\ ua_earned_at r = now) na)
  /\ (NoDup (map (fun r => (ub_user_id r, ub_badge_id r)) (user_badges db)) ->
      NoDup (map (fun r => (ub_user_id r, ub_badge_id r)) (user_badges db')))
  /\ (NoDup (map (fun r => (ua_user_id r, ua_achievement_id r)) (user_achievements db)) ->
      NoDup (map (fun r => (ua_user_id r, ua_achievement_id r)) (user_achievements db'))).
Proof.
  simpl. pose proof (ledger_award_loop db now u (get_user_stats db u) (find_all_active db)) as L.
  destruct (award_loop db now u _ _) as [out db']. exact L.
Qed.

Lemma evaluate_and_award_only_appends_witness :
  let '(_, db') := evaluate_and_award ex_db 3 (Some 5) in
  (exists nb, user_badges db' = (user_badges ex_db ++ nb)%list
              /\ Forall (fun r => ub_user_id r = 5 /\ ub_earned_at r = 3) nb)
  /\ (exists na, user_achievements db' = (user_achievements ex_db ++ na)%list
                 /\ Forall (fun r => ua_user_id r = 5 /\ ua_earned_at r = 3) na)
  /\ (NoDup (map (fun r => (ub_user_id r, ub_badge_id r)) (user_badges ex_db)) ->
      NoDup (map (fun r => (ub_user_id r, ub_badge_id r)) (user_badges db')))
  /\ (NoDup (map (fun r => (ua_user_id r, ua_achievement_id r)) (user_achievements ex_db)) ->
      NoDup (map (fun r => (ua_user_id r, ua_achievement_id r)) (user_achievements db'))).
Proof. exact (evaluate_and_award_only_appends ex_db 3 5). Defined.

(* ------------------------------------------------------------------ *)
(** ** Listing a user's badges and achievements *)

Lemma text_le_refl (a : string) : text_le a a = true.
Proof. induction a as [|x a IH]; simpl; [reflexivity|]. rewrite Nat.ltb_irrefl. exact IH. Qed.

Lemma text_le_total (a b : string) : text_le a b = false -> text_le b a = true.
Proof.
  revert b. induction a as [|x a IH]; intros [|y b]; simpl; try discriminate; try reflexivity.
  destruct (Nat.ltb_spec (nat_of_ascii x) (nat_of_ascii y)); [discriminate|].
  destruct (Nat.ltb_spec (nat_of_ascii y) (nat_of_ascii x)); [reflexivity|].
  apply IH.
Qed.

Lemma nat_of_ascii_inj (x y : ascii) : nat_of_ascii x = nat_of_ascii y -> x = y.
Proof.
  intro H. rewrite <- (ascii_nat_embedding x), <- (ascii_nat_embedding y), H. reflexivity.
Qed.

Lemma text_le_antisym (a b : string) : text_le a b = true -> text_le b a = true -> a = b.
Proof.
  revert b. induction a as [|x a IH]; intros [|y b]; simpl; try discriminate; try reflexivity.
  destruct (Nat.ltb_spec (nat_of_ascii x) (nat_of_ascii y));
  destruct (Nat.ltb_spec (nat_of_ascii y) (nat_of_ascii x)); try lia; try discriminate.
  intros H1 H2. rewrite (IH b H1 H2), (nat_of_ascii_inj x y) by lia. reflexivity.
Qed.

Lemma Sorted_weaken {A} (R R' : A -> A -> Prop) (l : list A) :
  (forall x y, R x y -> R' x y) -> Sorted R l -> Sorted R' l.
Proof.
  intros HR H. induction H as [|x l Hs IH Hd]; constructor; [exact IH|].
  destruct Hd; constructor. apply HR. assumption.
Qed.

Lemma earned_desc_total (x y : UserBadge * Badge) : earned_desc x y = false -> earned_desc y x = true.
Proof. unfold earned_desc. rewrite Z.leb_gt, Z.leb_le. lia. Qed.

Lemma rarity_le_total (db : DB) (x y : UserBadge * Badge) :
  rarity_le db x y = false -> rarity_le db y x = true.
Proof.
  unfold rarity_le. intro H. apply orb_false_iff in H as [H1 H2].
  apply Nat.ltb_ge in H1.
  destruct (Nat.eqb_spec (badge_award_count db (ub_badge_id (fst x)))
                         (badge_award_count db (ub_badge_id (fst y)))) as [E|E].
  - simpl in H2. rewrite E, Nat.eqb_refl, earned_desc_total by exact H2. apply orb_true_r.
  - apply orb_true_iff. left. apply Nat.ltb_lt. lia.
Qed.

Lemma title_le_total (x y : UserBadge * Badge) : title_le x y = false -> title_le y x = true.
Proof.
  unfold title_le, text_lt. intro H. apply orb_false_iff in H as [H1 H2].
  apply negb_false_iff in H1.
  destruct (String.eqb_spec (b_title (snd x)) (b_title (snd y))) as [E|E].
  - simpl in H2. rewrite E, String.eqb_refl, earned_desc_total by exact H2. apply orb_true_r.
  - apply orb_true_iff. left. apply negb_true_iff.
    destruct (text_le (b_title (snd x)) (b_title (snd y))) eqn:T; [|reflexivity].
    exfalso. apply E. symmetry. apply text_le_antisym; assumption.
Qed.

Lemma In_user_badge_rows (db : DB) (u : Z) (r : UserBadge) (b : Badge) :
  In (r, b) (user_badge_rows db u)
  <-> In r (user_badges db) /\ ub_user_id r = u /\ In b (badges db) /\ b_id b = ub_badge_id r.
Proof.
  unfold user_badge_rows. rewrite in_flat_map. split.
  - intros [r' [Hr' Hin]]. apply filter_In in Hr' as [Hr' Hu].
    apply in_map_iff in Hin as [b' [E Hb']]. injection E as <- <-.
    apply filter_In in Hb' as [Hb' Hid]. apply Z.eqb_eq in Hu, Hid. auto.
  - intros [Hr [Hu [Hb Hid]]]. exists r. split.
    + apply filter_In. rewrite Hu, Z.eqb_refl. auto.
    + apply in_map_iff. exists b. split; [reflexivity|]. apply filter_In.
      rewrite Hid, Z.eqb_refl. auto.
Qed.

Lemma In_user_achievement_rows (db : DB) (u : Z) (r : UserAchievement) (a : Achievement) :
  In (r, a) (user_achievement_rows db u)
  <-> In r (user_achievements db) /\ ua_user_id r = u /\ In a (achievements db)
      /\ a_id a = ua_achievement_id r.
Proof.
  unfold user_achievement_rows. rewrite in_flat_map. split.
  - intros [r' [Hr' Hin]]. apply filter_In in Hr' as [Hr' Hu].
    apply in_map_iff in Hin as [a' [E Ha']]. injection E as <- <-.
    apply filter_In in Ha' as [Ha' Hid]. apply Z.eqb_eq in Hu, Hid. auto.
  - intros [Hr [Hu [Ha Hid]]]. exists r. split.
    + apply filter_In. rewrite Hu, Z.eqb_refl. auto.
    + apply in_map_iff. exists a. split; [reflexivity|]. apply filter_In.
      rewrite Hid, Z.eqb_refl. auto.
Qed.

Lemma In_get_user_badges (db : DB) (u : Z) (order : string) (r : UserBadge) (b : Badge) :
  In (r, b) (get_user_badges db u order) <-> In (r, b) (user_badge_rows db u).
Proof.
  unfold get_user_badges.
  destruct (String.eqb order "rarity"); [|destruct (String.eqb order "alphabetical")];
    (split; apply Permutation_in; [|apply Permutation_sym]; apply Perm_sort_by).
Qed.

(** X13: [get_user_badges] lists exactly the user's [user_badges] rows whose
    badge is still in the [badges] table, each with that badge, whatever
    the order asked for; ["rarity"] puts the badges held by the fewest
    users first, ["alphabetical"] sorts by title, any other value newest
    first. [get_user_achievements] lists the user's rows whose achievement
    still exists, newest first. *)
Theorem get_user_awards_listing (db : DB) (u : Z) :
  (forall order r b, In (r, b) (get_user_badges db u order)
     <-> In r (user_badges db) /\ ub_user_id r = u /\ In b (badges db) /\ b_id b = ub_badge_id r)
  /\ Sorted (fun x y => (badge_award_count db (ub_badge_id (fst x))
                         <= badge_award_count db (ub_badge_id (fst y)))%nat)
            (get_user_badges db u "rarity")
  /\ Sorted (fun x y => text_le (b_title (snd x)) (b_title (snd y)) = true)
            (get_user_badges db u "alphabetical")
  /\ (forall order, String.eqb order "rarity" = false -> String.eqb order "alphabetical" = false ->
        Sorted (fun x y => ub_earned_at (fst y) <= ub_earned_at (fst x)) (get_user_badges db u order))
  /\ (forall order r a, In (r, a) (get_user_achievements db u order)
        <-> In r (user_achievements db) /\ ua_user_id r = u /\ In a (achievements db)
            /\ a_id a = ua_achievement_id r)
  /\ (forall order, Sorted (fun x y => ua_earned_at (fst y) <= ua_earned_at (fst x))
                           (get_user_achievements db u order)).
Proof.
  split; [|split; [|split; [|split; [|split]]]].
  - intros order r b. rewrite In_get_user_badges. apply In_user_badge_rows.
  - unfold get_user_badges. simpl.
    apply (Sorted_weaken (fun x y => rarity_le db x y = true)); [|apply Sorted_sort_by, rarity_le_total].
    intros x y H. unfold rarity_le in H. apply orb_true_iff in H as [H|H].
    + apply Nat.ltb_lt in H. lia.
    + apply andb_true_iff in H as [H _]. apply Nat.eqb_eq in H. lia.
  - unfold get_user_badges. simpl.
    apply (Sorted_weaken (fun x y => title_le x y = true)); [|apply Sorted_sort_by, title_le_total].
    intros x y H. unfold title_le, text_lt in H. apply orb_true_iff in H as [H|H].
    + apply negb_true_iff in H. apply text_le_total, H.
    + apply andb_true_iff in H as [H _]. apply String.eqb_eq in H. rewrite H. apply text_le_refl.
  - intros order H1 H2. unfold get_user_badges. rewrite H1, H2.
    apply (Sorted_weaken (fun x y => earned_desc x y = true)); [|apply Sorted_sort_by, earned_desc_total].
    intros x y H. unfold earned_desc in H. apply Z.leb_le, H.
  - intros order r a. unfold get_user_achievements.
    rewrite <- In_user_achievement_rows.
    split; apply Permutation_in; [|apply Permutation_sym]; apply Perm_sort_by.
  - intro order. unfold get_user_achievements.
    apply (Sorted_weaken (fun x y => (ua_earned_at (fst y) <=? ua_earned_at (fst x)) = true)).
    + intros x y H. apply Z.leb_le, H.
    + apply Sorted_sort_by. intros x y. rewrite Z.leb_gt, Z.leb_le. lia.
Qed.

Lemma get_user_awards_listing_witness :
  Sorted (fun x y => ub_earned_at (fst y) <= ub_earned_at (fst x)) (get_user_badges ex_db 5 "newest").
Proof.
  destruct (get_user_awards_listing ex_db 5) as [_ [_ [_ [H _]]]].
  apply H; reflexivity.
Defined.

Lemma filter_negb_length_lt {A} (p : A -> bool) (l : list A) :
  (List.length (filter (fun x => negb (p x)) l) <? List.length l)%nat = existsb p l.
Proof.
  induction l as [|x l IH]; simpl; [reflexivity|].
  pose proof (filter_length_le (fun x => negb (p x)) l) as Hle.
  destruct (p x); simpl.
  - apply Nat.ltb_lt. lia.
  - rewrite <- IH. destruct (Nat.ltb_spec (List.length (filter (fun x => negb (p x)) l)) (List.length l));
      destruct (Nat.ltb_spec (S (List.length (filter (fun x => negb (p x)) l))) (S (List.length l)));
      reflexivity || lia.
Qed.

(** X14: [BadgeRepository.delete] reports whether a badge had that id; it
    keeps every [user_badges] row and every [achievement_badges] link of
    the badge, yet from then on [get_user_badges] no longer shows it to
    anyone, and leaves every other listed badge in place. *)
Theorem badge_delete_hides_awards (db : DB) (badge_id : Z) :
  let '(ok, db') := badge_delete db badge_id in
  (ok = true <-> exists b, In b (badges db) /\ b_id b = badge_id)
  /\ user_badges db' = user_badges db
  /\ achievement_badges db' = achievement_badges db
  /\ (forall u order r b, In (r, b) (get_user_badges db' u order) -> ub_badge_id r <> badge_id)
  /\ (forall u order r b, In (r, b) (get_user_badges db u order) -> ub_badge_id r <> badge_id ->
        In (r, b) (get_user_badges db' u order)).
Proof.
  unfold badge_delete. split; [|split; [reflexivity | split; [reflexivity | split]]].
  - rewrite filter_negb_length_lt, existsb_exists. split; intros [b [Hb E]]; exists b;
      split; auto; [apply Z.eqb_eq, E | rewrite E; apply Z.eqb_refl].
  - intros u order r b. rewrite !In_get_user_badges, In_user_badge_rows.
    intros [_ [_ [Hb Hid]]]. cbn [badges with_badges] in Hb.
    apply filter_In in Hb as [_ Hb]. rewrite Hid in Hb. apply negb_true_iff, Z.eqb_neq in Hb.
    exact Hb.
  - intros u order r b. rewrite !In_get_user_badges, !In_user_badge_rows.
    intros [Hr [Hu [Hb Hid]]] Hne. cbn [badges user_badges with_badges].
    repeat split; auto. apply filter_In. split; [exact Hb|].
    rewrite Hid. apply negb_true_iff, Z.eqb_neq, Hne.
Qed.

Lemma badge_delete_hides_awards_witness :
  let '(ok, db') := badge_delete ex_db 7 in
  (ok = true <-> exists b, In b (badges ex_db) /\ b_id b = 7)
  /\ user_badges db' = user_badges ex_db
  /\ achievement_badges db' = achievement_badges ex_db
  /\ (forall u order r b, In (r, b) (get_user_badges db' u order) -> ub_badge_id r <> 7)
  /\ (forall u order r b, In (r, b) (get_user_badges ex_db u order) -> ub_badge_id r <> 7 ->
        In (r, b) (get_user_badges db' u order)).
Proof. exact (badge_delete_hides_awards ex_db 7). Defined.

(* ------------------------------------------------------------------ *)
(** ** Catalog administration *)

Lemma find_map_replace {A} (key : A -> Z) (k : Z) (g : A -> A) (l : list A) :
  (forall x, key x = k -> key (g x) = k) ->
  find (fun x => key x =? k) (map (fun x => if key x =? k then g x else x) l)
  = option_map g (find (fun x => key x =? k) l).
Proof.
  intro Hg. induction l as [|x l IH]; simpl; [reflexivity|].
  destruct (key x =? k) eqn:E; simpl.
  - apply Z.eqb_eq in E. rewrite (Hg x E), Z.eqb_refl. reflexivity.
  - rewrite E. exact IH.
Qed.

Lemma find_map_replace_other {A} (key : A -> Z) (k k' : Z) (g : A -> A) (l : list A) :
  (forall x, key x = k -> key (g x) = k) -> k' <> k ->
  find (fun x => key x =? k') (map (fun x => if key x =? k then g x else x) l)
  = find (fun x => key x =? k') l.
Proof.
  intros Hg Hk. induction l as [|x l IH]; simpl; [reflexivity|].
  destruct (key x =? k) eqn:E; simpl.
  - apply Z.eqb_eq in E. rewrite (Hg x E).
    assert (F : (k =? k') = false) by (apply Z.eqb_neq; lia).
    assert (F' : (key x =? k') = false) by (apply Z.eqb_neq; lia).
    rewrite F, F'. exact IH.
  - destruct (key x =? k'); [reflexivity | exact IH].
Qed.

Lemma insert_links_ok (aid : Z) (bids : list Z) (links : list (Z * Z)) :
  NoDup bids -> (forall x, In (aid, x) links -> ~ In x bids) ->
  insert_links aid bids links = Some (links ++ map (fun b => (aid, b)) bids)%list.
Proof.
  revert links. induction bids as [|b bids IH]; intros links Hnd Hl; simpl.
  - rewrite app_nil_r. reflexivity.
  - apply NoDup_cons_iff in Hnd as [Hb Hnd].
    destruct (existsb _ links) eqn:E.
    + exfalso. apply existsb_exists in E as [[x y] [Hin Hxy]]. simpl in Hxy.
      apply andb_true_iff in Hxy as [E1 E2]. apply Z.eqb_eq in E1, E2. subst.
      apply (Hl b Hin). left. reflexivity.
    + rewrite IH; [rewrite <- app_assoc; reflexivity | exact Hnd|].
      intros x Hx. apply in_app_or in Hx as [Hx|[Hx|[]]].
      * intro Hxb. apply (Hl x Hx). right. exact Hxb.
      * injection Hx as <-. exact Hb.
Qed.

Lemma insert_links_dup (aid : Z) (bids : list Z) (links : list (Z * Z)) :
  ~ NoDup bids \/ (exists x, In x bids /\ In (aid, x) links) ->
  insert_links aid bids links = None.
Proof.
  revert links. induction bids as [|b bids IH]; intros links H; simpl.
  - destruct H as [H|[x [[] _]]]. exfalso. apply H. constructor.
  - destruct (existsb _ links) eqn:E; [reflexivity|]. apply IH.
    destruct H as [H|[x [Hx Hl]]].
    + destruct (in_dec Z.eq_dec b bids) as [Hin|Hnin].
      * right. exists b. split; [exact Hin|]. apply in_or_app. right. left. reflexivity.
      * left. intro Hnd. apply H. constructor; assumption.
    + destruct Hx as [<-|Hx].
      * exfalso. assert (existsb (fun ab => (fst ab =? aid) && (snd ab =? b)) links = true)
          by (apply existsb_exists; exists (aid, b); simpl; rewrite !Z.eqb_refl; auto).
        congruence.
      * right. exists x. split; [exact Hx | apply in_or_app; left; exact Hl].
Qed.

Lemma filter_none {A} (f : A -> bool) (l : list A) :
  (forall x, In x l -> f x = false) -> filter f l = [].
Proof.
  induction l as [|x l IH]; simpl; intro H; [reflexivity|].
  rewrite (H x (or_introl eq_refl)). apply IH. intros y Hy. apply H. right. exact Hy.
Qed.

Lemma filter_links_new (aid x : Z) (kept : list (Z * Z)) (bids : list Z) :
  (forall ab, In ab kept -> fst ab <> aid) ->
  filter (fun ab => fst ab =? x) (kept ++ map (fun b => (aid, b)) bids)%list
  = if aid =? x then map (fun b => (aid, b)) bids else filter (fun ab => fst ab =? x) kept.
Proof.
  intro Hk. rewrite filter_app. destruct (aid =? x) eqn:E.
  - apply Z.eqb_eq in E. subst x.
    rewrite (filter_none (fun ab => fst ab =? aid) kept) by
      (intros ab Hab; apply Z.eqb_neq, Hk, Hab).
    simpl. apply filter_all. intros ab Hab. apply in_map_iff in Hab as [b [<- _]].
    apply Z.eqb_refl.
  - rewrite (filter_none (fun ab => fst ab =? x) (map (fun b => (aid, b)) bids)).
    + apply app_nil_r.
    + intros ab Hab. apply in_map_iff in Hab as [b [<- _]]. exact E.
Qed.

Lemma map_snd_pair (aid : Z) (bids : list Z) : map snd (map (fun b => (aid, b)) bids) = bids.
Proof. rewrite map_map. apply map_id. Qed.

(** X15: [AchievementRepository.delete] reports whether a row had the id; it
    removes the row and all its badge links, but keeps the users'
    [user_achievements] rows; no later [evaluate_and_award] awards that
    achievement to anyone. *)
Theorem achievement_delete_retires (db : DB) (aid : Z) :
  let '(ok, db') := ach_delete db aid in
  (ok = true <-> exists a, In a (achievements db) /\ a_id a = aid)
  /\ ach_find_by_id db' aid = None
  /\ (forall ab, In ab (achievement_badges db') -> fst ab <> aid)
  /\ user_achievements db' = user_achievements db
  /\ user_badges db' = user_badges db
  /\ (forall now u u', has_achievement (snd (evaluate_and_award db' now u)) u' aid
                       = has_achievement db' u' aid).
Proof.
  unfold ach_delete. cbn [achievements with_achievement_badges].
  set (db' := with_achievements _ _).
  assert (Hno : forall a, In a (achievements db') -> a_id a <> aid).
  { intros a Ha. apply filter_In in Ha as [_ Ha]. apply negb_true_iff, Z.eqb_neq in Ha. exact Ha. }
  split; [|split; [|split; [|split; [reflexivity | split; [reflexivity|]]]]].
  - rewrite filter_negb_length_lt, existsb_exists. split; intros [a [Ha E]]; exists a;
      split; auto; [apply Z.eqb_eq, E | rewrite E; apply Z.eqb_refl].
  - unfold ach_find_by_id. destruct (find _ (achievements db')) as [a|] eqn:F; [|reflexivity].
    apply find_some in F as [Ha E]. apply Z.eqb_eq in E. exfalso. exact (Hno a Ha E).
  - intros ab Hab. apply filter_In in Hab as [_ Hab]. apply negb_true_iff, Z.eqb_neq in Hab.
    exact Hab.
  - intros now [u|] u'; [|reflexivity]. simpl.
    destruct (award_loop db' now u (get_user_stats db' u) (find_all_active db')) as [out d2] eqn:E.
    cbn [snd]. destruct (has_achievement db' u' aid) eqn:H1.
    + apply (proj1 (proj2 (award_loop_frame _ _ _ _ _ _ _ E))), H1.
    + destruct (has_achievement d2 u' aid) eqn:H2; [|reflexivity].
      destruct (award_loop_only_satisfied _ _ _ _ _ _ _ E u' aid H2) as [H3|[_ [ach [Hin [Hid _]]]]];
        [congruence|].
      apply In_find_all_active in Hin as [a0 [Ha0 [_ ->]]].
      exfalso. apply (Hno a0 Ha0). exact Hid.
Qed.

(** X16: [AchievementRepository.update] with a non-zero id returns [True]
    even when no row has that id. With distinct badge ids (the argument,
    or the entity's list when it is [None]; an explicit [[]] removes
    every link) the achievement then reads back with the entity's
    fields and exactly those badge ids, and no other achievement
    changes; a repeated badge id raises the [IntegrityError] of the
    link table's primary key. *)
Theorem achievement_update_replaces_links (db : DB) (a : Achievement) (arg : option (list Z)) :
  a_id a <> 0 ->
  let bids := match arg with Some l => l | None => badge_ids a end in
  (NoDup bids ->
     exists db', ach_update db a arg = Some (true, db')
     /\ ach_find_by_id db' (a_id a)
        = option_map (fun _ => mkAchievement (a_id a) (a_title a) (rule_type a) (rule_value a)
                                             (active a) bids)
                     (ach_find_by_id db (a_id a))
     /\ (forall x, x <> a_id a -> ach_find_by_id db' x = ach_find_by_id db x))
  /\ (~ NoDup bids -> ach_update db a arg = None).
Proof.
  intro H0. cbv zeta.
  set (bids := match arg with Some l => l | None => badge_ids a end).
  set (kept := filter (fun ab => negb (fst ab =? a_id a)) (achievement_badges db)).
  assert (Hk : forall ab, In ab kept -> fst ab <> a_id a).
  { intros ab Hab. apply filter_In in Hab as [_ Hab]. apply negb_true_iff, Z.eqb_neq in Hab.
    exact Hab. }
  assert (U : ach_update db a arg
              = match insert_links (a_id a) bids kept with
                | Some links => Some (true, with_achievement_badges links
                     (with_achievements (map (fun x => if a_id x =? a_id a then a else x)
                                             (achievements db)) db))
                | None => None end).
  { unfold ach_update. rewrite (proj2 (Z.eqb_neq _ _) H0). reflexivity. }
  split.
  - intro Hnd. rewrite U, insert_links_ok; [|exact Hnd|].
    2: { intros x Hx _. exact (Hk _ Hx eq_refl). }
    eexists. split; [reflexivity|]. split.
    + unfold ach_find_by_id. cbn [achievements achievement_badges with_achievements
                                  with_achievement_badges].
      rewrite (find_map_replace a_id (a_id a) (fun _ => a)) by (intros; reflexivity).
      rewrite filter_links_new, Z.eqb_refl, map_snd_pair by exact Hk.
      destruct (find _ (achievements db)); reflexivity.
    + intros x Hx. unfold ach_find_by_id.
      cbn [achievements achievement_badges with_achievements with_achievement_badges].
      rewrite (find_map_replace_other a_id (a_id a) x (fun _ => a)) by (intros; reflexivity || exact Hx).
      rewrite filter_links_new by exact Hk.
      rewrite (proj2 (Z.eqb_neq (a_id a) x)) by congruence.
      destruct (find (fun y => a_id y =? x) (achievements db)); [|reflexivity].
      subst kept. rewrite filter_filter.
      do 3 f_equal. apply filter_ext. intro ab.
      destruct (Z.eqb_spec (fst ab) x) as [->|]; [|apply andb_false_r].
      rewrite (proj2 (Z.eqb_neq x (a_id a))) by exact Hx. reflexivity.
  - intro Hd. rewrite U, insert_links_dup; [reflexivity | left; exact Hd].
Qed.

Lemma achievement_update_replaces_links_witness :
  a_id ex_first_story <> 0
  /\ (NoDup [7; 8] ->
      exists db', ach_update ex_db ex_first_story (Some [7; 8]) = Some (true, db')
      /\ ach_find_by_id db' (a_id ex_first_story)
         = option_map (fun _ => mkAchievement (a_id ex_first_story) (a_title ex_first_story)
                                  (rule_type ex_first_story) (rule_value ex_first_story)
                                  (active ex_first_story) [7; 8])
                      (ach_find_by_id ex_db (a_id ex_first_story))
      /\ (forall x, x <> a_id ex_first_story -> ach_find_by_id db' x = ach_find_by_id ex_db x))
  /\ (~ NoDup [7; 8] -> ach_update ex_db ex_first_story (Some [7; 8]) = None).
Proof.
  assert (H : a_id ex_first_story <> 0) by (vm_compute; discriminate).
  split; [exact H|]. exact (achievement_update_replaces_links ex_db ex_first_story (Some [7; 8]) H).
Defined.

Lemma find_app {A} (f : A -> bool) (l l' : list A) :
  find f (l ++ l')%list = match find f l with Some y => Some y | None => find f l' end.
Proof. induction l as [|x l IH]; simpl; [reflexivity|]. destruct (f x); [reflexivity | exact IH]. Qed.

Lemma find_all_false {A} (f : A -> bool) (l : list A) :
  (forall x, In x l -> f x = false) -> find f l = None.
Proof.
  induction l as [|x l IH]; simpl; intro H; [reflexivity|].
  rewrite (H x (or_introl eq_refl)). apply IH. intros y Hy. apply H. right. exact Hy.
Qed.

(** X17: [AchievementRepository.create] with a fresh id: with distinct badge
    ids the new achievement reads back with the entity's fields and those
    badge ids, taken from the argument when it is a non-empty list and
    from the entity otherwise (an explicit [[]] does not clear them), and
    no other achievement changes; a repeated badge id raises the
    [IntegrityError] of the link table's primary key. *)
Theorem achievement_create_round_trip (db : DB) (nid : Z) (a : Achievement) (arg : option (list Z)) :
  (forall x, In x (achievements db) -> a_id x <> nid) ->
  (forall ab, In ab (achievement_badges db) -> fst ab <> nid) ->
  let bids := match arg with Some ((_ :: _) as l) => l | _ => badge_ids a end in
  (NoDup bids ->
     exists db', ach_create db nid a arg = Some (nid, db')
     /\ ach_find_by_id db' nid
        = Some (mkAchievement nid (a_title a) (rule_type a) (rule_value a) (active a) bids)
     /\ (forall x, x <> nid -> ach_find_by_id db' x = ach_find_by_id db x))
  /\ (~ NoDup bids -> ach_create db nid a arg = None).
Proof.
  intros Ha Hl. cbv zeta.
  set (bids := match arg with Some ((_ :: _) as l) => l | _ => badge_ids a end).
  set (row := mkAchievement nid (a_title a) (rule_type a) (rule_value a) (active a) (badge_ids a)).
  assert (U : ach_create db nid a arg
              = match insert_links nid bids (achievement_badges db) with
                | Some links => Some (nid, with_achievement_badges links
                     (with_achievements (achievements db ++ [row])%list db))
                | None => None end) by reflexivity.
  split.
  - intro Hnd. rewrite U, insert_links_ok; [|exact Hnd|].
    2: { intros x Hx _. exact (Hl _ Hx eq_refl). }
    eexists. split; [reflexivity|]. split.
    + unfold ach_find_by_id. cbn [achievements achievement_badges with_achievements
                                  with_achievement_badges].
      rewrite find_app, find_all_false.
      2: { intros x Hx. apply Z.eqb_neq, Ha, Hx. }
      simpl. rewrite Z.eqb_refl, filter_links_new, Z.eqb_refl, map_snd_pair by exact Hl.
      reflexivity.
    + intros x Hx. unfold ach_find_by_id.
      cbn [achievements achievement_badges with_achievements with_achievement_badges].
      rewrite find_app, filter_links_new by exact Hl.
      rewrite (proj2 (Z.eqb_neq nid x)) by congruence.
      destruct (find (fun y => a_id y =? x) (achievements db)); [reflexivity|].
      simpl. rewrite (proj2 (Z.eqb_neq nid x)) by congruence. reflexivity.
  - intro Hd. rewrite U, insert_links_dup; [reflexivity | left; exact Hd].
Qed.

Lemma achievement_create_round_trip_witness :
  (forall x, In x (achievements ex_db) -> a_id x <> 2)
  /\ (forall ab, In ab (achievement_badges ex_db) -> fst ab <> 2)
  /\ (NoDup [7] ->
      exists db', ach_create ex_db 2 (mkAchievement 0 "Storyteller" "stories_created_total" 3 true [7])
                    (Some []) = Some (2, db')
      /\ ach_find_by_id db' 2 = Some (mkAchievement 2 "Storyteller" "stories_created_total" 3 true [7])
      /\ (forall x, x <> 2 -> ach_find_by_id db' x = ach_find_by_id ex_db x))
  /\ (~ NoDup [7] -> ach_create ex_db 2 (mkAchievement 0 "Storyteller" "stories_created_total" 3 true [7])
                        (Some []) = None).
Proof.
  assert (H1 : forall x, In x (achievements ex_db) -> a_id x <> 2)
    by (intros x [<-|[]]; vm_compute; discriminate).
  assert (H2 : forall ab, In ab (achievement_badges ex_db) -> fst ab <> 2)
    by (intros ab [<-|[]]; vm_compute; discriminate).
  split; [exact H1 | split; [exact H2|]].
  exact (achievement_create_round_trip ex_db 2
           (mkAchievement 0 "Storyteller" "stories_created_total" 3 true [7]) (Some []) H1 H2).
Defined.

(** X18: [BadgeRepository.update] with a non-zero id reports whether a badge
    had that id; the badge then reads back as the entity, the other
    badges and the award and link tables are unchanged. *)
Theorem badge_update_round_trip (db : DB) (b : Badge) :
  b_id b <> 0 ->
  let '(ok, db') := badge_update db b in
  (ok = true <-> badge_find_by_id db (b_id b) <> None)
  /\ badge_find_by_id db' (b_id b) = option_map (fun _ => b) (badge_find_by_id db (b_id b))
  /\ (forall x, x <> b_id b -> badge_find_by_id db' x = badge_find_by_id db x)
  /\ user_badges db' = user_badges db /\ achievement_badges db' = achievement_badges db.
Proof.
  intro H0. unfold badge_update. rewrite (proj2 (Z.eqb_neq _ _) H0).
  split; [|split; [|split; [|split; reflexivity]]].
  - unfold badge_find_by_id. rewrite filter_length_find. 
    destruct (find _ (badges db)); split; intro H; try discriminate; try reflexivity; congruence.
  - unfold badge_find_by_id. cbn [badges with_badges].
    apply (find_map_replace b_id (b_id b) (fun _ => b)). reflexivity.
  - intros x Hx. unfold badge_find_by_id. cbn [badges with_badges].
    apply (find_map_replace_other b_id (b_id b) x (fun _ => b)); [reflexivity | exact Hx].
Qed.

Lemma badge_update_round_trip_witness :
  b_id (mkBadge 7 "First Steps" "First story posted" "icons/new.png" 1) <> 0
  /\ (let '(ok, db') := badge_update ex_db (mkBadge 7 "First Steps" "First story posted" "icons/new.png" 1) in
      (ok = true <-> badge_find_by_id ex_db 7 <> None)
      /\ badge_find_by_id db' 7
         = option_map (fun _ => mkBadge 7 "First Steps" "First story posted" "icons/new.png" 1)
                      (badge_find_by_id ex_db 7)
      /\ (forall x, x <> 7 -> badge_find_by_id db' x = badge_find_by_id ex_db x)
      /\ user_badges db' = user_badges ex_db /\ achievement_badges db' = achievement_badges ex_db).
Proof.
  assert (H : b_id (mkBadge 7 "First Steps" "First story posted" "icons/new.png" 1) <> 0)
    by discriminate.
  split; [exact H|].
  exact (badge_update_round_trip ex_db (mkBadge 7 "First Steps" "First story posted" "icons/new.png" 1) H).
Defined.

(* ------------------------------------------------------------------ *)
(** ** Media uploads *)

Lemma ascii_lower_idem (c : ascii) : ascii_lower (ascii_lower c) = ascii_lower c.
Proof. destruct c as [[] [] [] [] [] [] [] []]; reflexivity. Qed.

Lemma ascii_lower_dot (c : ascii) :
  ascii_eqb (ascii_lower c) "."%char = ascii_eqb c "."%char.
Proof. destruct c as [[] [] [] [] [] [] [] []]; reflexivity. Qed.

Lemma py_lower_cons (c : ascii) (s : string) :
  py_lower (String c s) = String (ascii_lower c) (py_lower s).
Proof. reflexivity. Qed.

Lemma py_lower_idem (s : string) : py_lower (py_lower s) = py_lower s.
Proof.
  induction s as [|c s IH]; [reflexivity|].
  rewrite !py_lower_cons, ascii_lower_idem, IH. reflexivity.
Qed.

Lemma has_dot_lower (s : string) : has_dot (py_lower s) = has_dot s.
Proof.
  induction s as [|c s IH]; [reflexivity|].
  rewrite py_lower_cons. simpl. rewrite ascii_lower_dot, IH. reflexivity.
Qed.

Lemma after_last_dot_lower (s : string) :
  after_last_dot (py_lower s) = option_map py_lower (after_last_dot s).
Proof.
  induction s as [|c s IH]; [reflexivity|].
  rewrite py_lower_cons. simpl. rewrite IH, ascii_lower_dot.
  destruct (after_last_dot s); simpl; [reflexivity|].
  destruct (ascii_eqb c "."%char); reflexivity.
Qed.

Lemma after_last_dot_no_dot (s : string) :
  has_dot s = false -> after_last_dot s = None.
Proof.
  induction s as [|c s IH]; simpl; [reflexivity|].
  intros H. apply orb_false_iff in H as [H1 H2]. rewrite IH, H1 by exact H2. reflexivity.
Qed.

Lemma after_last_dot_app (base ext : string) :
  has_dot ext = false -> after_last_dot (base ++ "." ++ ext) = Some ext.
Proof.
  intros H. induction base as [|c b IH].
  - simpl. rewrite after_last_dot_no_dot by exact H. reflexivity.
  - simpl in IH |- *. rewrite IH. reflexivity.
Qed.

Lemma has_dot_app (base ext : string) : has_dot (base ++ "." ++ ext) = true.
Proof. induction base as [|c b IH]; [reflexivity|]. simpl in IH |- *. rewrite IH, orb_true_r. reflexivity. Qed.

Lemma str_in_app (x : string) (l1 l2 : list string) :
  str_in x (l1 ++ l2) = str_in x l1 || str_in x l2.
Proof. unfold str_in. apply existsb_app. Qed.

Lemma str_in_true (x : string) (l : list string) : str_in x l = true -> In x l.
Proof.
  unfold str_in. intros H. apply existsb_exists in H as [y [Hy E]].
  apply String.eqb_eq in E. subst y. exact Hy.
Qed.

Lemma image_video_disjoint (x : string) :
  str_in x ["png"; "jpg"; "jpeg"; "gif"; "webp"]
  && str_in x ["mp4"; "webm"; "mov"; "avi"] = false.
Proof.
  destruct (str_in x ["png"; "jpg"; "jpeg"; "gif"; "webp"]) eqn:E; [|reflexivity].
  apply str_in_true in E.
  destruct E as [<-|[<-|[<-|[<-|[<-|[]]]]]]; reflexivity.
Qed.

Lemma bytes_eqb_spec (a b : list Z) : bytes_eqb a b = true <-> a = b.
Proof. unfold bytes_eqb. destruct (list_eq_dec Z.eq_dec a b); split; congruence. Qed.

Lemma firstn_firstn_le {A} (n m : nat) (l : list A) :
  (n <= m)%nat -> firstn n (firstn m l) = firstn n l.
Proof. intros H. rewrite firstn_firstn. f_equal. lia. Qed.

Lemma skipn_firstn_12 (c : list Z) : firstn 4 (skipn 8 (firstn 12 c)) = firstn 4 (skipn 8 c).
Proof.
  rewrite skipn_firstn_comm. rewrite firstn_firstn_le by lia. reflexivity.
Qed.

Lemma detect_image_type_some (c : list Z) :
  _detect_image_type c <> None <->
  firstn 3 c = [255; 216; 255]
  \/ firstn 8 c = [137; 80; 78; 71; 13; 10; 26; 10]
  \/ firstn 6 c = [71; 73; 70; 56; 55; 97]
  \/ firstn 6 c = [71; 73; 70; 56; 57; 97]
  \/ (firstn 4 c = [82; 73; 70; 70] /\ firstn 4 (skipn 8 c) = WEBP_TAG).
Proof.
  unfold _detect_image_type, _image_signatures. cbn [detect_loop List.length].
  rewrite !firstn_firstn_le by lia. rewrite skipn_firstn_12.
  cbn [String.eqb andb negb Ascii.eqb Bool.eqb].
  destruct (bytes_eqb (firstn 3 c) _) eqn:E1;
    [split; [intros _; left; apply bytes_eqb_spec; exact E1 | intros _; discriminate]|].
  destruct (bytes_eqb (firstn 8 c) _) eqn:E2;
    [split; [intros _; right; left; apply bytes_eqb_spec; exact E2 | intros _; discriminate]|].
  destruct (bytes_eqb (firstn 6 c) [71; 73; 70; 56; 55; 97]) eqn:E3;
    [split; [intros _; do 2 right; left; apply bytes_eqb_spec; exact E3 | intros _; discriminate]|].
  destruct (bytes_eqb (firstn 6 c) [71; 73; 70; 56; 57; 97]) eqn:E4;
    [split; [intros _; do 3 right; left; apply bytes_eqb_spec; exact E4 | intros _; discriminate]|].
  assert (N : forall a b, bytes_eqb a b = false -> a <> b)
    by (intros a b H; rewrite <- bytes_eqb_spec; congruence).
  apply N in E1, E2, E3, E4.
  destruct (bytes_eqb (firstn 4 c) _) eqn:E5;
    destruct (bytes_eqb (firstn 4 (skipn 8 c)) WEBP_TAG) eqn:E6; cbn [andb negb detect_loop].
  - split; [intros _|discriminate]. do 4 right.
    split; apply bytes_eqb_spec; assumption.
  - split; [intros H; exfalso; apply H; reflexivity|].
    intros [H|[H|[H|[H|[_ H]]]]]; try contradiction.
    apply bytes_eqb_spec in H. congruence.
  - split; [intros H; exfalso; apply H; reflexivity|].
    intros [H|[H|[H|[H|[H _]]]]]; try contradiction.
    apply bytes_eqb_spec in H. congruence.
  - split; [intros H; exfalso; apply H; reflexivity|].
    intros [H|[H|[H|[H|[H _]]]]]; try contradiction.
    apply bytes_eqb_spec in H. congruence.
Qed.

Lemma detect_image_type_fmt (c : list Z) (t : string) :
  _detect_image_type c = Some t -> str_in t ["jpeg"; "png"; "gif"; "webp"] = true.
Proof.
  unfold _detect_image_type, _image_signatures. cbn [detect_loop].
  repeat match goal with |- context [bytes_eqb ?a ?b] => destruct (bytes_eqb a b) end;
    cbn; intros H; try discriminate; injection H as <-; reflexivity.
Qed.

Section SaveMediaFacts.

Variable UPLOAD_FOLDER : string.
Variable secure_filename : string -> string.
Variable uuid_hex : nat -> string.
Variable os_path_join : string -> string -> string.
Variable file_save : Upload -> string -> option string.

Lemma save_loop_spec (files : list Upload) :
  forall k sp er saved errors,
  save_loop UPLOAD_FOLDER secure_filename uuid_hex os_path_join file_save files k sp er
    = (saved, errors) ->
  (List.length saved + List.length errors
    = List.length sp + List.length er
       + List.length (filter (fun f => py_truthy (up_filename f)) files))%nat
  /\ (forall p, In p saved -> In p sp \/
        exists f j, In f files /\ upload_check f = None
          /\ file_save f (os_path_join UPLOAD_FOLDER
                            (uuid_hex j ++ "_" ++ secure_filename (up_filename f))) = None
          /\ p = ("uploads/" ++ uuid_hex j ++ "_" ++ secure_filename (up_filename f))%string)
  /\ ((forall f path, file_save f path = None) -> errors = (er ++ flat_map (fun f => if py_truthy (up_filename f)
                      then match upload_check f with Some e => [e] | None => [] end
                      else []) files)%list).
Proof.
  induction files as [|file rest IH]; intros k sp er saved errors Hr.
  - simpl in Hr. injection Hr as <- <-. simpl.
    split; [lia|]. split; [intros p Hp; left; exact Hp|].
    intros _. rewrite app_nil_r. reflexivity.
  - simpl in Hr. cbn [flat_map filter].
    destruct (py_truthy (up_filename file)) eqn:T; cbn [negb] in Hr.
    + destruct (upload_check file) as [e|] eqn:C.
      * destruct (IH _ _ _ _ _ Hr) as [H1 [H2 H3]].
        split; [rewrite H1, length_app; simpl; lia|].
        split.
        { intros p Hp. destruct (H2 p Hp) as [H|[f [j Hf]]]; [left; exact H|].
          right. exists f, j. split; [right; apply Hf|apply Hf]. }
        intros Hs. rewrite (H3 Hs), <- app_assoc. reflexivity.
      * destruct (file_save file _) as [e|] eqn:S.
        -- destruct (IH _ _ _ _ _ Hr) as [H1 [H2 H3]].
           split; [rewrite H1, length_app; simpl; lia|].
           split.
           { intros p Hp. destruct (H2 p Hp) as [H|[f [j Hf]]]; [left; exact H|].
             right. exists f, j. split; [right; apply Hf|apply Hf]. }
           intros Hs. rewrite Hs in S. discriminate.
        -- destruct (IH _ _ _ _ _ Hr) as [H1 [H2 H3]].
           split; [rewrite H1, length_app; simpl; lia|].
           split.
           { intros p Hp. destruct (H2 p Hp) as [H|[f [j Hf]]].
             - apply in_app_or in H as [H|[H|[]]]; [left; exact H|].
               right. exists file, k. split; [left; reflexivity|].
               split; [exact C|]. split; [exact S|]. symmetry; exact H.
             - right. exists f, j. split; [right; apply Hf|apply Hf]. }
           intros Hs. rewrite (H3 Hs). reflexivity.
    + destruct (IH _ _ _ _ _ Hr) as [H1 [H2 H3]].
      split; [exact H1|].
      split.
      { intros p Hp. destruct (H2 p Hp) as [H|[f [j Hf]]]; [left; exact H|].
        right. exists f, j. split; [right; apply Hf|apply Hf]. }
      exact H3.
Qed.

End SaveMediaFacts.

(** X19: StoryService._allowed_file, _is_image and _is_video look only at
    the text after the last dot, lowercased: a file is allowed exactly when
    it is an image or a video, never both, the check ignores case, and for
    [base.ext] with no dot in [ext] only [ext] decides. *)
Theorem media_extension_rules (fn base ext : string) :
  _allowed_file fn = _is_image fn || _is_video fn
  /\ _is_image fn && _is_video fn = false
  /\ _allowed_file (py_lower fn) = _allowed_file fn
  /\ (has_dot ext = false ->
      _allowed_file (base ++ "." ++ ext) = str_in (py_lower ext) ALLOWED_EXTENSIONS).
Proof.
  split; [|split; [|split]].
  - unfold _allowed_file, _is_image, _is_video.
    destruct (has_dot fn); cbn [negb andb]; [|reflexivity].
    destruct (after_last_dot fn); [|reflexivity].
    change ALLOWED_EXTENSIONS
      with (["png"; "jpg"; "jpeg"; "gif"; "webp"] ++ ["mp4"; "webm"; "mov"; "avi"])%list.
    apply str_in_app.
  - unfold _is_image, _is_video.
    destruct (has_dot fn); cbn [negb]; [|reflexivity].
    destruct (after_last_dot fn); [|reflexivity].
    apply image_video_disjoint.
  - unfold _allowed_file. rewrite has_dot_lower, after_last_dot_lower.
    destruct (after_last_dot fn); simpl; [|reflexivity].
    rewrite py_lower_idem. reflexivity.
  - intros H. unfold _allowed_file. rewrite has_dot_app, after_last_dot_app by exact H.
    reflexivity.
Qed.

Lemma media_extension_rules_witness :
  has_dot "JPG" = false
  /\ _allowed_file ("holiday.v2" ++ "." ++ "JPG") = str_in (py_lower "JPG") ALLOWED_EXTENSIONS.
Proof.
  split; [reflexivity|].
  apply (proj2 (proj2 (proj2 (media_extension_rules "x.MOV" "holiday.v2" "JPG")))).
  reflexivity.
Defined.

(** X20: StoryService.save_media_files checks each named file in turn
    (extension, size between 1 byte and MAX_CONTENT_LENGTH, declared content
    type, and for an image type its leading bytes): it is accepted exactly
    when the extension is allowed, the size is in range, the content type is
    an allowed image or video type, and an image's first bytes are a JPEG,
    PNG, GIF87a or GIF89a signature, or RIFF with WEBP at offset 8. *)
Theorem upload_check_accepts (file : Upload) :
  upload_check file = None <->
  _allowed_file (up_filename file) = true
  /\ (0 < Z.of_nat (List.length (up_content file)) <= MAX_CONTENT_LENGTH)%Z
  /\ (str_in (match up_content_type file with Some c => c | None => "" end)
             allowed_image_types = true
      \/ str_in (match up_content_type file with Some c => c | None => "" end)
                allowed_video_types = true)
  /\ (str_in (match up_content_type file with Some c => c | None => "" end)
             allowed_image_types = true ->
      let c := up_content file in
      firstn 3 c = [255; 216; 255]
      \/ firstn 8 c = [137; 80; 78; 71; 13; 10; 26; 10]
      \/ firstn 6 c = [71; 73; 70; 56; 55; 97]
      \/ firstn 6 c = [71; 73; 70; 56; 57; 97]
      \/ (firstn 4 c = [82; 73; 70; 70] /\ firstn 4 (skipn 8 c) = WEBP_TAG)).
Proof.
  unfold upload_check. cbv zeta.
  remember (match up_content_type file with Some c => c | None => "" end) as ct.
  rewrite <- detect_image_type_some.
  destruct (_allowed_file (up_filename file)) eqn:A; cbn [negb];
    [|split; [discriminate|intros [H _]; discriminate]].
  destruct (MAX_CONTENT_LENGTH <? Z.of_nat (List.length (up_content file)))%Z eqn:M.
  { apply Z.ltb_lt in M. split; [discriminate|intros [_ [H _]]; lia]. }
  apply Z.ltb_ge in M.
  destruct (Z.of_nat (List.length (up_content file)) =? 0)%Z eqn:Z0.
  { apply Z.eqb_eq in Z0. split; [discriminate|intros [_ [H _]]; lia]. }
  apply Z.eqb_neq in Z0.
  assert (R : (0 < Z.of_nat (List.length (up_content file)) <= MAX_CONTENT_LENGTH)%Z) by lia.
  destruct (str_in ct allowed_image_types) eqn:I.
  - cbn [orb negb].
    destruct (_detect_image_type (up_content file)) as [t|] eqn:D.
    + rewrite (detect_image_type_fmt _ _ D).
      split; [intros _|reflexivity].
      split; [reflexivity|]. split; [exact R|]. split; [left; reflexivity|].
      intros _. discriminate.
    + split; [discriminate|].
      intros [_ [_ [_ H]]]. exfalso. apply (H eq_refl). reflexivity.
  - destruct (str_in ct allowed_video_types) eqn:V; cbn [orb negb].
    + split; [intros _|reflexivity].
      split; [reflexivity|]. split; [exact R|]. split; [right; reflexivity|].
      discriminate.
    + split; [discriminate|]. intros [_ [_ [[H|H] _]]]; discriminate.
Qed.

Lemma upload_check_accepts_witness :
  upload_check ex_png_upload = None
  /\ _allowed_file (up_filename ex_png_upload) = true.
Proof.
  assert (H : upload_check ex_png_upload = None) by reflexivity.
  split; [exact H|].
  apply (proj1 (upload_check_accepts ex_png_upload) H).
Defined.

(** X21: StoryService.save_media_files gives one outcome per file with a
    non-empty name (files without one are skipped): the saved paths and
    errors together number the named files; every saved path is
    ["uploads/<uuid hex>_<secure_filename(name)>"] for a file of the input
    that passed every check and whose [save] to
    [os.path.join(UPLOAD_FOLDER, <same name>)] returned; and when saving
    never raises, the errors are exactly the check errors of the named
    files, in input order. *)
Theorem save_media_files_accounting
    (UPLOAD_FOLDER : string) (secure_filename : string -> string)
    (uuid_hex : nat -> string) (os_path_join : string -> string -> string)
    (file_save : Upload -> string -> option string)
    (files : list Upload) (saved errors : list string) :
  save_media_files UPLOAD_FOLDER secure_filename uuid_hex os_path_join file_save files
    = (saved, errors) ->
  (List.length saved + List.length errors
     = List.length (filter (fun f => py_truthy (up_filename f)) files))%nat
  /\ (forall p, In p saved ->
        exists f j, In f files /\ upload_check f = None
          /\ file_save f (os_path_join UPLOAD_FOLDER
                            (uuid_hex j ++ "_" ++ secure_filename (up_filename f))) = None
          /\ p = ("uploads/" ++ uuid_hex j ++ "_" ++ secure_filename (up_filename f))%string)
  /\ ((forall f path, file_save f path = None) ->
      errors = flat_map (fun f => if py_truthy (up_filename f)
                                  then match upload_check f with Some e => [e] | None => [] end
                                  else []) files).
Proof.
  intros Hr. unfold save_media_files in Hr.
  destruct (save_loop_spec _ _ _ _ _ files _ _ _ _ _ Hr) as [H1 [H2 H3]].
  split; [exact H1|]. split.
  - intros p Hp. destruct (H2 p Hp) as [[]|H]. exact H.
  - intros Hs. exact (H3 Hs).
Qed.

Lemma save_media_files_accounting_witness :
  save_media_files "static/uploads" (fun s => s) (fun _ => "abc") (fun a b => a ++ "/" ++ b)
    (fun _ _ => None) ex_uploads
    = (["uploads/abc_Beach.PNG"],
       ["Invalid file type: notes.txt"; "File content doesn't match image type: fake.gif"])
  /\ (1 + 2 = List.length (filter (fun f => py_truthy (up_filename f)) ex_uploads))%nat.
Proof.
  assert (H : save_media_files "static/uploads" (fun s => s) (fun _ => "abc")
                (fun a b => a ++ "/" ++ b) (fun _ _ => None) ex_uploads
              = (["uploads/abc_Beach.PNG"],
                 ["Invalid file type: notes.txt"; "File content doesn't match image type: fake.gif"]))
    by (vm_compute; reflexivity).
  split; [exact H|].
  apply (proj1 (save_media_files_accounting _ _ _ _ _ _ _ _ H)).
Defined.

(* ------------------------------------------------------------------ *)
(** ** StoryService.create_story *)

Lemma validate_set_media_paths (p : list string) (s : StoryPost) :
  validate (set_media_paths p s) = validate s.
Proof. destruct s; reflexivity. Qed.

Lemma strip_if_truthy (s : string) :
  (if py_truthy s then py_strip s else "") = py_strip s.
Proof. destruct s; reflexivity. Qed.

Lemma find_by_id_snoc (l : list StoryPost) (s : StoryPost) (db : DB) :
  ~ In (id s) (map id l) ->
  find (fun x => id x =? id s) (l ++ [s])%list = Some s.
Proof.
  induction l as [|x l IH]; simpl; intros H.
  - rewrite Z.eqb_refl. reflexivity.
  - destruct (id x =? id s) eqn:E.
    + apply Z.eqb_eq in E. exfalso. apply H. left. exact E.
    + apply IH. intros H'. apply H. right. exact H'.
Qed.

(** The part of [create_story] after the checks. *)
Lemma create_story_commit (st : Store) (now : Z) (today : string) (u : option Z)
    (s : StoryPost) (res : option StoryPost) (errs : Errors) (newly : list BadgeInfo)
    (st' : Store) :
  (let db1 := with_stories (stories (tables st) ++ [s])%list (tables st) in
   let st1 := record_activity (mkStore db1 (user_activity_dates st)) today u in
   let '(newly_earned, db2) := evaluate_and_award (tables st1) now u in
   (Some s, @nil (string * string), newly_earned, mkStore db2 (user_activity_dates st1)))
  = (res, errs, newly, st') ->
  res = Some s /\ errs = []
  /\ stories (tables st') = (stories (tables st) ++ [s])%list
  /\ comments (tables st') = comments (tables st)
  /\ (forall a, u = Some a -> In (a, today) (user_activity_dates st')).
Proof.
  cbv zeta. intros H.
  destruct (evaluate_and_award _ now u) as [n db2] eqn:E.
  apply evaluate_and_award_content in E as [S [C _]].
  rewrite tables_record_activity in S, C. simpl in S, C.
  injection H as <- <- <- <-. simpl.
  split; [reflexivity|]. split; [reflexivity|].
  split; [exact S|]. split; [exact C|].
  intros a ->. apply In_record_activity_date.
Qed.

(** The outcomes of [create_story]. *)
Lemma create_story_spec (FileStorage : Type)
    (save_media_files : list FileStorage -> list string * list string)
    (st : Store) (now : Z) (today : string) (nid : Z)
    (caption_in description_in category privacy : string)
    (tags_in : option (list string)) (event_title : option string)
    (allowed_groups_in : option (list string)) (scheduled_at : option string)
    (media_files : list FileStorage) (current_user_id : option Z)
    (res : option StoryPost) (errs : Errors) (newly : list BadgeInfo) (st' : Store) :
  create_story FileStorage save_media_files st now today nid caption_in description_in category
    privacy tags_in event_title allowed_groups_in scheduled_at media_files current_user_id
    = (res, errs, newly, st') ->
  (res = None /\ errs <> [] /\ newly = [] /\ st' = st)
  \/ (exists s, res = Some s /\ errs = [] /\ validate s = []
      /\ stories (tables st') = (stories (tables st) ++ [s])%list
      /\ comments (tables st') = comments (tables st)
      /\ id s = nid /\ author_id s = current_user_id
      /\ caption s = py_strip caption_in /\ description s = py_strip description_in
      /\ tags s = match tags_in with
                  | Some l => map lstrip_hash (filter (fun t => py_truthy (py_strip t)) l)
                  | None => []
                  end
      /\ media_paths s = match media_files with
                         | [] => []
                         | _ :: _ => fst (save_media_files media_files)
                         end
      /\ likes_count s = 0 /\ comments_count s = 0 /\ shares_count s = 0
      /\ created_at s = now /\ is_deleted s = false /\ deleted_at s = None
      /\ (forall a, current_user_id = Some a -> In (a, today) (user_activity_dates st'))
      /\ (~ In nid (map id (stories (tables st))) -> find_by_id (tables st') nid = Some s)).
Proof.
  unfold create_story. cbv zeta.
  rewrite !strip_if_truthy.
  match goal with |- context [validate ?x] => set (s0 := x) end.
  assert (T : tags s0 = match tags_in with
                        | Some l => map lstrip_hash (filter (fun t => py_truthy (py_strip t)) l)
                        | None => []
                        end)
    by (subst s0; destruct tags_in as [[|t l]|]; reflexivity).
  destruct (validate s0) as [|e es] eqn:V.
  2: { intros H. injection H as <- <- <- <-. left.
       split; [reflexivity|]. split; [discriminate|]. split; reflexivity. }
  assert (Fin : forall s, validate s = [] -> id s = nid -> author_id s = current_user_id
            -> caption s = py_strip caption_in -> description s = py_strip description_in
            -> tags s = tags s0 -> likes_count s = 0 -> comments_count s = 0
            -> shares_count s = 0 -> created_at s = now -> is_deleted s = false
            -> deleted_at s = None -> media_paths s = match media_files with
                         | [] => []
                         | _ :: _ => fst (save_media_files media_files)
                         end ->
            (let db1 := with_stories (stories (tables st) ++ [s])%list (tables st) in
             let st1 := record_activity (mkStore db1 (user_activity_dates st)) today
                          current_user_id in
             let '(newly_earned, db2) := evaluate_and_award (tables st1) now current_user_id in
             (Some s, @nil (string * string), newly_earned, mkStore db2 (user_activity_dates st1)))
            = (res, errs, newly, st') ->
            exists s', res = Some s' /\ errs = [] /\ validate s' = []
            /\ stories (tables st') = (stories (tables st) ++ [s'])%list
            /\ comments (tables st') = comments (tables st)
            /\ id s' = nid /\ author_id s' = current_user_id
            /\ caption s' = py_strip caption_in /\ description s' = py_strip description_in
            /\ tags s' = match tags_in with
                  | Some l => map lstrip_hash (filter (fun t => py_truthy (py_strip t)) l)
                  | None => []
                  end
            /\ media_paths s' = match media_files with
                         | [] => []
                         | _ :: _ => fst (save_media_files media_files)
                         end
            /\ likes_count s' = 0 /\ comments_count s' = 0 /\ shares_count s' = 0
            /\ created_at s' = now /\ is_deleted s' = false /\ deleted_at s' = None
            /\ (forall a, current_user_id = Some a -> In (a, today) (user_activity_dates st'))
            /\ (~ In nid (map id (stories (tables st))) -> find_by_id (tables st') nid = Some s')).
  { intros s Hv Hi Ha Hc Hd Ht Hl Hcc Hs Hca Hdel Hda Hm H.
    apply create_story_commit in H as [-> [-> [S [C A]]]].
    exists s. do 9 (split; [first [reflexivity|assumption]|]).
    split; [rewrite Ht; exact T|].
    do 8 (split; [assumption|]).
    intros Hn. unfold find_by_id. rewrite S, <- Hi.
    apply find_by_id_snoc; [exact (tables st)|]. rewrite Hi. exact Hn. }
  destruct media_files as [|f fs].
  - intros H. right. apply (Fin s0); try reflexivity; try exact V. exact H.
  - destruct (save_media_files (f :: fs)) as [sp fe] eqn:Sv.
    destruct fe as [|e fe].
    + intros H. right. apply (Fin (set_media_paths sp s0)); try reflexivity.
      * rewrite validate_set_media_paths. exact V.
      * exact H.
    + intros H. injection H as <- <- <- <-. left.
      split; [reflexivity|]. split; [discriminate|]. split; reflexivity.
Qed.

(** X22: [StoryService.create_story] either fails, returning [None] with
    errors and writing nothing, or stores one new story at the end of the
    table and returns it: the story passes [validate], has the new id, the
    current user as author, the stripped caption and description, the
    non-blank tags with leading ['#'] removed, the saved media paths (none
    without files), zero counters, [created_at = now], is not deleted, and
    is what [find_by_id] returns for a fresh id; comments are untouched and
    the author's activity for today is recorded. *)
Theorem create_story_outcomes (FileStorage : Type)
    (save_media_files : list FileStorage -> list string * list string)
    (st : Store) (now : Z) (today : string) (nid : Z)
    (caption_in description_in category privacy : string)
    (tags_in : option (list string)) (event_title : option string)
    (allowed_groups_in : option (list string)) (scheduled_at : option string)
    (media_files : list FileStorage) (current_user_id : option Z)
    (res : option StoryPost) (errs : Errors) (newly : list BadgeInfo) (st' : Store) :
  create_story FileStorage save_media_files st now today nid caption_in description_in category
    privacy tags_in event_title allowed_groups_in scheduled_at media_files current_user_id
    = (res, errs, newly, st') ->
  (res = None /\ errs <> [] /\ newly = [] /\ st' = st)
  \/ (exists s, res = Some s /\ errs = [] /\ validate s = []
      /\ stories (tables st') = (stories (tables st) ++ [s])%list
      /\ comments (tables st') = comments (tables st)
      /\ id s = nid /\ author_id s = current_user_id
      /\ caption s = py_strip caption_in /\ description s = py_strip description_in
      /\ tags s = match tags_in with
                  | Some l => map lstrip_hash (filter (fun t => py_truthy (py_strip t)) l)
                  | None => []
                  end
      /\ media_paths s = match media_files with
                         | [] => []
                         | _ :: _ => fst (save_media_files media_files)
                         end
      /\ likes_count s = 0 /\ comments_count s = 0 /\ shares_count s = 0
      /\ created_at s = now /\ is_deleted s = false /\ deleted_at s = None
      /\ (forall a, current_user_id = Some a -> In (a, today) (user_activity_dates st'))
      /\ (~ In nid (map id (stories (tables st))) -> find_by_id (tables st') nid = Some s)).
Proof.
  apply create_story_spec.
Qed.

Lemma create_story_outcomes_witness :
  let st := mkStore ex_db [] in
  create_story nat (fun _ => (["uploads/abc_a.png"], [])) st 100 "2026-10-19" 2
    "  My first job  " "The summer I started at the bakery."
    "Career Journey" "Public" (Some ["#work"; "  "]) None None None [0%nat] (Some 5)
  = (Some (mkStoryPost 2 (Some 5) "My first job" "The summer I started at the bakery."
             ["work"] None "Career Journey" "Public" [] None ["uploads/abc_a.png"]
             0 0 0 100 100 false None),
     [], fst (evaluate_and_award
                (with_stories (stories ex_db ++
                   [mkStoryPost 2 (Some 5) "My first job" "The summer I started at the bakery."
                      ["work"] None "Career Journey" "Public" [] None ["uploads/abc_a.png"]
                      0 0 0 100 100 false None])%list ex_db) 100 (Some 5)),
     mkStore (snd (evaluate_and_award
                (with_stories (stories ex_db ++
                   [mkStoryPost 2 (Some 5) "My first job" "The summer I started at the bakery."
                      ["work"] None "Career Journey" "Public" [] None ["uploads/abc_a.png"]
                      0 0 0 100 100 false None])%list ex_db) 100 (Some 5)))
             [(5, "2026-10-19")])
  /\ True.
Proof.
  cbv zeta.
  match goal with |- ?L = (?a, ?b, ?c, ?d) /\ _ =>
    assert (H : L = (a, b, c, d)) by (vm_compute; reflexivity) end.
  split; [exact H|].
  destruct (create_story_outcomes _ _ _ _ _ _ _ _ _ _ _ _ _ _ _ _ _ _ _ _ H)
    as [[D _]|_]; [discriminate|exact I].
Defined.

(* ------------------------------------------------------------------ *)
(** ** The streak rule *)

Lemma stats_streak_zero (db : DB) (u : Z) :
  stats_get (get_user_stats db u) "days_active_streak" = 0.
Proof. reflexivity. Qed.

(** X23: [get_user_stats] stubs [days_active_streak] as [0] (whatever
    [record_activity] has stored), so [evaluate_and_award] never awards an
    achievement whose rows all have the rule ["days_active_streak"] with a
    positive value: no user's ledger gains it. *)
Theorem streak_achievement_never_awarded (db : DB) (now : Z) (u : option Z) (aid : Z) :
  (forall a, In a (achievements db) -> a_id a = aid ->
             rule_type a = "days_active_streak" /\ 0 < rule_value a) ->
  forall u', has_achievement (snd (evaluate_and_award db now u)) u' aid
             = has_achievement db u' aid.
Proof.
  intros Hs u'. destruct u as [v|]; [|reflexivity]. simpl.
  destruct (award_loop db now v (get_user_stats db v) (find_all_active db)) as [out db'] eqn:E.
  simpl. destruct (has_achievement db u' aid) eqn:Hdb.
  - apply (proj1 (proj2 (award_loop_frame _ _ _ _ _ _ _ E))). exact Hdb.
  - destruct (has_achievement db' u' aid) eqn:Hd; [|reflexivity].
    destruct (award_loop_only_satisfied _ _ _ _ _ _ _ E u' aid Hd)
      as [H|[_ [ach [Hach [Hid Hsat]]]]]; [congruence|].
    apply In_find_all_active in Hach as [a0 [Ha0 [_ ->]]].
    rewrite rule_satisfied_load in Hsat. simpl in Hid.
    destruct (Hs a0 Ha0 Hid) as [Rt Rv].
    unfold _rule_satisfied in Hsat. rewrite Rt in Hsat. cbn -[stats_get] in Hsat.
    rewrite stats_streak_zero in Hsat. apply Z.leb_le in Hsat. lia.
Qed.

Lemma streak_achievement_never_awarded_witness :
  let db := with_activity_streak_example in
  (forall a, In a (achievements db) -> a_id a = 2 ->
             rule_type a = "days_active_streak" /\ 0 < rule_value a)
  /\ has_achievement (snd (evaluate_and_award db 10 (Some 5))) 5 2 = false.
Proof.
  cbv zeta.
  assert (H : forall a, In a (achievements with_activity_streak_example) -> a_id a = 2 ->
             rule_type a = "days_active_streak" /\ 0 < rule_value a).
  { intros a Ha Hid. simpl in Ha.
    destruct Ha as [<-|[<-|[]]]; simpl in Hid; try discriminate. split; [reflexivity|simpl; lia]. }
  split; [exact H|].
  rewrite (streak_achievement_never_awarded _ 10 (Some 5) 2 H 5). reflexivity.
Defined.

(* ------------------------------------------------------------------ *)
(** ** The author's stats under create_story and delete_story *)

Lemma stats_stories_created (db : DB) (u : Z) :
  stats_get (get_user_stats db u) "stories_created_total"
  = Z.of_nat (List.length (filter (authored_live u) (stories db))).
Proof. reflexivity. Qed.

Lemma stats_likes_received (db : DB) (u : Z) :
  stats_get (get_user_stats db u) "likes_received_total"
  = sum_Z (map likes_count (filter (authored_live u) (stories db))).
Proof. reflexivity. Qed.

Lemma stats_shares_received (db : DB) (u : Z) :
  stats_get (get_user_stats db u) "shares_received_total"
  = sum_Z (map shares_count (filter (authored_live u) (stories db))).
Proof. reflexivity. Qed.

Lemma stats_comments_written (db : DB) (u : Z) :
  stats_get (get_user_stats db u) "comments_written_total"
  = Z.of_nat (List.length (filter (fun c => match c_author_id c with
                                            | Some a => a =? u
                                            | None => false end) (comments db))).
Proof. reflexivity. Qed.

Lemma sum_Z_app (l1 l2 : list Z) : sum_Z (l1 ++ l2) = sum_Z l1 + sum_Z l2.
Proof. induction l1 as [|x l1 IH]; simpl; [reflexivity|]. rewrite IH. lia. Qed.

(** X24: a story that [create_story] stores counts once for its author in
    [get_user_stats]: [stories_created_total] goes up by one for the
    current user (and for nobody when there is none), while
    [likes_received_total], [shares_received_total] and
    [comments_written_total] stay as they were for every user. *)
Theorem create_story_stats (FileStorage : Type)
    (save_media_files : list FileStorage -> list string * list string)
    (st : Store) (now : Z) (today : string) (nid : Z)
    (caption_in description_in category privacy : string)
    (tags_in : option (list string)) (event_title : option string)
    (allowed_groups_in : option (list string)) (scheduled_at : option string)
    (media_files : list FileStorage) (current_user_id : option Z)
    (s : StoryPost) (errs : Errors) (newly : list BadgeInfo) (st' : Store) (u : Z) :
  create_story FileStorage save_media_files st now today nid caption_in description_in category
    privacy tags_in event_title allowed_groups_in scheduled_at media_files current_user_id
    = (Some s, errs, newly, st') ->
  stats_get (get_user_stats (tables st') u) "stories_created_total"
    = stats_get (get_user_stats (tables st) u) "stories_created_total"
      + (if author_is current_user_id u then 1 else 0)
  /\ stats_get (get_user_stats (tables st') u) "likes_received_total"
     = stats_get (get_user_stats (tables st) u) "likes_received_total"
  /\ stats_get (get_user_stats (tables st') u) "shares_received_total"
     = stats_get (get_user_stats (tables st) u) "shares_received_total"
  /\ stats_get (get_user_stats (tables st') u) "comments_written_total"
     = stats_get (get_user_stats (tables st) u) "comments_written_total".
Proof.
  intros H. apply create_story_spec in H as [[D _]|[s' [E H]]]; [discriminate|].
  injection E as <-.
  destruct H as [_ [_ [S [C [_ [A [_ [_ [_ [_ [L [_ [Sh [_ [Del _]]]]]]]]]]]]]]].
  rewrite !stats_stories_created, !stats_likes_received, !stats_shares_received,
    !stats_comments_written, S, C, filter_app.
  assert (Hl : authored_live u s = author_is current_user_id u).
  { unfold authored_live, author_is. rewrite A, Del. destruct current_user_id; simpl; [|reflexivity].
    rewrite andb_true_r. reflexivity. }
  simpl. rewrite Hl, !map_app, !sum_Z_app, length_app.
  destruct (author_is current_user_id u); simpl; [|rewrite Nat.add_0_r].
  - rewrite L, Sh. split; [lia|]. split; [lia|]. split; lia.
  - split; [lia|]. split; [lia|]. split; lia.
Qed.

Lemma create_story_stats_witness :
  create_story nat (fun _ => ([], [])) (mkStore ex_db []) 100 "2026-10-19" 2
    "Summer" "The summer I started at the bakery." "Career Journey" "Public"
    None None None None [] (Some 5)
  = (Some (mkStoryPost 2 (Some 5) "Summer" "The summer I started at the bakery."
             [] None "Career Journey" "Public" [] None [] 0 0 0 100 100 false None),
     [], fst (evaluate_and_award
                (with_stories (stories ex_db ++
                   [mkStoryPost 2 (Some 5) "Summer" "The summer I started at the bakery."
                      [] None "Career Journey" "Public" [] None [] 0 0 0 100 100 false None])%list
                   ex_db) 100 (Some 5)),
     mkStore (snd (evaluate_and_award
                (with_stories (stories ex_db ++
                   [mkStoryPost 2 (Some 5) "Summer" "The summer I started at the bakery."
                      [] None "Career Journey" "Public" [] None [] 0 0 0 100 100 false None])%list
                   ex_db) 100 (Some 5)))
             [(5, "2026-10-19")])
  /\ stats_get (get_user_stats (tables (mkStore (snd (evaluate_and_award
                (with_stories (stories ex_db ++
                   [mkStoryPost 2 (Some 5) "Summer" "The summer I started at the bakery."
                      [] None "Career Journey" "Public" [] None [] 0 0 0 100 100 false None])%list
                   ex_db) 100 (Some 5))) [(5, "2026-10-19")])) 5) "stories_created_total"
     = stats_get (get_user_stats ex_db 5) "stories_created_total" + 1.
Proof.
  match goal with |- ?L = ?R /\ _ => assert (H : L = R) by (vm_compute; reflexivity) end.
  split; [exact H|].
  exact (proj1 (create_story_stats _ _ _ _ _ _ _ _ _ _ _ _ _ _ _ _ _ _ _ _ 5 H)).
Defined.

Lemma filter_unique_id (l : list StoryPost) (sid : Z) (s : StoryPost) :
  NoDup (map id l) -> find (fun x => id x =? sid) l = Some s ->
  filter (fun x => id x =? sid) l = [s].
Proof.
  induction l as [|x l IH]; simpl; intros Hnd Hf; [discriminate|].
  inversion Hnd as [|? ? Hnot Hnd']; subst.
  destruct (id x =? sid) eqn:E.
  - injection Hf as ->. f_equal.
    apply filter_none. intros y Hy. apply Z.eqb_neq. intros Hy'.
    apply Z.eqb_eq in E. apply Hnot. rewrite E, <- Hy'. apply in_map. exact Hy.
  - apply IH; assumption.
Qed.

(** Summing over the stories after [UPDATE ... WHERE id = ?] with an
    update that takes a row out of [P]. *)
Lemma sum_filter_update (P : StoryPost -> bool) (col : StoryPost -> Z)
    (f : StoryPost -> StoryPost) (sid : Z) (l : list StoryPost) :
  (forall x, P (f x) = false) ->
  sum_Z (map col (filter P (map (fun x => if id x =? sid then f x else x) l)))
  + sum_Z (map col (filter P (filter (fun x => id x =? sid) l)))
  = sum_Z (map col (filter P l)).
Proof.
  intros HP. induction l as [|x l IH]; simpl; [reflexivity|].
  destruct (id x =? sid); simpl.
  - rewrite HP. destruct (P x); simpl; [|exact IH]. lia.
  - destruct (P x); simpl; lia.
Qed.

Lemma length_sum_Z {A} (l : list A) : Z.of_nat (List.length l) = sum_Z (map (fun _ => 1) l).
Proof.
  induction l as [|x l IH]; [reflexivity|].
  cbn [List.length map]. rewrite Nat2Z.inj_succ, IH. unfold sum_Z. cbn [fold_right]. lia.
Qed.

Lemma stories_delete_story (db : DB) (now sid : Z) (s : StoryPost) :
  find_by_id db sid = Some s ->
  stories (snd (delete_story db now sid))
  = map (fun x => if id x =? sid then set_deleted true (Some now) x else x) (stories db)
  /\ comments (snd (delete_story db now sid)) = comments db.
Proof.
  intros Hf. unfold delete_story, soft_delete, exec_update. rewrite Hf.
  destruct (update_where_id sid _ (stories db)) as [l n] eqn:E.
  unfold update_where_id in E. injection E as <- _. split; reflexivity.
Qed.

(** X25: [StoryService.delete_story] takes a live story out of its
    author's [get_user_stats] (table ids unique, as the primary key makes
    them): the author's [stories_created_total] drops by one and its
    likes and shares leave [likes_received_total] and
    [shares_received_total]; every other user's stats, and everyone's
    [comments_written_total], stay as they were. *)
Theorem delete_story_stats (db : DB) (now sid : Z) (s : StoryPost) (u : Z) :
  NoDup (map id (stories db)) -> find_by_id db sid = Some s -> is_deleted s = false ->
  let db' := snd (delete_story db now sid) in
  let mine := author_is (author_id s) u in
  stats_get (get_user_stats db' u) "stories_created_total"
    = stats_get (get_user_stats db u) "stories_created_total" - (if mine then 1 else 0)
  /\ stats_get (get_user_stats db' u) "likes_received_total"
     = stats_get (get_user_stats db u) "likes_received_total"
       - (if mine then likes_count s else 0)
  /\ stats_get (get_user_stats db' u) "shares_received_total"
     = stats_get (get_user_stats db u) "shares_received_total"
       - (if mine then shares_count s else 0)
  /\ stats_get (get_user_stats db' u) "comments_written_total"
     = stats_get (get_user_stats db u) "comments_written_total".
Proof.
  intros Hnd Hf Hd. cbv zeta.
  destruct (stories_delete_story db now sid s Hf) as [S C].
  rewrite !stats_stories_created, !stats_likes_received, !stats_shares_received,
    !stats_comments_written, S, C, !length_sum_Z.
  assert (F : filter (authored_live u) (filter (fun x => id x =? sid) (stories db))
              = if author_is (author_id s) u then [s] else []).
  { unfold find_by_id in Hf. rewrite (filter_unique_id _ _ _ Hnd Hf). simpl.
    unfold authored_live, author_is. rewrite Hd.
    destruct (author_id s); simpl; [rewrite andb_true_r|]; reflexivity. }
  assert (Hoff : forall x, authored_live u (set_deleted true (Some now) x) = false).
  { intros [] . unfold authored_live. simpl. destruct author_id0; [apply andb_false_r|reflexivity]. }
  pose proof (sum_filter_update (authored_live u) (fun _ => 1) _ sid (stories db) Hoff) as N.
  pose proof (sum_filter_update (authored_live u) likes_count _ sid (stories db) Hoff) as Lk.
  pose proof (sum_filter_update (authored_live u) shares_count _ sid (stories db) Hoff) as Sh.
  rewrite F in N, Lk, Sh.
  destruct (author_is (author_id s) u); simpl in N, Lk, Sh.
  - split; [lia|]. split; [lia|]. split; [lia|reflexivity].
  - split; [lia|]. split; [lia|]. split; [lia|reflexivity].
Qed.

Lemma delete_story_stats_witness :
  NoDup (map id (stories ex_db)) /\ find_by_id ex_db 1 = Some ex_story
  /\ is_deleted ex_story = false
  /\ stats_get (get_user_stats (snd (delete_story ex_db 10 1)) 5) "stories_created_total"
     = stats_get (get_user_stats ex_db 5) "stories_created_total" - 1.
Proof.
  assert (H1 : NoDup (map id (stories ex_db))) by (simpl; constructor; [intros []|constructor]).
  assert (H2 : find_by_id ex_db 1 = Some ex_story) by reflexivity.
  assert (H3 : is_deleted ex_story = false) by reflexivity.
  split; [exact H1|]. split; [exact H2|]. split; [exact H3|].
  exact (proj1 (delete_story_stats ex_db 10 1 ex_story 5 H1 H2 H3)).
Defined.

(* ------------------------------------------------------------------ *)
(** ** The author's stats under add_comment and delete_comment *)

Lemma filter_map_update_frame (P : StoryPost -> bool) (col : StoryPost -> Z)
    (g : StoryPost -> StoryPost) (k : Z) (l : list StoryPost) :
  (forall x, P (g x) = P x) -> (forall x, col (g x) = col x) ->
  map col (filter P (map (fun x => if id x =? k then g x else x) l)) = map col (filter P l).
Proof.
  intros HP Hc. induction l as [|x l IH]; simpl; [reflexivity|].
  destruct (id x =? k); [rewrite HP|]; destruct (P x); simpl; rewrite ?Hc, ?IH; reflexivity.
Qed.

Lemma stories_exec_update (db : DB) (k : Z) (g : StoryPost -> StoryPost) :
  stories (fst (exec_update db k g)) = map (fun x => if id x =? k then g x else x) (stories db)
  /\ comments (fst (exec_update db k g)) = comments db.
Proof. unfold exec_update, update_where_id. split; reflexivity. Qed.

(** An update of [comments_count] alone leaves the story stats of every user. *)
Lemma story_stats_set_comments_count (db db' : DB) (k : Z) (v : StoryPost -> Z) (u : Z) :
  stories db' = map (fun x => if id x =? k then set_comments_count (v x) x else x) (stories db) ->
  stats_get (get_user_stats db' u) "stories_created_total"
    = stats_get (get_user_stats db u) "stories_created_total"
  /\ stats_get (get_user_stats db' u) "likes_received_total"
     = stats_get (get_user_stats db u) "likes_received_total"
  /\ stats_get (get_user_stats db' u) "shares_received_total"
     = stats_get (get_user_stats db u) "shares_received_total".
Proof.
  intros S.
  rewrite !stats_stories_created, !stats_likes_received, !stats_shares_received, S.
  assert (HP : forall x, authored_live u (set_comments_count (v x) x) = authored_live u x)
    by (intros []; reflexivity).
  pose proof (filter_map_update_frame (authored_live u) likes_count _ k (stories db) HP
                (fun x => match x with mkStoryPost _ _ _ _ _ _ _ _ _ _ _ _ _ _ _ _ _ _ => eq_refl end))
    as L.
  pose proof (filter_map_update_frame (authored_live u) shares_count _ k (stories db) HP
                (fun x => match x with mkStoryPost _ _ _ _ _ _ _ _ _ _ _ _ _ _ _ _ _ _ => eq_refl end))
    as Sh.
  rewrite L, Sh. split; [|split; reflexivity].
  f_equal. rewrite <- (length_map likes_count), L, length_map. reflexivity.
Qed.

Lemma count_remove_by (P : Comment -> bool) (L : list Comment) (c : Comment) (cid : Z) :
  NoDup (map c_id L) -> In c L -> c_id c = cid ->
  List.length (filter P L)
  = Nat.add (List.length (filter P (filter (fun c' => negb (c_id c' =? cid)) L)))
            (if P c then 1%nat else 0%nat).
Proof.
  intros Hnd Hin Hc. induction L as [|x L IH]; [destruct Hin|].
  simpl in Hnd. apply NoDup_cons_iff in Hnd as [Hx Hnd].
  cbn [filter]. destruct (c_id x =? cid) eqn:E; cbn [negb].
  - apply Z.eqb_eq in E.
    assert (x = c) as <-.
    { destruct Hin as [->|Hin]; [reflexivity|].
      exfalso. apply Hx. rewrite E, <- Hc. apply in_map, Hin. }
    rewrite (filter_all (fun c' => negb (c_id c' =? cid)) L).
    + destruct (P x); simpl; lia.
    + intros y Hy. apply negb_true_iff, Z.eqb_neq. intro Hyc. apply Hx.
      rewrite E, <- Hyc. apply in_map, Hy.
  - destruct Hin as [->|Hin]; [apply Z.eqb_neq in E; contradiction|].
    specialize (IH Hnd Hin). cbn [filter].
    destruct (P x); simpl; lia.
Qed.

(** X26: a comment counts once for its author in [get_user_stats]: a
    comment [CommentService.add_comment] accepts raises the author's
    [comments_written_total] by one (nobody's without an author id), and
    [CommentService.delete_comment] of an existing comment (comment ids
    unique) lowers it by one; neither changes any user's
    [stories_created_total], [likes_received_total] or
    [shares_received_total]. *)
Theorem comment_author_stats :
  (forall st now today nid sid name content aid u,
     comment_validate (mkComment nid sid (py_strip name) aid (py_strip content) now) = [] ->
     let db := tables st in
     let db' := tables (snd (add_comment st now today nid sid name content aid)) in
     stats_get (get_user_stats db' u) "comments_written_total"
       = stats_get (get_user_stats db u) "comments_written_total"
         + (if author_is aid u then 1 else 0)
     /\ stats_get (get_user_stats db' u) "stories_created_total"
        = stats_get (get_user_stats db u) "stories_created_total"
     /\ stats_get (get_user_stats db' u) "likes_received_total"
        = stats_get (get_user_stats db u) "likes_received_total"
     /\ stats_get (get_user_stats db' u) "shares_received_total"
        = stats_get (get_user_stats db u) "shares_received_total")
  /\ (forall db cid c u,
        NoDup (map c_id (comments db)) ->
        find (fun c => c_id c =? cid) (comments db) = Some c ->
        let db' := snd (comment_delete db cid) in
        stats_get (get_user_stats db' u) "comments_written_total"
          = stats_get (get_user_stats db u) "comments_written_total"
            - (if author_is (c_author_id c) u then 1 else 0)
        /\ stats_get (get_user_stats db' u) "stories_created_total"
           = stats_get (get_user_stats db u) "stories_created_total"
        /\ stats_get (get_user_stats db' u) "likes_received_total"
           = stats_get (get_user_stats db u) "likes_received_total"
        /\ stats_get (get_user_stats db' u) "shares_received_total"
           = stats_get (get_user_stats db u) "shares_received_total").
Proof.
  split.
  - intros st now today nid sid name content aid u Hv. cbv zeta.
    pose proof (add_comment_valid st now today nid sid name content aid Hv) as H.
    cbv zeta in H.
    destruct (add_comment st now today nid sid name content aid) as [[[res errs] newly] st'].
    destruct H as [_ [_ [[S [C _]] _]]]. cbn [snd].
    rewrite snd_comment_create in S, C.
    rewrite (proj1 (stories_exec_update _ _ _)) in S.
    rewrite (proj2 (stories_exec_update _ _ _)) in C.
    cbn [stories comments with_comments c_story_id] in S, C.
    destruct (story_stats_set_comments_count (tables st) (tables st') sid
                (fun s => comments_count s + 1) u S) as [A [B D]].
    split; [|split; [exact A|split; [exact B|exact D]]].
    rewrite !stats_comments_written, C, filter_app, length_app. simpl.
    destruct aid as [a|]; simpl; [|lia]. destruct (a =? u); simpl; lia.
  - intros db cid c u Hnd Hf. cbv zeta.
    rewrite (snd_comment_delete db cid c Hf).
    destruct (stories_exec_update (with_comments (filter (fun c' => negb (c_id c' =? cid))
                 (comments db)) db) (c_story_id c)
                 (fun s => set_comments_count (Z.max 0 (comments_count s - 1)) s)) as [S1 C1].
    cbn [stories comments with_comments] in S1, C1.
    destruct (story_stats_set_comments_count db _ (c_story_id c)
                (fun s => Z.max 0 (comments_count s - 1)) u S1) as [A [B D]].
    split; [|split; [exact A|split; [exact B|exact D]]].
    rewrite !stats_comments_written, C1.
    apply find_some in Hf as [Hin Hcid]. apply Z.eqb_eq in Hcid.
    rewrite (count_remove_by (fun c0 => match c_author_id c0 with
                                        | Some a => a =? u | None => false end)
               (comments db) c cid Hnd Hin Hcid).
    unfold author_is. destruct (c_author_id c) as [a|]; [destruct (a =? u)|]; lia.
Qed.

Lemma comment_author_stats_witness :
  comment_validate (mkComment 1 1 (py_strip " Ana ") (Some 5) (py_strip "Lovely story") 10) = []
  /\ stats_get (get_user_stats (tables (snd (add_comment (mkStore ex_db []) 10 "2026-10-19" 1 1
                                         " Ana " "Lovely story" (Some 5)))) 5)
       "comments_written_total"
     = stats_get (get_user_stats ex_db 5) "comments_written_total" + 1
  /\ NoDup (map c_id (comments ex_db_commented))
  /\ find (fun c => c_id c =? 1) (comments ex_db_commented) = Some ex_comment
  /\ stats_get (get_user_stats (snd (comment_delete ex_db_commented 1)) 6) "comments_written_total"
     = stats_get (get_user_stats ex_db_commented 6) "comments_written_total" - 1.
Proof.
  assert (H : comment_validate (mkComment 1 1 (py_strip " Ana ") (Some 5)
                                 (py_strip "Lovely story") 10) = []) by reflexivity.
  split; [exact H|].
  split; [exact (proj1 ((proj1 comment_author_stats) (mkStore ex_db []) 10 "2026-10-19"
                           1 1 " Ana " "Lovely story" (Some 5) 5 H))|].
  assert (H1 : NoDup (map c_id (comments ex_db_commented))) by (repeat constructor; simpl; tauto).
  assert (H2 : find (fun c => c_id c =? 1) (comments ex_db_commented) = Some ex_comment)
    by reflexivity.
  split; [exact H1|]. split; [exact H2|].
  exact (proj1 ((proj2 comment_author_stats) ex_db_commented 1 ex_comment 6 H1 H2)).
Defined.

(* ------------------------------------------------------------------ *)
(** ** The achievement catalog listings *)

Lemma insert_asc_id_head (x : Achievement) (l : list Achievement) :
  Forall (fun z => a_id x <= a_id z) l -> insert_asc_id x l = x :: l.
Proof.
  destruct l as [|y l]; [reflexivity|]. intros H. inversion H; subst. simpl.
  destruct (a_id x <=? a_id y) eqn:E; [reflexivity|]. apply Z.leb_gt in E. lia.
Qed.

Lemma Forall_filter_of {A} (P : A -> Prop) (p : A -> bool) (l : list A) :
  Forall P l -> Forall P (filter p l).
Proof. rewrite !Forall_forall. intros H x Hx. apply filter_In in Hx as [Hx _]. auto. Qed.

Lemma Forall_insert_asc_id (P : Achievement -> Prop) (x : Achievement) (l : list Achievement) :
  P x -> Forall P l -> Forall P (insert_asc_id x l).
Proof.
  intros Hx Hl. rewrite Forall_forall in *. intros y Hy.
  apply In_insert_asc_id in Hy as [<-|Hy]; auto.
Qed.

Lemma StronglySorted_insert_asc_id (x : Achievement) (l : list Achievement) :
  StronglySorted (fun a b => a_id a <= a_id b) l ->
  StronglySorted (fun a b => a_id a <= a_id b) (insert_asc_id x l).
Proof.
  induction l as [|y l IH]; intros H; simpl.
  - repeat constructor.
  - inversion H as [|? ? Hl Hy]; subst.
    destruct (a_id x <=? a_id y) eqn:E.
    + apply Z.leb_le in E. constructor; [exact H|].
      constructor; [exact E|]. eapply Forall_impl; [|exact Hy]. intros z Hz; simpl in Hz; lia.
    + apply Z.leb_gt in E. constructor; [apply IH, Hl|].
      apply Forall_insert_asc_id; [simpl; lia|exact Hy].
Qed.

Lemma StronglySorted_sort_asc_id (l : list Achievement) :
  StronglySorted (fun a b => a_id a <= a_id b) (sort_asc_id l).
Proof.
  induction l as [|x l IH]; simpl; [constructor|]. apply StronglySorted_insert_asc_id, IH.
Qed.

Lemma filter_insert_asc_id (p : Achievement -> bool) (x : Achievement) (l : list Achievement) :
  StronglySorted (fun a b => a_id a <= a_id b) l ->
  filter p (insert_asc_id x l) = if p x then insert_asc_id x (filter p l) else filter p l.
Proof.
  induction l as [|y l IH]; intros H; simpl.
  - destruct (p x); reflexivity.
  - inversion H as [|? ? Hl Hy]; subst.
    destruct (a_id x <=? a_id y) eqn:E.
    + apply Z.leb_le in E. simpl. destruct (p x); [|reflexivity].
      symmetry. apply insert_asc_id_head.
      apply (Forall_filter_of _ p (y :: l)). constructor; [exact E|].
      eapply Forall_impl; [|exact Hy]. intros z Hz; simpl in Hz; lia.
    + apply Z.leb_gt in E. simpl. rewrite (IH Hl).
      destruct (p y), (p x); simpl; try reflexivity.
      replace (a_id x <=? a_id y) with false by (symmetry; apply Z.leb_gt; lia).
      reflexivity.
Qed.

Lemma filter_sort_asc_id (p : Achievement -> bool) (l : list Achievement) :
  filter p (sort_asc_id l) = sort_asc_id (filter p l).
Proof.
  induction l as [|x l IH]; simpl; [reflexivity|].
  rewrite filter_insert_asc_id by apply StronglySorted_sort_asc_id.
  rewrite IH. destruct (p x); reflexivity.
Qed.

(** X27: [AchievementRepository.find_all] lists every achievement, by id
    ascending, with its badge links loaded, and [find_all_active] (what
    [evaluate_and_award] walks) is exactly its active entries, in the same
    order. *)
Theorem achievement_listings (db : DB) :
  (forall a, In a (ach_find_all db)
             <-> exists a0, In a0 (achievements db) /\ a = load_badge_ids db a0)
  /\ StronglySorted (fun a b => a_id a <= a_id b) (ach_find_all db)
  /\ find_all_active db = filter active (ach_find_all db).
Proof.
  unfold ach_find_all, find_all_active. split; [|split].
  - intros a. rewrite in_map_iff. split.
    + intros [a0 [<- H]]. exists a0. split; [apply In_sort_asc_id, H|reflexivity].
    + intros [a0 [H ->]]. exists a0. split; [reflexivity|apply In_sort_asc_id, H].
  - pose proof (StronglySorted_sort_asc_id (achievements db)) as H.
    induction H as [|x l Hl IH Hx]; simpl; constructor; [exact IH|].
    apply Forall_map. eapply Forall_impl; [|exact Hx]. intros z Hz. exact Hz.
  - rewrite <- filter_sort_asc_id.
    induction (sort_asc_id (achievements db)) as [|x l IH]; simpl; [reflexivity|].
    destruct (active x); simpl; rewrite IH; reflexivity.
Qed.
